(** * Chimera 3.2.3: the session coordinator, its pending-request table and
    the contracts of the actor runtime it talks to.

    The development embeds [actors/user_session_actor.py] (the [UserSession]
    model and the [UserSessionActor]) and [config/settings.py] as Rocq
    functions.  Code the repository keeps in files that are not part of the
    sources read here ([actors/actor_system.py], [actors/base_actor.py],
    [actors/memory_actor.py], [actors/messages.py], [actors/events/*.py],
    [utils/event_utils.py], [config/prompts.py]) is either a field of the
    [Collaborators] class or a definition marked [Modelled from the spec]. *)

From Stdlib Require Import ZArith String List Bool Lia PrimFloat DecimalString.
From stdpp Require Import base list strings gmap.

Set Warnings "-register-all".
Open Scope string_scope.
Open Scope list_scope.
Open Scope Z_scope.

(* ===================================================================== *)
(** * Part I. Definitions                                                 *)
(* ===================================================================== *)

(** ** Python values, exceptions and outcomes *)

(** The values a message payload ([Dict[str, Any]]) holds.  A [datetime] is
    its number of microseconds since the epoch; a [float] is a binary64. *)
Inductive Value : Type :=
| VNone
| VBool (b : bool)
| VInt (z : Z)
| VFloat (f : float)
| VStr (s : string)
| VDatetime (t : Z)
| VList (l : list Value)
| VDict (d : list (string * Value)).

(** [bool(v)], as [not v] and [if v] read it. *)
Definition truthy (v : Value) : bool :=
  match v with
  | VNone => false
  | VBool b => b
  | VInt z => negb (Z.eqb z 0)
  | VFloat f => negb (PrimFloat.eqb f 0%float)
  | VStr s => negb (String.eqb s "")
  | VDatetime _ => true
  | VList l => match l with [] => false | _ => true end
  | VDict d => match d with [] => false | _ => true end
  end.

(** Lists and dicts are unhashable: using one as a dict key raises. *)
Definition hashable (v : Value) : bool :=
  match v with
  | VList _ | VDict _ => false
  | _ => true
  end.

(** The exceptions the embedded code can meet.  All of them are subclasses
    of [Exception] except [CancelledError], which derives from
    [BaseException] and is what task cancellation raises at an [await].
    [KeyboardInterrupt] and [SystemExit], which the interpreter raises when
    the process is told to end, are not raised by any call embedded here. *)
Inductive PyExc : Type :=
| CancelledError
| KeyError (key : string)
| TypeError (what : string)
| AttributeError (attr : string)
| ValueError (what : string)
| ValidationError (field : string)
| UnknownActorError (target : string)
| MailboxFullError (target : string)
| RuntimeError (what : string).

Definition is_Exception (e : PyExc) : bool :=
  match e with
  | CancelledError => false
  | _ => true
  end.

Inductive Outcome (A : Type) : Type :=
| Return (a : A)
| Raise (e : PyExc).
Arguments Return {A} a.
Arguments Raise {A} e.

Definition returned {A} (o : Outcome A) : bool :=
  match o with Return _ => true | Raise _ => false end.

(** A computation over a mutable object of type [S].  What was mutated
    before an exception stays mutated, so the state is returned in both
    cases. *)
Definition Act (S A : Type) : Type := S -> S * Outcome A.

Definition act_ret {S A} (a : A) : Act S A := fun st => (st, Return a).
Definition act_raise {S A} (e : PyExc) : Act S A := fun st => (st, Raise e).
Definition act_bind {S A B} (m : Act S A) (k : A -> Act S B) : Act S B :=
  fun st =>
    match m st with
    | (st', Return a) => k a st'
    | (st', Raise e) => (st', Raise e)
    end.
Definition act_lift {S A} (o : Outcome A) : Act S A := fun st => (st, o).
Definition act_get {S} : Act S S := fun st => (st, Return st).
Definition act_modify {S} (f : S -> S) : Act S unit := fun st => (f st, Return tt).
Definition act_when {S} (c : bool) (m : Act S unit) : Act S unit :=
  if c then m else act_ret tt.

Declare Scope act_scope.
Delimit Scope act_scope with act.
Notation "x <- m ;; k" := (act_bind m (fun x => k))
  (at level 100, m at next level, right associativity) : act_scope.
Notation "m ;;; k" := (act_bind m (fun _ => k))
  (at level 100, right associativity) : act_scope.

(** ** Insertion-ordered dictionaries with string keys

    A Python [dict] iterates in insertion order; assigning to a key that is
    present keeps its place. *)
Fixpoint dict_get {V} (k : string) (d : list (string * V)) : option V :=
  match d with
  | [] => None
  | (k', v) :: d' => if String.eqb k k' then Some v else dict_get k d'
  end.

Fixpoint dict_set {V} (k : string) (v : V) (d : list (string * V)) : list (string * V) :=
  match d with
  | [] => [(k, v)]
  | (k', v') :: d' =>
      if String.eqb k k' then (k, v) :: d' else (k', v') :: dict_set k v d'
  end.

Fixpoint dict_pop {V} (k : string) (d : list (string * V)) : list (string * V) :=
  match d with
  | [] => []
  | (k', v') :: d' =>
      if String.eqb k k' then d' else (k', v') :: dict_pop k d'
  end.

Definition dict_keys {V} (d : list (string * V)) : list string := map fst d.

Definition dict_mem {V} (k : string) (d : list (string * V)) : bool :=
  match dict_get k d with Some _ => true | None => false end.

(** [d[k]] *)
Definition subscript (d : list (string * Value)) (k : string) : Outcome Value :=
  match dict_get k d with
  | Some v => Return v
  | None => Raise (KeyError k)
  end.

(** [d.get(k, default)]; [d.get(k)] is [get_default d k VNone]. *)
Definition get_default (d : list (string * Value)) (k : string) (default : Value) : Value :=
  match dict_get k d with
  | Some v => v
  | None => default
  end.

(** [l[-n:]] for [n > 0]. *)
Definition lastn {A} (n : nat) (l : list A) : list A :=
  drop (length l - n)%nat l.

(** A [string] holds a Python [str] as its UTF-8 bytes, the way a literal of
    this file is read.  A character is a byte that is no continuation byte
    ([10xxxxxx]) together with the continuation bytes that follow it, so
    [len(s)] counts the bytes that start a character and [s[:n]] is the
    prefix made of the first [n] characters. *)
Definition is_continuation (a : Ascii.ascii) : bool :=
  match a with
  | Ascii.Ascii _ _ _ _ _ _ b6 b7 => b7 && negb b6
  end.

Fixpoint str_len (s : string) : nat :=
  match s with
  | EmptyString => 0%nat
  | String a s' => ((if is_continuation a then 0 else 1) + str_len s')%nat
  end.

Fixpoint str_prefix (n : nat) (s : string) : string :=
  match s with
  | EmptyString => EmptyString
  | String a s' =>
      if is_continuation a then String a (str_prefix n s')
      else match n with
           | O => EmptyString
           | S n' => String a (str_prefix n' s')
           end
  end.

(** ** config/settings.py *)

Definition ACTOR_MESSAGE_QUEUE_SIZE : Z := 1000.
Definition ACTOR_MESSAGE_MAX_RETRIES : Z := 3.
Definition DLQ_MAX_SIZE : Z := 1000.
Definition MODE_HISTORY_SIZE : Z := 5.
Definition PYDANTIC_CONFIDENCE_MIN : float := 0.0%float.
Definition PYDANTIC_CONFIDENCE_MAX : float := 1.0%float.
Definition PYDANTIC_MODE_HISTORY_MAX_SIZE : Z := 10.
Definition PYDANTIC_CACHE_METRICS_MAX_SIZE : Z := 100.
Definition STM_BUFFER_SIZE : Z := 50.
Definition STM_MESSAGE_MAX_LENGTH : Z := 4000.
Definition STM_CONTEXT_SIZE_FOR_GENERATION : Z := 20.
Definition STM_CONTEXT_REQUEST_TIMEOUT : Z := 30.

(** ** Message envelopes and event records *)

(** The names the sources look up in [MESSAGE_TYPES]. *)
Inductive MessageKind : Type :=
| USER_MESSAGE
| GENERATE_RESPONSE
| BOT_RESPONSE
| CACHE_HIT_METRIC
| STORE_MEMORY
| GET_CONTEXT
| CONTEXT_RESPONSE
| CLEAR_USER_MEMORY.

(** Modelled from the spec: the [MESSAGE_TYPES] table of [actors/messages.py],
    which is not among the sources.  The spec calls it a closed, process-wide
    catalog of message type identifiers; each name the sources use gets one
    identifier, distinct from the others. *)
Definition MESSAGE_TYPES (k : MessageKind) : string :=
  match k with
  | USER_MESSAGE => "user_message"
  | GENERATE_RESPONSE => "generate_response"
  | BOT_RESPONSE => "bot_response"
  | CACHE_HIT_METRIC => "cache_hit_metric"
  | STORE_MEMORY => "store_memory"
  | GET_CONTEXT => "get_context"
  | CONTEXT_RESPONSE => "context_response"
  | CLEAR_USER_MEMORY => "clear_user_memory"
  end.

(** Modelled from the spec: the [ActorMessage] envelope of
    [actors/messages.py], which is not among the sources.  The fields are
    those [ActorMessage.create] is called with; the message id and creation
    timestamp the envelope also carries are generated inside [create] and no
    embedded code reads them. *)
Record ActorMessage : Type := {
  sender_id : string;
  message_type : string;
  payload : list (string * Value);
  reply_to : option string
}.

Definition ActorMessage_create (sender : string) (mtype : string)
    (pl : list (string * Value)) (reply : option string) : ActorMessage :=
  {| sender_id := sender; message_type := mtype; payload := pl; reply_to := reply |}.

(** Modelled from the spec: the Event Record of [actors/events/base_event.py],
    which is not among the sources.  [BaseEvent.create] is called with a stream
    id, an event type and a data mapping; the store assigns the version when
    the event is appended. *)
Record BaseEvent : Type := {
  stream_id : string;
  event_type : string;
  data : list (string * Value);
  version : Z
}.

Definition BaseEvent_create (stream : string) (etype : string)
    (d : list (string * Value)) : BaseEvent :=
  {| stream_id := stream; event_type := etype; data := d; version := 0 |}.

(** ** [UserSession]: the pydantic model *)

Record UserSession : Type := {
  user_id : string;
  username : option string;
  message_count : Z;
  created_at : Z;
  last_activity : Z;
  cache_metrics : list Value;
  current_mode : string;
  mode_confidence : float;
  mode_history : list string;
  last_mode_change : option Z
}.

Definition valid_modes : list string := ["talk"; "expert"; "creative"; "base"].

(** [not MIN <= v <= MAX] is [not (MIN <= v and v <= MAX)]. *)
Definition validate_confidence (v : float) : Outcome float :=
  if negb (PrimFloat.leb PYDANTIC_CONFIDENCE_MIN v && PrimFloat.leb v PYDANTIC_CONFIDENCE_MAX)
  then Raise (ValueError "Mode confidence must be between 0.0 and 1.0")
  else Return v.

Definition validate_mode (v : string) : Outcome string :=
  if negb (existsb (String.eqb v) valid_modes)
  then Raise (ValueError "Invalid mode")
  else Return v.

Definition validate_mode_history_size (v : list string) : Outcome (list string) :=
  if PYDANTIC_MODE_HISTORY_MAX_SIZE <? Z.of_nat (length v)
  then Return (lastn (Z.to_nat PYDANTIC_MODE_HISTORY_MAX_SIZE) v)
  else Return v.

Definition validate_cache_metrics_size (v : list Value) : Outcome (list Value) :=
  if PYDANTIC_CACHE_METRICS_MAX_SIZE <? Z.of_nat (length v)
  then Return (lastn (Z.to_nat PYDANTIC_CACHE_METRICS_MAX_SIZE) v)
  else Return v.

Definition no_validator {A} (v : A) : Outcome A := Return v.

(** pydantic runs a field's validators on a value that is given and reports
    a [ValueError] they raise as a [ValidationError]; a default is taken as
    it is (defaults are not validated). *)
Definition run_validator {A} (field : string) (validator : A -> Outcome A) (v : A) : Outcome A :=
  match validator v with
  | Return v' => Return v'
  | Raise _ => Raise (ValidationError field)
  end.

Definition field_value {A} (field : string) (validator : A -> Outcome A)
    (given : option A) (default : A) : Outcome A :=
  match given with
  | Some v => run_validator field validator v
  | None => Return default
  end.

Definition outcome_bind {A B} (o : Outcome A) (k : A -> Outcome B) : Outcome B :=
  match o with
  | Return a => k a
  | Raise e => Raise e
  end.

(** The keyword arguments of [UserSession(...)], each already of its field's
    type: the type coercion pydantic performs before the field validators is
    the library's own and is not embedded.  [user_id] is required. *)
Record UserSessionArgs : Type := {
  arg_user_id : string;
  arg_username : option (option string);
  arg_message_count : option Z;
  arg_created_at : option Z;
  arg_last_activity : option Z;
  arg_cache_metrics : option (list Value);
  arg_current_mode : option string;
  arg_mode_confidence : option float;
  arg_mode_history : option (list string);
  arg_last_mode_change : option (option Z)
}.

(** [UserSession(user_id=..., username=...)], the only call the actor makes. *)
Definition session_args (uid : string) (uname : option string) : UserSessionArgs :=
  {| arg_user_id := uid; arg_username := Some uname; arg_message_count := None;
     arg_created_at := None; arg_last_activity := None; arg_cache_metrics := None;
     arg_current_mode := None; arg_mode_confidence := None; arg_mode_history := None;
     arg_last_mode_change := None |}.

(** The constructor call with keyword arguments [args] at time [now] (the [default_factory] of the two
    timestamps is [datetime.now]). *)
Definition UserSession_init (now : Z) (args : UserSessionArgs) : Outcome UserSession :=
  outcome_bind (field_value "cache_metrics" validate_cache_metrics_size (arg_cache_metrics args) []) (fun cm =>
  outcome_bind (field_value "current_mode" validate_mode (arg_current_mode args) "talk") (fun mode =>
  outcome_bind (field_value "mode_confidence" validate_confidence (arg_mode_confidence args) 0.0%float) (fun conf =>
  outcome_bind (field_value "mode_history" validate_mode_history_size (arg_mode_history args) []) (fun hist =>
  Return {| user_id := arg_user_id args;
            username := default None (arg_username args);
            message_count := default 0 (arg_message_count args);
            created_at := default now (arg_created_at args);
            last_activity := default now (arg_last_activity args);
            cache_metrics := cm;
            current_mode := mode;
            mode_confidence := conf;
            mode_history := hist;
            last_mode_change := default None (arg_last_mode_change args) |})))).

(** [session.<field> = v].  The model has [validate_assignment=True], so the
    field's validators run on every assignment.  They run on a value of the
    field's type: pydantic checks and coerces the type first.  For
    [cache_metrics] that step, the coercion to [List[float]], is the
    parameter [pydantic_float_list] of the actor, which the assignment in
    [_update_cache_metrics] runs before [Set_cache_metrics]; the list that
    [Set_cache_metrics] and the constructor take is the coerced one. *)
Inductive FieldAssign : Type :=
| Set_user_id (v : string)
| Set_username (v : option string)
| Set_message_count (v : Z)
| Set_created_at (v : Z)
| Set_last_activity (v : Z)
| Set_cache_metrics (v : list Value)
| Set_current_mode (v : string)
| Set_mode_confidence (v : float)
| Set_mode_history (v : list string)
| Set_last_mode_change (v : option Z).

Definition with_user_id (v : string) (s : UserSession) : UserSession :=
  {| user_id := v; username := username s; message_count := message_count s;
     created_at := created_at s; last_activity := last_activity s;
     cache_metrics := cache_metrics s; current_mode := current_mode s;
     mode_confidence := mode_confidence s; mode_history := mode_history s;
     last_mode_change := last_mode_change s |}.
Definition with_username (v : option string) (s : UserSession) : UserSession :=
  {| user_id := user_id s; username := v; message_count := message_count s;
     created_at := created_at s; last_activity := last_activity s;
     cache_metrics := cache_metrics s; current_mode := current_mode s;
     mode_confidence := mode_confidence s; mode_history := mode_history s;
     last_mode_change := last_mode_change s |}.
Definition with_message_count (v : Z) (s : UserSession) : UserSession :=
  {| user_id := user_id s; username := username s; message_count := v;
     created_at := created_at s; last_activity := last_activity s;
     cache_metrics := cache_metrics s; current_mode := current_mode s;
     mode_confidence := mode_confidence s; mode_history := mode_history s;
     last_mode_change := last_mode_change s |}.
Definition with_created_at (v : Z) (s : UserSession) : UserSession :=
  {| user_id := user_id s; username := username s; message_count := message_count s;
     created_at := v; last_activity := last_activity s;
     cache_metrics := cache_metrics s; current_mode := current_mode s;
     mode_confidence := mode_confidence s; mode_history := mode_history s;
     last_mode_change := last_mode_change s |}.
Definition with_last_activity (v : Z) (s : UserSession) : UserSession :=
  {| user_id := user_id s; username := username s; message_count := message_count s;
     created_at := created_at s; last_activity := v;
     cache_metrics := cache_metrics s; current_mode := current_mode s;
     mode_confidence := mode_confidence s; mode_history := mode_history s;
     last_mode_change := last_mode_change s |}.
Definition with_cache_metrics (v : list Value) (s : UserSession) : UserSession :=
  {| user_id := user_id s; username := username s; message_count := message_count s;
     created_at := created_at s; last_activity := last_activity s;
     cache_metrics := v; current_mode := current_mode s;
     mode_confidence := mode_confidence s; mode_history := mode_history s;
     last_mode_change := last_mode_change s |}.
Definition with_current_mode (v : string) (s : UserSession) : UserSession :=
  {| user_id := user_id s; username := username s; message_count := message_count s;
     created_at := created_at s; last_activity := last_activity s;
     cache_metrics := cache_metrics s; current_mode := v;
     mode_confidence := mode_confidence s; mode_history := mode_history s;
     last_mode_change := last_mode_change s |}.
Definition with_mode_confidence (v : float) (s : UserSession) : UserSession :=
  {| user_id := user_id s; username := username s; message_count := message_count s;
     created_at := created_at s; last_activity := last_activity s;
     cache_metrics := cache_metrics s; current_mode := current_mode s;
     mode_confidence := v; mode_history := mode_history s;
     last_mode_change := last_mode_change s |}.
Definition with_mode_history (v : list string) (s : UserSession) : UserSession :=
  {| user_id := user_id s; username := username s; message_count := message_count s;
     created_at := created_at s; last_activity := last_activity s;
     cache_metrics := cache_metrics s; current_mode := current_mode s;
     mode_confidence := mode_confidence s; mode_history := v;
     last_mode_change := last_mode_change s |}.
Definition with_last_mode_change (v : option Z) (s : UserSession) : UserSession :=
  {| user_id := user_id s; username := username s; message_count := message_count s;
     created_at := created_at s; last_activity := last_activity s;
     cache_metrics := cache_metrics s; current_mode := current_mode s;
     mode_confidence := mode_confidence s; mode_history := mode_history s;
     last_mode_change := v |}.

Definition UserSession_setattr (s : UserSession) (a : FieldAssign) : Outcome UserSession :=
  match a with
  | Set_user_id v => Return (with_user_id v s)
  | Set_username v => Return (with_username v s)
  | Set_message_count v => Return (with_message_count v s)
  | Set_created_at v => Return (with_created_at v s)
  | Set_last_activity v => Return (with_last_activity v s)
  | Set_cache_metrics v =>
      outcome_bind (run_validator "cache_metrics" validate_cache_metrics_size v)
        (fun v' => Return (with_cache_metrics v' s))
  | Set_current_mode v =>
      outcome_bind (run_validator "current_mode" validate_mode v)
        (fun v' => Return (with_current_mode v' s))
  | Set_mode_confidence v =>
      outcome_bind (run_validator "mode_confidence" validate_confidence v)
        (fun v' => Return (with_mode_confidence v' s))
  | Set_mode_history v =>
      outcome_bind (run_validator "mode_history" validate_mode_history_size v)
        (fun v' => Return (with_mode_history v' s))
  | Set_last_mode_change v => Return (with_last_mode_change v s)
  end.

(** In-place mutation of the two list fields: [list.append] and
    [list.pop(0)] act on the list object the session holds and run no
    validator. *)
Definition mode_history_append (m : string) (s : UserSession) : UserSession :=
  with_mode_history (mode_history s ++ [m]) s.
Definition mode_history_pop0 (s : UserSession) : UserSession :=
  with_mode_history (tail (mode_history s)) s.
Definition cache_metrics_append (v : Value) (s : UserSession) : UserSession :=
  with_cache_metrics (cache_metrics s ++ [v]) s.

(** A value of the model as Python code can reach it: built by the
    constructor, then assigned to or mutated in place. *)
Inductive session_reachable : UserSession -> Prop :=
| reach_init now args s :
    UserSession_init now args = Return s -> session_reachable s
| reach_setattr s a s' :
    session_reachable s -> UserSession_setattr s a = Return s' -> session_reachable s'
| reach_history_append s m :
    session_reachable s -> session_reachable (mode_history_append m s)
| reach_history_pop0 s :
    session_reachable s -> session_reachable (mode_history_pop0 s)
| reach_metrics_append s v :
    session_reachable s -> session_reachable (cache_metrics_append v s).

Definition mode_is_valid (s : UserSession) : bool :=
  existsb (String.eqb (current_mode s)) valid_modes.
Definition confidence_in_range (s : UserSession) : bool :=
  PrimFloat.leb PYDANTIC_CONFIDENCE_MIN (mode_confidence s)
  && PrimFloat.leb (mode_confidence s) PYDANTIC_CONFIDENCE_MAX.

(** ** [UserSessionActor] *)

Inductive LogLevel : Type := DEBUG | INFO | WARNING | ERROR.

(** The entry [_handle_user_message] stores under a request id: a dict
    literal with these nine keys. *)
Record PendingRequest : Type := {
  pending_user_id : Value;
  pending_chat_id : Value;
  pending_text : Value;
  pending_include_prompt : bool;
  pending_message_count : Z;
  pending_session_data : list (string * Value);
  pending_mode : string;
  pending_mode_confidence : float;
  pending_timestamp : Z
}.

(** What the actor calls and the sources do not contain.  [System] is the
    actor system the actor is registered with.
    - [send_message]: [ActorSystem.send_message(actor_id, message)];
    - [append_event]: [EventVersionManager.append_event(event, actor_system)]
      for an actor that has a system, [append_event_detached] for one whose
      [get_actor_system()] is [None];
    - [_determine_generation_mode], [_should_include_prompt],
      [_get_prompt_reason]: the mode detection and prompt policy of the
      actor, which read [config/prompts.py] and compute on floats; the spec
      leaves them out of scope, and the actor's message flow uses only their
      results.  The detection returns the mode, the confidence and the
      detection details it stores in [_last_detection_details] (if any).
      Its log records and the [PatternDebugEvent] it schedules as a task of
      its own when the logger is enabled for DEBUG are not in the handler
      model: [determine_generation_mode] below has them, and a statement
      about the exact events of a call takes the field to be that function
      with DEBUG off.  The two policy fields stand for calls that return;
      [should_include_prompt] and [get_prompt_reason] below have their
      exceptions;
    - [prompt_strategy]: [PROMPT_CONFIG["prompt_strategy"]];
    - [pydantic_float_list]: pydantic's coercion of a value to [List[float]];
    - [isoformat]: [datetime.isoformat]. *)
Class Collaborators (System : Type) : Type := {
  send_message : System -> string -> ActorMessage -> System * Outcome unit;
  append_event : BaseEvent -> System -> System * Outcome unit;
  append_event_detached : BaseEvent -> Outcome unit;
  _determine_generation_mode : Value -> UserSession -> Outcome (string * float * option Value);
  _should_include_prompt : UserSession -> bool;
  _get_prompt_reason : UserSession -> string;
  prompt_strategy : Value;
  pydantic_float_list : list Value -> Outcome (list Value);
  isoformat : Z -> string
}.

(** A log record: level, message text and the values interpolated into it. *)
Record LogRecord : Type := {
  log_level : LogLevel;
  log_text : string;
  log_args : list Value
}.

(** The actor object.  [actor_system] is what [get_actor_system()] returns.
    [sent], [appended] and [logged] record, in order, the [send_message]
    calls that returned, the events handed to the version manager and the
    log records: they are what the actor does to the outside. *)
Record UserSessionActor (System : Type) : Type := {
  actor_id : string;
  _sessions : gmap string UserSession;
  _last_detection_details : Value;
  _pending_requests : list (string * PendingRequest);
  actor_system : option System;
  sent : list (string * ActorMessage);
  appended : list BaseEvent;
  logged : list LogRecord
}.
Arguments actor_id {System} _.
Arguments _sessions {System} _.
Arguments _last_detection_details {System} _.
Arguments _pending_requests {System} _.
Arguments actor_system {System} _.
Arguments sent {System} _.
Arguments appended {System} _.
Arguments logged {System} _.

(** [UserSessionActor()] *)
Definition UserSessionActor_new (System : Type) : UserSessionActor System :=
  {| actor_id := "user_session"; _sessions := ∅; _last_detection_details := VDict [];
     _pending_requests := []; actor_system := None; sent := []; appended := [];
     logged := [] |}.

Section Actor.
Context {System : Type} {C : Collaborators System}.

Definition with_sessions (v : gmap string UserSession) (st : UserSessionActor System) : UserSessionActor System :=
  {| actor_id := actor_id st; _sessions := v;
     _last_detection_details := _last_detection_details st;
     _pending_requests := _pending_requests st; actor_system := actor_system st;
     sent := sent st; appended := appended st; logged := logged st |}.
Definition with_details (v : Value) (st : UserSessionActor System) : UserSessionActor System :=
  {| actor_id := actor_id st; _sessions := _sessions st;
     _last_detection_details := v;
     _pending_requests := _pending_requests st; actor_system := actor_system st;
     sent := sent st; appended := appended st; logged := logged st |}.
Definition with_pending (v : list (string * PendingRequest)) (st : UserSessionActor System) : UserSessionActor System :=
  {| actor_id := actor_id st; _sessions := _sessions st;
     _last_detection_details := _last_detection_details st;
     _pending_requests := v; actor_system := actor_system st;
     sent := sent st; appended := appended st; logged := logged st |}.
Definition with_system (v : option System) (st : UserSessionActor System) : UserSessionActor System :=
  {| actor_id := actor_id st; _sessions := _sessions st;
     _last_detection_details := _last_detection_details st;
     _pending_requests := _pending_requests st; actor_system := v;
     sent := sent st; appended := appended st; logged := logged st |}.
Definition with_sent (v : list (string * ActorMessage)) (st : UserSessionActor System) : UserSessionActor System :=
  {| actor_id := actor_id st; _sessions := _sessions st;
     _last_detection_details := _last_detection_details st;
     _pending_requests := _pending_requests st; actor_system := actor_system st;
     sent := v; appended := appended st; logged := logged st |}.
Definition with_appended (v : list BaseEvent) (st : UserSessionActor System) : UserSessionActor System :=
  {| actor_id := actor_id st; _sessions := _sessions st;
     _last_detection_details := _last_detection_details st;
     _pending_requests := _pending_requests st; actor_system := actor_system st;
     sent := sent st; appended := v; logged := logged st |}.
Definition with_logged (v : list LogRecord) (st : UserSessionActor System) : UserSessionActor System :=
  {| actor_id := actor_id st; _sessions := _sessions st;
     _last_detection_details := _last_detection_details st;
     _pending_requests := _pending_requests st; actor_system := actor_system st;
     sent := sent st; appended := appended st; logged := v |}.

(** [self.logger.<level>(f"text {arg} ...")] *)
Definition log (lvl : LogLevel) (text : string) (args : list Value)
    : Act (UserSessionActor System) unit :=
  act_modify (fun st =>
    with_logged (logged st ++ [{| log_level := lvl; log_text := text; log_args := args |}]) st).

(** [if self.get_actor_system():] *)
Definition has_actor_system (st : UserSessionActor System) : bool :=
  match actor_system st with Some _ => true | None => false end.

(** [await self.get_actor_system().send_message(target, msg)].  Without a
    system the attribute access on [None] raises. *)
Definition system_send_message (target : string) (msg : ActorMessage)
    : Act (UserSessionActor System) unit :=
  fun st =>
    match actor_system st with
    | None => (st, Raise (AttributeError "send_message"))
    | Some sys =>
        match send_message sys target msg with
        | (sys', Return _) =>
            (with_sent (sent st ++ [(target, msg)]) (with_system (Some sys') st), Return tt)
        | (sys', Raise e) => (with_system (Some sys') st, Raise e)
        end
    end.

(** [if self.get_actor_system(): await ...send_message(target, msg)] *)
Definition send_if_system (target : string) (msg : ActorMessage)
    : Act (UserSessionActor System) unit :=
  fun st => if has_actor_system st then system_send_message target msg st else (st, Return tt).

Definition _append_event (event : BaseEvent) : Act (UserSessionActor System) unit :=
  fun st =>
    match actor_system st with
    | Some sys =>
        match append_event event sys with
        | (sys', Return _) =>
            (with_appended (appended st ++ [event]) (with_system (Some sys') st), Return tt)
        | (sys', Raise e) => (with_system (Some sys') st, Raise e)
        end
    | None =>
        match append_event_detached event with
        | Return _ => (with_appended (appended st ++ [event]) st, Return tt)
        | Raise e => (st, Raise e)
        end
    end.

(** [session] is a reference to the object stored in [_sessions]: reading a
    field reads the table, assigning or mutating writes it. *)
Definition the_session (uid : string) : Act (UserSessionActor System) UserSession :=
  fun st =>
    match _sessions st !! uid with
    | Some s => (st, Return s)
    | None => (st, Raise (KeyError uid))
    end.

Definition put_session (uid : string) (s : UserSession) : Act (UserSessionActor System) unit :=
  act_modify (fun st => with_sessions (<[uid := s]> (_sessions st)) st).

Definition session_setattr (uid : string) (a : FieldAssign) : Act (UserSessionActor System) unit :=
  (s <- the_session uid ;;
   s' <- act_lift (UserSession_setattr s a) ;;
   put_session uid s')%act.

Definition session_mutate (uid : string) (f : UserSession -> UserSession)
    : Act (UserSessionActor System) unit :=
  (s <- the_session uid ;; put_session uid (f s))%act.

Fixpoint act_for {S A} (l : list A) (body : A -> Act S unit) : Act S unit :=
  match l with
  | [] => act_ret tt
  | x :: l' => act_bind (body x) (fun _ => act_for l' body)
  end.

(** The object as a call left it, whether the call returned or raised. *)
Definition state_after {S A} (r : S * Outcome A) : S := fst r.

(** [len(v)] *)
Definition py_len (v : Value) : Outcome Z :=
  match v with
  | VStr s => Return (Z.of_nat (str_len s))
  | VList l => Return (Z.of_nat (length l))
  | VDict d => Return (Z.of_nat (length d))
  | _ => Raise (TypeError "object has no len()")
  end.

Definition value_of_option (o : option string) : Value :=
  match o with Some s => VStr s | None => VNone end.

(** The branch of [_get_or_create_session] that creates the session:
    [UserSession(user_id=user_id, username=username)] (a username that is
    neither a string nor [None] fails the model's validation), the
    [SessionCreatedEvent] and the log line. *)
Definition create_session (now : Z) (uid : string) (username : Value)
    : Act (UserSessionActor System) unit :=
  (uname <- match username with
            | VNone => act_ret None
            | VStr u => act_ret (Some u)
            | _ => act_raise (ValidationError "username")
            end ;;
   session <- act_lift (UserSession_init now (session_args uid uname)) ;;
   put_session uid session ;;;
   _append_event (BaseEvent_create (String.append "user_" uid) "SessionCreatedEvent"
     [("user_id", VStr uid); ("username", username);
      ("created_at", VStr (isoformat (created_at session)))]) ;;;
   log INFO "Created new session for user" [VStr uid])%act.

(** [_get_or_create_session(user_id, username)]; it returns the key of the
    session in [_sessions].  A [user_id] that is a list or a dict cannot be
    looked up; one that is not a string is in no session and fails the
    validation of the new one. *)
Definition _get_or_create_session (now : Z) (user_id : Value) (username : Value)
    : Act (UserSessionActor System) string :=
  match user_id with
  | VList _ | VDict _ => act_raise (TypeError "unhashable type")
  | VStr uid =>
      (st <- act_get ;;
       match _sessions st !! uid with
       | Some _ => act_ret uid
       | None => create_session now uid username ;;; act_ret uid
       end)%act
  | _ => act_raise (ValidationError "user_id")
  end.

Definition store_user_msg (self_id : string) (now : Z) (user_id username text : Value) : ActorMessage :=
  ActorMessage_create self_id (MESSAGE_TYPES STORE_MEMORY)
    [("user_id", user_id); ("message_type", VStr "user"); ("content", text);
     ("metadata", VDict [("username", username); ("timestamp", VStr (isoformat now))])]
    None.

Definition get_context_msg (self_id : string) (user_id : Value) (request_id : string) : ActorMessage :=
  ActorMessage_create self_id (MESSAGE_TYPES GET_CONTEXT)
    [("user_id", user_id); ("request_id", VStr request_id);
     ("limit", VInt STM_CONTEXT_SIZE_FOR_GENERATION); ("format_type", VStr "structured")]
    (Some self_id).

(** [session.mode_history[-2] if len(session.mode_history) > 1 else None] *)
Definition previous_mode (s : UserSession) : Value :=
  if 1 <? Z.of_nat (length (mode_history s))
  then value_of_option (mode_history s !! (length (mode_history s) - 2)%nat)
  else VNone.

Definition new_pending (now : Z) (user_id chat_id text : Value) (include_prompt : bool)
    (session : UserSession) : PendingRequest :=
  {| pending_user_id := user_id;
     pending_chat_id := chat_id;
     pending_text := text;
     pending_include_prompt := include_prompt;
     pending_message_count := message_count session;
     pending_session_data :=
       [("username", value_of_option (username session));
        ("created_at", VStr (isoformat (created_at session)))];
     pending_mode := current_mode session;
     pending_mode_confidence := mode_confidence session;
     pending_timestamp := now |}.

(** [session.mode_history.append(new_mode)], then
    [if len(session.mode_history) > MODE_HISTORY_SIZE: session.mode_history.pop(0)]. *)
Definition update_mode_history (uid : string) (new_mode : string)
    : Act (UserSessionActor System) unit :=
  (session_mutate uid (mode_history_append new_mode) ;;;
   session <- the_session uid ;;
   act_when (MODE_HISTORY_SIZE <? Z.of_nat (length (mode_history session)))
     (session_mutate uid mode_history_pop0))%act.

(** The history update followed by the log line that reports the detection
    ([user_id] is the string [uid] at this point). *)
Definition record_mode (uid : string) (new_mode : string) (confidence : float)
    (mode_changed : bool) : Act (UserSessionActor System) unit :=
  (update_mode_history uid new_mode ;;;
   log INFO "Mode detection for user"
     [VStr uid; VStr new_mode; VFloat confidence; VBool mode_changed])%act.

(** The part of [_handle_user_message] from the mode detection to the
    [ModeDetectedEvent]. *)
Definition update_mode (now : Z) (uid : string) (user_id text : Value)
    : Act (UserSessionActor System) unit :=
  (session <- the_session uid ;;
   detected <- act_lift (_determine_generation_mode text session) ;;
   match detected.2 with
   | Some d => act_modify (with_details d)
   | None => act_ret tt
   end ;;;
   let new_mode := detected.1.1 in
   let confidence := detected.1.2 in
   let mode_changed := negb (String.eqb new_mode (current_mode session)) in
   act_when mode_changed
     (session_setattr uid (Set_last_mode_change (Some now)) ;;;
      session_setattr uid (Set_current_mode new_mode)) ;;;
   session_setattr uid (Set_mode_confidence confidence) ;;;
   record_mode uid new_mode confidence mode_changed ;;;
   session <- the_session uid ;;
   st <- act_get ;;
   act_when mode_changed
     (_append_event (BaseEvent_create (String.append "user_" uid) "ModeDetectedEvent"
        [("user_id", user_id); ("mode", VStr new_mode); ("confidence", VFloat confidence);
         ("previous_mode", previous_mode session);
         ("detection_details", _last_detection_details st);
         ("timestamp", VStr (isoformat now))])))%act.

(** [session.message_count += 1] and [session.last_activity = datetime.now()]. *)
Definition touch_session (now : Z) (uid : string) : Act (UserSessionActor System) unit :=
  (session <- the_session uid ;;
   session_setattr uid (Set_message_count (message_count session + 1)) ;;;
   session_setattr uid (Set_last_activity now))%act.

(** [_handle_user_message(message)].  [now] is what [datetime.now()] reads
    during the call and [uuid] what [str(uuid.uuid4())] returns. *)
Definition _handle_user_message (now : Z) (uuid : string) (message : ActorMessage)
    : Act (UserSessionActor System) (option ActorMessage) :=
  (user_id <- act_lift (subscript (payload message) "user_id") ;;
   let username := get_default (payload message) "username" VNone in
   text <- act_lift (subscript (payload message) "text") ;;
   chat_id <- act_lift (subscript (payload message) "chat_id") ;;
   uid <- _get_or_create_session now user_id username ;;
   st <- act_get ;;
   send_if_system "memory" (store_user_msg (actor_id st) now user_id username text) ;;;
   update_mode now uid user_id text ;;;
   touch_session now uid ;;;
   session <- the_session uid ;;
   let include_prompt := _should_include_prompt session in
   act_when include_prompt
     (_append_event (BaseEvent_create (String.append "user_" uid) "PromptInclusionEvent"
        [("user_id", user_id); ("message_count", VInt (message_count session));
         ("strategy", prompt_strategy); ("reason", VStr (_get_prompt_reason session))])) ;;;
   let request_id := uuid in
   act_modify (fun st => with_pending
     (dict_set request_id (new_pending now user_id chat_id text include_prompt session)
        (_pending_requests st)) st) ;;;
   st <- act_get ;;
   system_send_message "memory" (get_context_msg (actor_id st) user_id request_id) ;;;
   log INFO "Requested context for user" [user_id; VStr request_id] ;;;
   act_ret None)%act.

(** [_update_cache_metrics(message)] *)
Definition _update_cache_metrics (message : ActorMessage) : Act (UserSessionActor System) unit :=
  let user_id := get_default (payload message) "user_id" VNone in
  if negb (truthy user_id) then act_ret tt
  else
    match user_id with
    | VList _ | VDict _ => act_raise (TypeError "unhashable type")
    | VStr uid =>
        (st <- act_get ;;
         match _sessions st !! uid with
         | None => act_ret tt
         | Some _ =>
             let cache_hit_rate := get_default (payload message) "cache_hit_rate" (VFloat 0.0%float) in
             session_mutate uid (cache_metrics_append cache_hit_rate) ;;;
             session <- the_session uid ;;
             act_when (20 <? Z.of_nat (length (cache_metrics session)))
               (coerced <- act_lift (pydantic_float_list (lastn 20 (cache_metrics session))) ;;
                session_setattr uid (Set_cache_metrics coerced))
         end)%act
    | _ => act_ret tt
    end.

(** The payload of a [GENERATE_RESPONSE] built from a pending entry. *)
Definition generate_payload (pending : PendingRequest) (historical_context : Value)
    : list (string * Value) :=
  [("user_id", pending_user_id pending);
   ("chat_id", pending_chat_id pending);
   ("text", pending_text pending);
   ("include_prompt", VBool (pending_include_prompt pending));
   ("message_count", VInt (pending_message_count pending));
   ("session_data", VDict (pending_session_data pending));
   ("mode", VStr (pending_mode pending));
   ("mode_confidence", VFloat (pending_mode_confidence pending));
   ("historical_context", historical_context)].

Definition generate_msg (self_id : string) (pending : PendingRequest) (historical_context : Value)
    : ActorMessage :=
  ActorMessage_create self_id (MESSAGE_TYPES GENERATE_RESPONSE)
    (generate_payload pending historical_context) None.

(** [self._pending_requests.pop(request_id)] *)
Definition pop_pending (request_id : string) : Act (UserSessionActor System) PendingRequest :=
  fun st =>
    match dict_get request_id (_pending_requests st) with
    | Some p => (with_pending (dict_pop request_id (_pending_requests st)) st, Return p)
    | None => (st, Raise (KeyError request_id))
    end.

(** [not request_id or request_id not in self._pending_requests]: the key
    of the table the value names, if it names one.  A string is looked up; a
    list or dict cannot be hashed; any other value equals no key. *)
Definition known_request (request_id : Value) (table : list (string * PendingRequest))
    : Outcome (option string) :=
  if negb (truthy request_id) then Return None
  else
    match request_id with
    | VStr rid => Return (if dict_mem rid table then Some rid else None)
    | VList _ | VDict _ => Raise (TypeError "unhashable type")
    | _ => Return None
    end.

(** The [CONTEXT_RESPONSE] branch of [handle_message]. *)
Definition handle_context_response (message : ActorMessage)
    : Act (UserSessionActor System) (option ActorMessage) :=
  (let request_id := get_default (payload message) "request_id" VNone in
   st <- act_get ;;
   known <- act_lift (known_request request_id (_pending_requests st)) ;;
   match known with
   | None =>
       log WARNING "Received CONTEXT_RESPONSE with unknown request_id" [request_id] ;;;
       act_ret None
   | Some rid =>
       pending <- pop_pending rid ;;
       let msg := generate_msg (actor_id st) pending
                    (get_default (payload message) "messages" (VList [])) in
       n <- act_lift (py_len (get_default (payload message) "messages" (VList []))) ;;
       log INFO "Created GENERATE_RESPONSE for user" [pending_user_id pending; VInt n] ;;;
       send_if_system "generation" msg ;;;
       act_ret None
   end)%act.

(** The [BOT_RESPONSE] branch of [handle_message]. *)
Definition handle_bot_response (now : Z) (message : ActorMessage)
    : Act (UserSessionActor System) (option ActorMessage) :=
  (st <- act_get ;;
   act_when (has_actor_system st)
     (user_id <- act_lift (subscript (payload message) "user_id") ;;
      text <- act_lift (subscript (payload message) "text") ;;
      system_send_message "memory"
        (ActorMessage_create (actor_id st) (MESSAGE_TYPES STORE_MEMORY)
           [("user_id", user_id); ("message_type", VStr "bot"); ("content", text);
            ("metadata", VDict [("generated_at",
               get_default (payload message) "generated_at" (VStr (isoformat now)))])]
           None)) ;;;
   act_ret None)%act.

(** [handle_message(message)].  The [measure_latency] decorator only times
    the call. *)
Definition handle_message (now : Z) (uuid : string) (message : ActorMessage)
    : Act (UserSessionActor System) (option ActorMessage) :=
  if String.eqb (message_type message) (MESSAGE_TYPES USER_MESSAGE) then
    (reply <- _handle_user_message now uuid message ;;
     match reply with
     | Some g => send_if_system "generation" g
     | None => act_ret tt
     end ;;;
     act_ret None)%act
  else if String.eqb (message_type message) (MESSAGE_TYPES CACHE_HIT_METRIC) then
    (_update_cache_metrics message ;;; act_ret None)%act
  else if String.eqb (message_type message) (MESSAGE_TYPES BOT_RESPONSE) then
    handle_bot_response now message
  else if String.eqb (message_type message) (MESSAGE_TYPES CONTEXT_RESPONSE) then
    handle_context_response message
  else act_ret None.

(** [(now - data['timestamp']).total_seconds() > STM_CONTEXT_REQUEST_TIMEOUT],
    with both instants in microseconds. *)
Definition is_expired (now : Z) (data : PendingRequest) : bool :=
  STM_CONTEXT_REQUEST_TIMEOUT * 1000000 <? now - pending_timestamp data.

Definition entry_expired (now : Z) (entry : string * PendingRequest) : bool :=
  is_expired now (snd entry).

(** The first loop of [_cleanup_expired_requests]: the ids to expire, in the
    table's order. *)
Definition expired_ids (now : Z) (table : list (string * PendingRequest)) : list string :=
  map fst (List.filter (entry_expired now) table).

(** The body of its second loop. *)
Definition expire_request (request_id : string) : Act (UserSessionActor System) unit :=
  (pending <- pop_pending request_id ;;
   log WARNING "Context request timeout, generating without historical context"
     [pending_user_id pending] ;;;
   st <- act_get ;;
   send_if_system "generation" (generate_msg (actor_id st) pending (VList [])))%act.

(** [_cleanup_expired_requests()] at time [now]. *)
Definition _cleanup_expired_requests (now : Z) : Act (UserSessionActor System) unit :=
  fun st => act_for (expired_ids now (_pending_requests st)) expire_request st.

(** One turn of [_cleanup_pending_requests_loop] as the outside drives it:
    what [self.is_running] reads at the loop head, whether the task is
    cancelled during [asyncio.sleep(10)], and the time at which the sweep
    runs. *)
Record Tick : Type := {
  tick_is_running : bool;
  tick_cancelled : bool;
  tick_now : Z
}.

Inductive LoopExit : Type :=
| StoppedRunning
| Cancelled.

Inductive LoopStatus : Type :=
| Looping
| Exited (why : LoopExit).

(** [_cleanup_pending_requests_loop()] over the turns [ticks]: the loop is
    either still at its head when the turns are used up, or it has left.
    [except asyncio.CancelledError: break] comes first, then
    [except Exception] logs and falls through to the next turn. *)
Fixpoint _cleanup_pending_requests_loop (ticks : list Tick) (st : UserSessionActor System)
    : UserSessionActor System * LoopStatus :=
  match ticks with
  | [] => (st, Looping)
  | t :: ticks' =>
      if negb (tick_is_running t) then (st, Exited StoppedRunning)
      else if tick_cancelled t then (st, Exited Cancelled)
      else
        match _cleanup_expired_requests (tick_now t) st with
        | (st', Return _) => _cleanup_pending_requests_loop ticks' st'
        | (st', Raise CancelledError) => (st', Exited Cancelled)
        | (st', Raise _) =>
            _cleanup_pending_requests_loop ticks' (state_after (log ERROR "Error in cleanup loop" [] st'))
        end
  end.

(** A run of the actor over messages: every message is handed to
    [handle_message], whatever the previous call did. *)
Fixpoint run_messages (inputs : list (Z * string * ActorMessage)) (st : UserSessionActor System)
    : UserSessionActor System :=
  match inputs with
  | [] => st
  | (now, uuid, m) :: rest => run_messages rest (state_after (handle_message now uuid m st))
  end.

End Actor.

(** The mode detections the log records for one user, oldest first: the
    [INFO] record [_handle_user_message] writes after it has updated the
    history names the user and the detected mode. *)
Definition detection_of (uid : string) (r : LogRecord) : option string :=
  match log_args r with
  | VStr u :: VStr mode :: _ =>
      if String.eqb (log_text r) "Mode detection for user" && String.eqb u uid
      then Some mode else None
  | _ => None
  end.

Definition detected_modes (uid : string) (records : list LogRecord) : list string :=
  omap (detection_of uid) records.

(** ** The event store *)

(** Modelled from the spec: [EventStore.append] and [EventStore.get_stream]
    of [actors/events/event_store.py], which is not among the sources (only
    the names [EventStore] and [EventStoreConcurrencyError] are, in
    [actors/events/__init__.py]).  A stream is the list of its events in
    append order; its current version is the number of events, so the
    versions read [1..N]. *)
Inductive AppendResult : Type :=
| Appended (new_version : Z)
| EventStoreConcurrencyError (expected actual : Z).

Definition stream_of (store : gmap string (list BaseEvent)) (sid : string) : list BaseEvent :=
  default [] (store !! sid).

Definition current_version (store : gmap string (list BaseEvent)) (sid : string) : Z :=
  Z.of_nat (length (stream_of store sid)).

Definition with_version (v : Z) (e : BaseEvent) : BaseEvent :=
  {| stream_id := stream_id e; event_type := event_type e; data := data e; version := v |}.

(** Modelled from the spec: [EventStore.append(stream_id, event,
    expected_version)], missing with [event_store.py]: the event is appended,
    at the next version, if and only if the stream's current version is the
    expected one; otherwise the call fails with
    [EventStoreConcurrencyError(expected, actual)] and appends nothing. *)
Definition EventStore_append (store : gmap string (list BaseEvent)) (sid : string)
    (event : BaseEvent) (expected_version : Z)
    : gmap string (list BaseEvent) * AppendResult :=
  let actual := current_version store sid in
  if Z.eqb actual expected_version
  then (<[sid := stream_of store sid ++ [with_version (actual + 1) event]]> store,
        Appended (actual + 1))
  else (store, EventStoreConcurrencyError expected_version actual).

(** Modelled from the spec: [EventStore.get_stream(stream_id, from_version)],
    missing with [event_store.py]: the events of the stream from the given
    version on, in order. *)
Definition EventStore_get_stream (store : gmap string (list BaseEvent)) (sid : string)
    (from_version : Z) : list BaseEvent :=
  List.filter (fun e => from_version <=? version e) (stream_of store sid).

(** ** The actor system *)

(** Modelled from the spec: [ActorSystem.register_actor] and
    [ActorSystem.send_message] of [actors/actor_system.py], which is not
    among the sources.  The spec's contract of [send]: resolve the target,
    enqueue onto its bounded mailbox; fail with an unknown-actor error when
    the target is not registered and with a mailbox-full error when the queue
    is saturated.  The contract names no check of the message type, and the
    repository's [test_memory_actor_message_handling] sends a message of type
    ["unknown_type"] through [send_message] and then finds it counted by the
    receiving actor.  Retry, circuit breaker and dead letters belong to the
    loop that takes messages out of the mailbox and are not part of [send]. *)
Record ActorSystem : Type := {
  mailboxes : gmap string (list ActorMessage)
}.

Definition ActorSystem_new : ActorSystem := {| mailboxes := ∅ |}.

(** Modelled from the spec: [ActorSystem.register_actor], missing with
    [actor_system.py]: binds an actor id to a mailbox and fails when the id
    is already registered. *)
Definition ActorSystem_register_actor (sys : ActorSystem) (id : string) : ActorSystem * Outcome unit :=
  match mailboxes sys !! id with
  | Some _ => (sys, Raise (ValueError "actor already registered"))
  | None => ({| mailboxes := <[id := []]> (mailboxes sys) |}, Return tt)
  end.

(** Modelled from the spec: [ActorSystem.send_message(actor_id, message)],
    missing with [actor_system.py].  Of the spec's send contract it has the
    part a sender observes on a healthy system: the target is resolved, an
    unknown target and a full mailbox are the failures, and any other
    message goes to the end of the target's mailbox.  It leaves out the
    Resilience Layer (retry, circuit breaker, dead letters) and the check of
    the message type against the catalog: the spec asks for that check, and
    [test_memory_actor_message_handling] sends a type outside the catalog
    and expects the memory actor to count it, so what the absent code does
    with such a type is not settled here; the run of that test is the only
    statement below that sends one.  The theorems about the session actor
    take the send as the parameter [send_message] of [Collaborators]; this
    function fills the parameter in the examples, where every message has a
    type of the catalog. *)
Definition ActorSystem_send_message (sys : ActorSystem) (target : string) (msg : ActorMessage)
    : ActorSystem * Outcome unit :=
  match mailboxes sys !! target with
  | None => (sys, Raise (UnknownActorError target))
  | Some queue =>
      if ACTOR_MESSAGE_QUEUE_SIZE <=? Z.of_nat (length queue)
      then (sys, Raise (MailboxFullError target))
      else ({| mailboxes := <[target := queue ++ [msg]]> (mailboxes sys) |}, Return tt)
  end.

(** The message at the head of an actor's mailbox, taken out of it. *)
Definition ActorSystem_dequeue (sys : ActorSystem) (id : string)
    : option (ActorMessage * ActorSystem) :=
  match mailboxes sys !! id with
  | Some (m :: queue) => Some (m, {| mailboxes := <[id := queue]> (mailboxes sys) |})
  | _ => None
  end.

(** ** The memory actor *)

(** A record of the short-term-memory buffer. *)
Record StmRecord : Type := {
  stm_message_type : string;
  stm_content : string;
  stm_metadata : Value
}.

(** Modelled from the spec: the [MemoryActor] of [actors/memory_actor.py],
    which is not among the sources; what it does is taken from the spec's
    bounded-buffer and degraded-mode sentences and from what the repository's
    tests observe ([test_memory_buffer.py], [test_memory_actor.py],
    [test_memory_integration.py]): the four counters in [_metrics], the
    [_degraded_mode] flag, a per-user buffer that keeps the last
    [STM_BUFFER_SIZE] records in arrival order, contents cut to
    [STM_MESSAGE_MAX_LENGTH] characters, and the payloads of the
    [CONTEXT_RESPONSE] it returns.  [skipped_writes] is the log of the
    writes skipped in degraded mode. *)
Record MemoryActor : Type := {
  _degraded_mode : bool;
  store_memory_count : Z;
  get_context_count : Z;
  clear_memory_count : Z;
  unknown_message_count : Z;
  stm_buffer : gmap string (list StmRecord);
  skipped_writes : list ActorMessage
}.

Definition MemoryActor_new : MemoryActor :=
  {| _degraded_mode := false; store_memory_count := 0; get_context_count := 0;
     clear_memory_count := 0; unknown_message_count := 0; stm_buffer := ∅;
     skipped_writes := [] |}.

Definition user_buffer (a : MemoryActor) (uid : string) : list StmRecord :=
  default [] (stm_buffer a !! uid).

Definition with_buffer (b : gmap string (list StmRecord)) (a : MemoryActor) : MemoryActor :=
  {| _degraded_mode := _degraded_mode a; store_memory_count := store_memory_count a;
     get_context_count := get_context_count a; clear_memory_count := clear_memory_count a;
     unknown_message_count := unknown_message_count a; stm_buffer := b;
     skipped_writes := skipped_writes a |}.

Definition truncate_content (content : string) : string :=
  str_prefix (Z.to_nat STM_MESSAGE_MAX_LENGTH) content.

(** Modelled from the spec: [MemoryActor.store_interaction(user_id,
    message_type, content, metadata)], missing with [memory_actor.py]: the
    record goes to the end of the user's buffer and the buffer keeps its last
    [STM_BUFFER_SIZE] records, the oldest being evicted. *)
Definition store_interaction (uid : string) (mtype : string) (content : string)
    (metadata : Value) (a : MemoryActor) : MemoryActor :=
  let record := {| stm_message_type := mtype; stm_content := truncate_content content;
                   stm_metadata := metadata |} in
  with_buffer (<[uid := lastn (Z.to_nat STM_BUFFER_SIZE) (user_buffer a uid ++ [record])]>
                 (stm_buffer a)) a.

(** [STM_DEEPSEEK_ROLE_MAPPING] *)
Definition deepseek_role (mtype : string) : string :=
  if String.eqb mtype "bot" then "assistant" else mtype.

Definition format_record (format_type : string) (r : StmRecord) : Value :=
  if String.eqb format_type "text"
  then VDict [("type", VStr (stm_message_type r)); ("content", VStr (stm_content r))]
  else VDict [("role", VStr (deepseek_role (stm_message_type r)));
              ("content", VStr (stm_content r))].

(** Modelled from the spec: [MemoryActor.get_context(user_id, limit,
    format_type)], missing with [memory_actor.py]: the last [limit] records of
    the user, oldest first. *)
Definition get_context (uid : string) (limit : Z) (a : MemoryActor) : list StmRecord :=
  lastn (Z.to_nat limit) (user_buffer a uid).

Definition string_field (pl : list (string * Value)) (k : string) (default : string) : string :=
  match dict_get k pl with
  | Some (VStr s) => s
  | _ => default
  end.

Definition int_field (pl : list (string * Value)) (k : string) (default : Z) : Z :=
  match dict_get k pl with
  | Some (VInt z) => z
  | _ => default
  end.

Definition context_response (request : ActorMessage) (fields : list (string * Value)) : ActorMessage :=
  ActorMessage_create "memory" (MESSAGE_TYPES CONTEXT_RESPONSE)
    ([("user_id", get_default (payload request) "user_id" VNone);
      ("request_id", get_default (payload request) "request_id" VNone)] ++ fields)
    None.

(** Modelled from the spec: [MemoryActor.handle_message], missing with
    [memory_actor.py].  Every message type bumps its counter.  In degraded
    mode a [STORE_MEMORY] is skipped and recorded as skipped, and a
    [GET_CONTEXT] is answered with an empty [context] and [degraded_mode]
    true; otherwise the record is stored and the context is read from the
    buffer.  A message of any other type is counted as unknown. *)
Definition MemoryActor_handle_message (message : ActorMessage) (a : MemoryActor)
    : MemoryActor * Outcome (option ActorMessage) :=
  let pl := payload message in
  if String.eqb (message_type message) (MESSAGE_TYPES STORE_MEMORY) then
    let a1 :=
      {| _degraded_mode := _degraded_mode a; store_memory_count := store_memory_count a + 1;
         get_context_count := get_context_count a; clear_memory_count := clear_memory_count a;
         unknown_message_count := unknown_message_count a; stm_buffer := stm_buffer a;
         skipped_writes := skipped_writes a |} in
    if _degraded_mode a then
      ({| _degraded_mode := _degraded_mode a1; store_memory_count := store_memory_count a1;
          get_context_count := get_context_count a1; clear_memory_count := clear_memory_count a1;
          unknown_message_count := unknown_message_count a1; stm_buffer := stm_buffer a1;
          skipped_writes := skipped_writes a1 ++ [message] |}, Return None)
    else
      match dict_get "user_id" pl, dict_get "content" pl with
      | Some (VStr uid), Some (VStr content) =>
          (store_interaction uid (string_field pl "message_type" "user") content
             (get_default pl "metadata" VNone) a1, Return None)
      | _, _ => (a1, Return None)
      end
  else if String.eqb (message_type message) (MESSAGE_TYPES GET_CONTEXT) then
    let a1 :=
      {| _degraded_mode := _degraded_mode a; store_memory_count := store_memory_count a;
         get_context_count := get_context_count a + 1; clear_memory_count := clear_memory_count a;
         unknown_message_count := unknown_message_count a; stm_buffer := stm_buffer a;
         skipped_writes := skipped_writes a |} in
    if _degraded_mode a then
      (a1, Return (Some (context_response message
                           [("context", VList []); ("degraded_mode", VBool true)])))
    else
      let records := get_context (string_field pl "user_id" "")
                       (int_field pl "limit" STM_BUFFER_SIZE) a in
      let messages := map (format_record (string_field pl "format_type" "structured")) records in
      (a1, Return (Some (context_response message
                           [("messages", VList messages);
                            ("total_messages", VInt (Z.of_nat (length messages)));
                            ("context", VList messages)])))
  else if String.eqb (message_type message) (MESSAGE_TYPES CLEAR_USER_MEMORY) then
    ({| _degraded_mode := _degraded_mode a; store_memory_count := store_memory_count a;
        get_context_count := get_context_count a; clear_memory_count := clear_memory_count a + 1;
        unknown_message_count := unknown_message_count a;
        stm_buffer := delete (string_field pl "user_id" "") (stm_buffer a);
        skipped_writes := skipped_writes a |}, Return None)
  else
    ({| _degraded_mode := _degraded_mode a; store_memory_count := store_memory_count a;
        get_context_count := get_context_count a; clear_memory_count := clear_memory_count a;
        unknown_message_count := unknown_message_count a + 1; stm_buffer := stm_buffer a;
        skipped_writes := skipped_writes a |}, Return None).

(** ** The message loop every actor runs *)

(** One turn of an actor's message loop as the outside drives it: what
    [is_running] reads at the loop head, whether the task is cancelled while
    it waits, and the mailbox entry it gets ([None] when the wait times
    out). *)
Record LoopTurn : Type := {
  turn_is_running : bool;
  turn_cancelled : bool;
  turn_message : option ActorMessage
}.

Record DeadLetter : Type := {
  dead_message : ActorMessage;
  dead_reason : PyExc;
  dead_attempts : Z
}.

Section MessageLoop.
Context {S : Type}.
Variable handle : ActorMessage -> S -> S * Outcome (option ActorMessage).

Record ActorRuntime : Type := {
  actor_state : S;
  replies : list ActorMessage;
  dead_letter_queue : list DeadLetter
}.

(** Modelled from the spec: the retry policy of the Resilience Layer.  A
    message is handed to the handler up to [attempts] times; the error of
    the last attempt is what the caller sees.  Cancellation is not an error
    and is not retried. *)
Fixpoint handle_with_retry (attempts : nat) (m : ActorMessage) (st : S)
    : S * Outcome (option ActorMessage) :=
  match attempts with
  | O => (st, Raise (RuntimeError "no attempt allowed"))
  | Datatypes.S n =>
      match handle m st with
      | (st', Return r) => (st', Return r)
      | (st', Raise CancelledError) => (st', Raise CancelledError)
      | (st', Raise e) =>
          match n with
          | O => (st', Raise e)
          | _ => handle_with_retry n m st'
          end
      end
  end.

(** Modelled from the spec: the dead letter queue, missing with the actor
    runtime: a message that exhausted its attempts is appended with the
    failure and the attempt count, and the queue trims itself to
    [DLQ_MAX_SIZE] entries. *)
Definition dead_letter (m : ActorMessage) (e : PyExc) (queue : list DeadLetter) : list DeadLetter :=
  lastn (Z.to_nat DLQ_MAX_SIZE)
    (queue ++ [{| dead_message := m; dead_reason := e;
                  dead_attempts := ACTOR_MESSAGE_MAX_RETRIES |}]).

(** Modelled from the spec: the message loop of [BaseActor]
    ([actors/base_actor.py], which is not among the sources).  The loop runs
    while the running flag is set; it waits for the next mailbox entry,
    processes one message at a time, and on a failure of the handler it
    logs, retries or dead-letters and goes on with the next entry; system
    shutdown cancels it. *)
Fixpoint message_loop (turns : list LoopTurn) (rt : ActorRuntime) : ActorRuntime * LoopStatus :=
  match turns with
  | [] => (rt, Looping)
  | t :: turns' =>
      if negb (turn_is_running t) then (rt, Exited StoppedRunning)
      else if turn_cancelled t then (rt, Exited Cancelled)
      else
        match turn_message t with
        | None => message_loop turns' rt
        | Some m =>
            match handle_with_retry (Z.to_nat ACTOR_MESSAGE_MAX_RETRIES) m (actor_state rt) with
            | (st', Return reply) =>
                message_loop turns'
                  {| actor_state := st';
                     replies := replies rt ++ match reply with Some r => [r] | None => [] end;
                     dead_letter_queue := dead_letter_queue rt |}
            | (st', Raise CancelledError) =>
                ({| actor_state := st'; replies := replies rt;
                    dead_letter_queue := dead_letter_queue rt |}, Exited Cancelled)
            | (st', Raise e) =>
                message_loop turns'
                  {| actor_state := st'; replies := replies rt;
                     dead_letter_queue := dead_letter m e (dead_letter_queue rt) |}
            end
        end
  end.

End MessageLoop.
Arguments ActorRuntime S : clear implicits.

(** ** A concrete environment

    The actor runs against the actor system above, with a version manager
    that accepts every event and a keyword detection that stands for the
    mode heuristics: a text that is the name of a mode selects it. *)
Definition keyword_detection (text : Value) (s : UserSession)
    : Outcome (string * float * option Value) :=
  match text with
  | VStr t =>
      if String.eqb t "" then Return (current_mode s, 0.5%float, None)
      else if existsb (String.eqb t) ["expert"; "creative"; "talk"]
      then Return (t, 0.75%float, Some (VDict [("winner", VStr t)]))
      else Return ("talk", 0.25%float, Some (VDict []))
  | VNone => Return (current_mode s, 0.5%float, None)
  | _ => Raise (TypeError "object has no len()")
  end.

Definition all_floats (l : list Value) : Outcome (list Value) :=
  if forallb (fun v => match v with VFloat _ => true | _ => false end) l
  then Return l else Raise (ValidationError "cache_metrics").

Definition plain_collaborators : Collaborators ActorSystem :=
  {| send_message := ActorSystem_send_message;
     append_event := fun _ sys => (sys, Return tt);
     append_event_detached := fun _ => Return tt;
     _determine_generation_mode := keyword_detection;
     _should_include_prompt := fun s => Z.eqb (message_count s mod 10) 1;
     _get_prompt_reason := fun _ => "periodic_interval_10";
     prompt_strategy := VStr "periodic";
     pydantic_float_list := all_floats;
     isoformat := fun _ => "2025-01-01T00:00:00" |}.

(** An actor system with the three actors of the message flow registered. *)
Definition three_actors : ActorSystem :=
  {| mailboxes := <["user_session" := []]> (<["memory" := []]> (<["generation" := []]> ∅)) |}.

Definition user_message (uid text : string) : ActorMessage :=
  ActorMessage_create "test" (MESSAGE_TYPES USER_MESSAGE)
    [("user_id", VStr uid); ("chat_id", VInt 12345); ("username", VStr "TestUser");
     ("text", VStr text)] None.

Definition attached (sys : ActorSystem) : UserSessionActor ActorSystem :=
  {| actor_id := "user_session"; _sessions := ∅; _last_detection_details := VDict [];
     _pending_requests := []; actor_system := Some sys; sent := []; appended := [];
     logged := [] |}.

(** ** Runs used by the statements below *)

(** Storing records for one user, one [store_interaction] each, in order. *)
Definition as_record (r : string * string * Value) : StmRecord :=
  {| stm_message_type := r.1.1; stm_content := truncate_content r.1.2; stm_metadata := r.2 |}.

Definition store_records (uid : string) (rs : list (string * string * Value)) (a : MemoryActor)
    : MemoryActor :=
  fold_left (fun acc r => store_interaction uid r.1.1 r.1.2 r.2 acc) rs a.

(** The records of [test_buffer_maintains_50_messages]: ["Message i"], from
    the user when [i] is even and from the bot otherwise. *)
Definition message_text (i : nat) : string :=
  String.append "Message " (NilZero.string_of_uint (Nat.to_uint i)).

Definition numbered_record (i : nat) : string * string * Value :=
  (if Nat.even i then "user" else "bot", message_text i, VDict [("index", VInt (Z.of_nat i))]).

Definition numbered_records (first count : nat) : list (string * string * Value) :=
  map numbered_record (seq first count).

(** Delivery of the head of an actor's mailbox to the memory actor, as its
    message loop does it. *)
Definition deliver_to_memory (st : ActorSystem * MemoryActor) : ActorSystem * MemoryActor :=
  match ActorSystem_dequeue st.1 "memory" with
  | Some (m, sys') => (sys', (MemoryActor_handle_message m st.2).1)
  | None => st
  end.

Definition unknown_msg : ActorMessage :=
  ActorMessage_create "test" "unknown_type" [] None.

(** The steps of [test_memory_actor_message_handling]: a [STORE_MEMORY]
    through the system, a [GET_CONTEXT] handed to the actor directly, a
    [CLEAR_USER_MEMORY] and a message of type ["unknown_type"] through the
    system; each sent message is then taken from the mailbox and handled. *)
Definition send_and_deliver (m : ActorMessage) (st : ActorSystem * MemoryActor)
    : ActorSystem * MemoryActor :=
  deliver_to_memory ((ActorSystem_send_message st.1 "memory" m).1, st.2).

Definition memory_message (k : MessageKind) (pl : list (string * Value)) : ActorMessage :=
  ActorMessage_create "test" (MESSAGE_TYPES k) pl None.

Definition message_handling_scenario : ActorSystem * MemoryActor :=
  let st0 := ((ActorSystem_register_actor ActorSystem_new "memory").1, MemoryActor_new) in
  let st1 := send_and_deliver
               (memory_message STORE_MEMORY
                  [("user_id", VStr "test_user"); ("message_type", VStr "user");
                   ("content", VStr "Test message")]) st0 in
  let st2 := (st1.1, (MemoryActor_handle_message
                        (memory_message GET_CONTEXT
                           [("user_id", VStr "test_user"); ("count", VInt 10)]) st1.2).1) in
  let st3 := send_and_deliver
               (memory_message CLEAR_USER_MEMORY [("user_id", VStr "test_user")]) st2 in
  send_and_deliver unknown_msg st3.

(** A session actor that was never registered ([get_actor_system()] is
    [None]) and was handed one user message at time 100: the handler stores
    the pending entry and then fails at the unguarded [send_message] of the
    context request, so the entry stays in the table. *)
Definition unregistered_with_request : UserSessionActor ActorSystem :=
  state_after (@handle_message ActorSystem plain_collaborators 100 "id-1"
                 (user_message "u1" "expert") (UserSessionActor_new ActorSystem)).

(** The same message handled by an actor registered with [three_actors]. *)
Definition registered_with_request : UserSessionActor ActorSystem :=
  state_after (@handle_message ActorSystem plain_collaborators 100 "id-1"
                 (user_message "u1" "expert") (attached three_actors)).

(** Thirty-one seconds later, in microseconds. *)
Definition after_timeout : Z := 100 + 31 * 1000000.

(** The reply of the memory actor to the context request ["id-1"]. *)
Definition context_reply (request_id : string) : ActorMessage :=
  ActorMessage_create "memory" (MESSAGE_TYPES CONTEXT_RESPONSE)
    [("user_id", VStr "u1"); ("request_id", VStr request_id);
     ("messages", VList [VDict [("role", VStr "user"); ("content", VStr "hello")]]);
     ("total_messages", VInt 1)] None.

(** ** Predicates and runs over the session actor *)

Section ActorRuns.
Context {System : Type} {C : Collaborators System}.

(** Messages handed to the system one after the other, up to the first one
    it refuses. *)
Fixpoint send_all (sys : System) (msgs : list (string * ActorMessage)) : System * Outcome unit :=
  match msgs with
  | [] => (sys, Return tt)
  | (target, m) :: rest =>
      match send_message sys target m with
      | (sys', Return _) => send_all sys' rest
      | (sys', Raise e) => (sys', Raise e)
      end
  end.

(** The fallback [GENERATE_RESPONSE] messages for table entries: saved
    context, empty historical context, addressed to the generation actor. *)
Definition fallback_sends (self_id : string) (entries : list (string * PendingRequest))
    : list (string * ActorMessage) :=
  map (fun e => ("generation", generate_msg self_id e.2 (VList []))) entries.

Definition not_expired (now : Z) (entry : string * PendingRequest) : bool :=
  negb (entry_expired now entry).

(** The history of every session is the last [MODE_HISTORY_SIZE] detections
    logged for its user, and nothing is logged for a user without session. *)
Definition history_follows_log (st : UserSessionActor System) : Prop :=
  forall uid,
    match _sessions st !! uid with
    | Some s => mode_history s
                = lastn (Z.to_nat MODE_HISTORY_SIZE) (detected_modes uid (logged st))
    | None => detected_modes uid (logged st) = []
    end.

(** What an action leaves related: [keeps R m] says that the state after
    [m], whether [m] returned or raised, is [R]-related to the state before. *)
Definition keeps {S A} (R : S -> S -> Prop) (m : Act S A) : Prop :=
  forall st st' r, m st = (st', r) -> R st st'.

(** The actor's identity, its pending table, what it has sent and whether it
    has a system are the same. *)
Definition same_interface (st st' : UserSessionActor System) : Prop :=
  actor_id st' = actor_id st
  /\ _pending_requests st' = _pending_requests st
  /\ sent st' = sent st
  /\ has_actor_system st' = has_actor_system st.

(** The actor's identity and whether it has a system are the same, and the
    log records the same mode detections. *)
Definition same_detections (st st' : UserSessionActor System) : Prop :=
  actor_id st' = actor_id st
  /\ has_actor_system st' = has_actor_system st
  /\ forall uid, detected_modes uid (logged st') = detected_modes uid (logged st).

(** [history_follows_log] carries over. *)
Definition history_kept (st st' : UserSessionActor System) : Prop :=
  history_follows_log st -> history_follows_log st'.

End ActorRuns.

(** The actor system of that actor after the message, and after the sweep
    that follows the timeout. *)
Definition system_after_request : ActorSystem :=
  default three_actors (actor_system registered_with_request).

Definition system_after_sweep : ActorSystem :=
  {| mailboxes :=
       <["generation" :=
           map snd (fallback_sends "user_session" (_pending_requests registered_with_request))]>
         (mailboxes system_after_request) |}.

Definition in_unit_interval (v : float) : Prop :=
  PrimFloat.leb PYDANTIC_CONFIDENCE_MIN v = true /\ PrimFloat.leb v PYDANTIC_CONFIDENCE_MAX = true.

Definition session_valid (s : UserSession) : Prop :=
  In (current_mode s) valid_modes /\ in_unit_interval (mode_confidence s).

(** Seven user messages of one user, each naming the mode the keyword
    detection finds, and the registered actor after them. *)
Definition seven_messages : list (Z * string * ActorMessage) :=
  [(101, "id-1", user_message "u1" "expert");
   (102, "id-2", user_message "u1" "creative");
   (103, "id-3", user_message "u1" "talk");
   (104, "id-4", user_message "u1" "expert");
   (105, "id-5", user_message "u1" "expert");
   (106, "id-6", user_message "u1" "creative");
   (107, "id-7", user_message "u1" "talk")].

Definition after_seven_messages : UserSessionActor ActorSystem :=
  @run_messages ActorSystem plain_collaborators seven_messages
    (with_system (Some three_actors) (UserSessionActor_new ActorSystem)).

(** ** Loops: turns that do not stop them, and two concrete runs *)

(** A turn in which the actor is running and its task is not cancelled. *)
Definition tick_continues (t : Tick) : Prop :=
  tick_is_running t = true /\ tick_cancelled t = false.

Definition turn_continues (t : LoopTurn) : Prop :=
  turn_is_running t = true /\ turn_cancelled t = false.

(** An actor system in which no generation actor is registered, and a
    session actor registered with it that holds one pending request: every
    sweep after the timeout fails at its [send_message]. *)
Definition system_without_generation : ActorSystem :=
  {| mailboxes := <["user_session" := []]> (<["memory" := []]> ∅) |}.

Definition no_generation_with_request : UserSessionActor ActorSystem :=
  state_after (@handle_message ActorSystem plain_collaborators 100 "id-1"
                 (user_message "u1" "expert") (attached system_without_generation)).

Definition sweep_tick (now : Z) : Tick :=
  {| tick_is_running := true; tick_cancelled := false; tick_now := now |}.

(** A handler that fails on every message, counting its calls. *)
Definition failing_handler (m : ActorMessage) (calls : Z) : Z * Outcome (option ActorMessage) :=
  (calls + 1, Raise (KeyError "text")).

Definition delivery (m : ActorMessage) : LoopTurn :=
  {| turn_is_running := true; turn_cancelled := false; turn_message := Some m |}.

(** ** Runs that interleave messages and sweeps *)

(** What reaches the actor: a message taken from its mailbox, handled at
    time [now] with [uuid] as the id generated during the call, or a sweep
    of the cleanup task at time [now].  Each call is carried to its end
    before the next one starts. *)
Inductive ActorInput : Type :=
| Deliver (now : Z) (uuid : string) (message : ActorMessage)
| Sweep (now : Z).

Section ActorInputs.
Context {System : Type} {C : Collaborators System}.

Definition step_input (i : ActorInput) (st : UserSessionActor System) : UserSessionActor System :=
  match i with
  | Deliver now uuid message => state_after (handle_message now uuid message st)
  | Sweep now => state_after (_cleanup_expired_requests now st)
  end.

Fixpoint run_inputs (inputs : list ActorInput) (st : UserSessionActor System)
    : UserSessionActor System :=
  match inputs with
  | [] => st
  | i :: rest => run_inputs rest (step_input i st)
  end.

(** No request id names two entries of the pending table: what a Python
    [dict] guarantees of its keys, said of the list that stands for it. *)
Definition unique_ids (st : UserSessionActor System) : Prop :=
  NoDup (dict_keys (_pending_requests st)).

Definition unique_ids_kept (st st' : UserSessionActor System) : Prop :=
  unique_ids st -> unique_ids st'.

(** Whether the actor has a system is the same. *)
Definition same_attachment (st st' : UserSessionActor System) : Prop :=
  has_actor_system st' = has_actor_system st.

(** Every session is stored under its own [user_id], holds a valid mode and
    a confidence within bounds, has counted no message away, and remembers
    only valid modes. *)
Definition session_sound (uid : string) (s : UserSession) : Prop :=
  user_id s = uid
  /\ session_valid s
  /\ 0 <= message_count s
  /\ Forall (fun m => In m valid_modes) (mode_history s).

Definition sessions_sound (st : UserSessionActor System) : Prop :=
  forall uid s, _sessions st !! uid = Some s -> session_sound uid s.

Definition sessions_sound_kept (st st' : UserSessionActor System) : Prop :=
  sessions_sound st -> sessions_sound st'.

(** The sessions of the users other than [uid] are the same. *)
Definition other_sessions_kept (uid : string) (st st' : UserSessionActor System) : Prop :=
  forall u, u <> uid -> _sessions st' !! u = _sessions st !! u.

(** The session table is the same. *)
Definition same_sessions (st st' : UserSessionActor System) : Prop :=
  _sessions st' = _sessions st.

(** The session [_handle_user_message] leaves for a user whose session was
    [s] when the detection gave [new_mode] and [confidence] at time [now]:
    the mode and the time of its change when it differs from the current
    one, the confidence, the history with the new mode appended and cut to
    [MODE_HISTORY_SIZE], then the counter and the time of the last
    activity. *)
Definition session_after_detection (now : Z) (new_mode : string) (confidence : float)
    (s : UserSession) : UserSession :=
  let s1 := if negb (String.eqb new_mode (current_mode s))
            then with_current_mode new_mode (with_last_mode_change (Some now) s)
            else s in
  let s2 := mode_history_append new_mode (with_mode_confidence confidence s1) in
  if MODE_HISTORY_SIZE <? Z.of_nat (length (mode_history s2)) then mode_history_pop0 s2 else s2.

Definition session_after_message (now : Z) (new_mode : string) (confidence : float)
    (s : UserSession) : UserSession :=
  let s1 := session_after_detection now new_mode confidence s in
  with_last_activity now (with_message_count (message_count s1 + 1) s1).

(** The session [UserSession(user_id=uid, username=uname)] builds at time
    [now]: every other field has its default. *)
Definition fresh_session (now : Z) (uid : string) (uname : option string) : UserSession :=
  {| user_id := uid; username := uname; message_count := 0; created_at := now;
     last_activity := now; cache_metrics := []; current_mode := "talk";
     mode_confidence := 0.0%float; mode_history := []; last_mode_change := None |}.

(** The event [_get_or_create_session] hands to the version manager. *)
Definition session_created_event (now : Z) (uid : string) (username : Value) : BaseEvent :=
  BaseEvent_create (String.append "user_" uid) "SessionCreatedEvent"
    [("user_id", VStr uid); ("username", username); ("created_at", VStr (isoformat now))].

(** The event [_handle_user_message] appends when the mode changed, and the
    one it appends when the prompt is included. *)
Definition mode_detected_event (now : Z) (uid : string) (user_id : Value) (mode : string)
    (confidence : float) (previous : Value) (details : Value) : BaseEvent :=
  BaseEvent_create (String.append "user_" uid) "ModeDetectedEvent"
    [("user_id", user_id); ("mode", VStr mode); ("confidence", VFloat confidence);
     ("previous_mode", previous); ("detection_details", details);
     ("timestamp", VStr (isoformat now))].

Definition prompt_inclusion_event (uid : string) (user_id : Value) (session : UserSession)
    : BaseEvent :=
  BaseEvent_create (String.append "user_" uid) "PromptInclusionEvent"
    [("user_id", user_id); ("message_count", VInt (message_count session));
     ("strategy", prompt_strategy); ("reason", VStr (_get_prompt_reason session))].

(** The events handed to the version manager and the stored detection
    details are the same. *)
Definition same_events (st st' : UserSessionActor System) : Prop :=
  appended st' = appended st /\ _last_detection_details st' = _last_detection_details st.

(** The sends an actor makes: [STORE_MEMORY] and [GET_CONTEXT] to the memory
    actor, [GENERATE_RESPONSE] to the generation actor. *)
Definition expected_send (entry : string * ActorMessage) : bool :=
  (String.eqb entry.1 "memory"
   && (String.eqb (message_type entry.2) (MESSAGE_TYPES STORE_MEMORY)
       || String.eqb (message_type entry.2) (MESSAGE_TYPES GET_CONTEXT)))
  || (String.eqb entry.1 "generation"
      && String.eqb (message_type entry.2) (MESSAGE_TYPES GENERATE_RESPONSE)).

Definition sends_expected (st : UserSessionActor System) : Prop :=
  forallb expected_send (sent st) = true.

Definition sends_expected_kept (st st' : UserSessionActor System) : Prop :=
  sends_expected st -> sends_expected st'.

(** An actor that has no system stays without one and sends nothing. *)
Definition detached_quiet (st st' : UserSessionActor System) : Prop :=
  actor_system st = None -> actor_system st' = None /\ sent st' = sent st.

(** The [STORE_MEMORY] message the [BOT_RESPONSE] branch of [handle_message]
    builds from the payload's [user_id] and [text]. *)
Definition store_bot_msg (self_id : string) (now : Z) (message : ActorMessage)
    (user_id text : Value) : ActorMessage :=
  ActorMessage_create self_id (MESSAGE_TYPES STORE_MEMORY)
    [("user_id", user_id); ("message_type", VStr "bot"); ("content", text);
     ("metadata", VDict [("generated_at",
        get_default (payload message) "generated_at" (VStr (isoformat now)))])]
    None.

End ActorInputs.

(** The first of the keys [_handle_user_message] subscripts, in the order it
    reads them, that a payload lacks. *)
Definition first_missing_key (pl : list (string * Value)) : option string :=
  List.find (fun k => negb (dict_mem k pl)) ["user_id"; "text"; "chat_id"].

(** The warning a [CONTEXT_RESPONSE] with an unknown id leaves in the log. *)
Definition unknown_request_warning (request_id : Value) : LogRecord :=
  {| log_level := WARNING;
     log_text := "Received CONTEXT_RESPONSE with unknown request_id";
     log_args := [request_id] |}.

(** The warning the sweep logs for an entry it expires. *)
Definition timeout_warning (pending : PendingRequest) : LogRecord :=
  {| log_level := WARNING;
     log_text := "Context request timeout, generating without historical context";
     log_args := [pending_user_id pending] |}.

(** ** The prompt policy

    [_should_include_prompt] and [_get_prompt_reason] read four entries of
    [PROMPT_CONFIG] ([config/prompts.py], which is not among the sources).
    The configuration is a parameter here, with the types the code uses its
    entries at: the strategy is compared with strings, the flag is tested,
    the interval is the right operand of [%] on the [int] [message_count],
    the threshold is compared with a quotient of floats. *)
Record PromptConfig : Type := {
  cfg_prompt_strategy : string;
  cfg_enable_periodic_prompt : bool;
  cfg_system_prompt_interval : Z;
  cfg_cache_hit_threshold : float
}.

(** What the two functions can raise: [ZeroDivisionError] from [%] by a zero
    interval, [TypeError] from [sum] over a metric that is no number. *)
Inductive PolicyError : Type :=
| ZeroDivisionError
| SumTypeError.

Section PromptPolicy.
Variable config : PromptConfig.

(** [sum(l) / 5] as the interpreter computes it on the last five metrics
    (since Python 3.12 [sum] adds floats with compensation, so the source
    does not fix the value), and the format [{avg:.2f}]. *)
Variable mean_of_five : list Value -> result float PolicyError.
Variable format_2f : float -> string.

(** [session.message_count % interval == 1] *)
Definition periodic_due (session : UserSession) : result bool PolicyError :=
  if Z.eqb (cfg_system_prompt_interval config) 0 then Error ZeroDivisionError
  else Ok (Z.eqb (message_count session mod cfg_system_prompt_interval config) 1).

(** [len(session.cache_metrics) >= 5] and
    [sum(session.cache_metrics[-5:]) / 5 < PROMPT_CONFIG["cache_hit_threshold"]] *)
Definition low_cache_hit (session : UserSession) : result (option float) PolicyError :=
  if 5 <=? Z.of_nat (length (cache_metrics session)) then
    match mean_of_five (lastn 5 (cache_metrics session)) with
    | Ok avg_cache_hit =>
        if PrimFloat.ltb avg_cache_hit (cfg_cache_hit_threshold config)
        then Ok (Some avg_cache_hit) else Ok None
    | Error e => Error e
    end
  else Ok None.

(** [_should_include_prompt(session)] *)
Definition should_include_prompt (session : UserSession) : result bool PolicyError :=
  let strategy := cfg_prompt_strategy config in
  if negb (cfg_enable_periodic_prompt config) then Ok true
  else if String.eqb strategy "always" then Ok true
  else if String.eqb strategy "periodic" then periodic_due session
  else if String.eqb strategy "adaptive" then
    match periodic_due session with
    | Error e => Error e
    | Ok true => Ok true
    | Ok false =>
        match low_cache_hit session with
        | Error e => Error e
        | Ok (Some _) => Ok true
        | Ok None => Ok false
        end
    end
  else Ok false.

(** [_get_prompt_reason(session)] *)
Definition get_prompt_reason (session : UserSession) : result string PolicyError :=
  let strategy := cfg_prompt_strategy config in
  if String.eqb strategy "always" then Ok "always_strategy"
  else if String.eqb strategy "periodic" then
    Ok (String.append "periodic_interval_"
          (NilZero.string_of_int (Z.to_int (cfg_system_prompt_interval config))))
  else if String.eqb strategy "adaptive" then
    match low_cache_hit session with
    | Error e => Error e
    | Ok (Some avg_cache_hit) =>
        Ok (String.append "low_cache_hit_rate_" (format_2f avg_cache_hit))
    | Ok None => Ok "adaptive_periodic"
    end
  else Ok "unknown".

End PromptPolicy.

(** A mean for lists of floats, added from the left and divided by five, as
    the interpreter before 3.12 computes it; it serves the concrete runs
    below, whose metrics are floats. *)
Fixpoint float_sum (acc : float) (l : list Value) : result float PolicyError :=
  match l with
  | [] => Ok acc
  | VFloat f :: rest => float_sum (PrimFloat.add acc f) rest
  | _ :: _ => Error SumTypeError
  end.

Definition float_mean_of_five (l : list Value) : result float PolicyError :=
  match float_sum 0%float l with
  | Ok total => Ok (PrimFloat.div total 5%float)
  | Error e => Error e
  end.

(** A session that has counted [count] messages and holds [metrics]. *)
Definition session_with (count : Z) (metrics : list Value) : UserSession :=
  {| user_id := "u1"; username := None; message_count := count; created_at := 0;
     last_activity := 0; cache_metrics := metrics; current_mode := "talk";
     mode_confidence := 0.0%float; mode_history := []; last_mode_change := None |}.

(** The configuration with another strategy. *)
Definition with_strategy (strategy : string) (config : PromptConfig) : PromptConfig :=
  {| cfg_prompt_strategy := strategy;
     cfg_enable_periodic_prompt := cfg_enable_periodic_prompt config;
     cfg_system_prompt_interval := cfg_system_prompt_interval config;
     cfg_cache_hit_threshold := cfg_cache_hit_threshold config |}.

Definition prompt_config (strategy : string) (interval : Z) : PromptConfig :=
  {| cfg_prompt_strategy := strategy; cfg_enable_periodic_prompt := true;
     cfg_system_prompt_interval := interval; cfg_cache_hit_threshold := 0.5%float |}.

(** ** The mode detection

    [_determine_generation_mode] reads [MODE_DETECTION_CONFIG]
    ([config/prompts.py], which is not among the sources) and these
    constants of [config/settings.py]. *)
Definition MODE_CONFIDENCE_THRESHOLD : float := 0x1.3333333333333p-2%float.
Definition MODE_SCORE_NORMALIZATION_FACTOR : float := 1.5%float.
Definition CONTEXTUAL_PATTERN_PHRASE_WEIGHT : float := 2.5%float.
Definition CONTEXTUAL_PATTERN_DOMAIN_WEIGHT : float := 0.5%float.
Definition CONTEXTUAL_PATTERN_CONTEXT_MULTIPLIER : float := 1.5%float.
Definition CONTEXTUAL_PATTERN_SUPPRESSOR_MULTIPLIER : float := 0.0%float.
Definition MODE_DETECTION_DEBUG_LOGGING : bool := true.

(** The three modes the detection scores, in the order of the [scores]
    dict. *)
Inductive ScoredMode : Type := Expert | Creative | Talk.

Definition mode_name (m : ScoredMode) : string :=
  match m with
  | Expert => "expert"
  | Creative => "creative"
  | Talk => "talk"
  end.

Definition scored_modes : list ScoredMode := [Expert; Creative; Talk].

(** The configuration, a parameter: the entries the function reads, with a
    weight for each of the three modes; weights, bonus and multiplier are
    floats, patterns are strings.  A list that the code reads with
    [.get(key, [])] is empty when the key is absent. *)
Record WordModifiers : Type := {
  enhancers : list string;
  suppressors : list string
}.

Record ModePatterns : Type := {
  exact_phrases : list string;
  contextual_words : list (string * WordModifiers);
  domain_markers : list string
}.

Record ModeDetectionConfig : Type := {
  min_text_length : Z;
  mode_weights : ScoredMode -> float;
  contextual_patterns : list (string * ModePatterns);
  expert_patterns : list string;
  creative_patterns : list string;
  talk_patterns : list string;
  question_words : list string;
  question_bonus : float;
  stable_history_multiplier : float
}.

(** [needle in haystack] on strings. *)
Fixpoint contains (needle haystack : string) : bool :=
  String.prefix needle haystack
  || match haystack with
     | EmptyString => false
     | String _ rest => contains needle rest
     end.

(** A score: the [int] 0 it starts as, or the [float] it became by [+=]. *)
Inductive Score : Type :=
| IntZero
| FloatScore (f : float).

Definition score_float (s : Score) : float :=
  match s with
  | IntZero => 0%float
  | FloatScore f => f
  end.

Definition score_add (s : Score) (x : float) : Score :=
  FloatScore (PrimFloat.add (score_float s) x).

(** [score == 0] *)
Definition score_is_zero (s : Score) : bool :=
  match s with
  | IntZero => true
  | FloatScore f => PrimFloat.eqb f 0%float
  end.

(** [a > b] *)
Definition score_gt (a b : Score) : bool :=
  PrimFloat.ltb (score_float b) (score_float a).

Definition score_value (s : Score) : Value :=
  match s with
  | IntZero => VInt 0
  | FloatScore f => VFloat f
  end.

(** [scores[mode]] and [detection_details[mode]['patterns']]. *)
Record ModeTally : Type := {
  tally_score : Score;
  tally_patterns : list string
}.

Record Tallies : Type := {
  expert_tally : ModeTally;
  creative_tally : ModeTally;
  talk_tally : ModeTally
}.

Definition no_tally : ModeTally := {| tally_score := IntZero; tally_patterns := [] |}.

Definition no_tallies : Tallies :=
  {| expert_tally := no_tally; creative_tally := no_tally; talk_tally := no_tally |}.

Definition tally_of (m : ScoredMode) (t : Tallies) : ModeTally :=
  match m with
  | Expert => expert_tally t
  | Creative => creative_tally t
  | Talk => talk_tally t
  end.

Definition with_tally (m : ScoredMode) (v : ModeTally) (t : Tallies) : Tallies :=
  match m with
  | Expert => {| expert_tally := v; creative_tally := creative_tally t;
                 talk_tally := talk_tally t |}
  | Creative => {| expert_tally := expert_tally t; creative_tally := v;
                   talk_tally := talk_tally t |}
  | Talk => {| expert_tally := expert_tally t; creative_tally := creative_tally t;
               talk_tally := v |}
  end.

(** [scores[mode] += x] *)
Definition add_score (m : ScoredMode) (x : float) (t : Tallies) : Tallies :=
  with_tally m {| tally_score := score_add (tally_score (tally_of m t)) x;
                  tally_patterns := tally_patterns (tally_of m t) |} t.

(** [detection_details[mode]['patterns'].append(p)] *)
Definition add_pattern (m : ScoredMode) (p : string) (t : Tallies) : Tallies :=
  with_tally m {| tally_score := tally_score (tally_of m t);
                  tally_patterns := tally_patterns (tally_of m t) ++ [p] |} t.

(** [min(a, b)] and the running maximum of [max]: the first argument stays
    unless the second is strictly smaller (greater). *)
Definition py_min (a b : float) : float := if PrimFloat.ltb b a then b else a.

(** [max(scores, key=scores.get)] and [max(scores.values())]: the first mode,
    in the order of the dict, whose score no later score exceeds, and that
    score. *)
Definition best_mode (t : Tallies) : ScoredMode * Score :=
  fold_left
    (fun best m =>
       if score_gt (tally_score (tally_of m t)) best.2
       then (m, tally_score (tally_of m t)) else best)
    [Creative; Talk] (Expert, tally_score (expert_tally t)).

(** The first of [candidates] that occurs in the text: where a loop with
    [break] stops. *)
Definition first_in (text_lower : string) (candidates : list string) : option string :=
  List.find (fun c => contains c text_lower) candidates.

(** [all(m == last_modes[0] for m in last_modes)] on [mode_history[-3:]] of
    a history with at least three entries: the mode they share. *)
Definition stable_mode (history : list string) : option string :=
  if 3 <=? Z.of_nat (length history) then
    match lastn 3 history with
    | first :: rest =>
        if forallb (fun m => String.eqb m first) (first :: rest) then Some first else None
    | [] => None
    end
  else None.

Definition tally_value (t : ModeTally) : Value :=
  VDict [("patterns", VList (map VStr (tally_patterns t)));
         ("score", score_value (tally_score t))].

(** [detection_details] and [scores] as the event data hold them. *)
Definition details_value (t : Tallies) : Value :=
  VDict [("expert", tally_value (expert_tally t));
         ("creative", tally_value (creative_tally t));
         ("talk", tally_value (talk_tally t))].

Definition scores_value (t : Tallies) : Value :=
  VDict [("expert", score_value (tally_score (expert_tally t)));
         ("creative", score_value (tally_score (creative_tally t)));
         ("talk", score_value (tally_score (talk_tally t)))].

(** What a call of [_determine_generation_mode] gives and does: the pair it
    returns, the details it stores in [_last_detection_details] (none at the
    early return), its calls of [logger.debug] and the debug event it hands
    to [asyncio.create_task]. *)
Record Detection : Type := {
  detected_mode : string;
  confidence : float;
  detection_details : option Value;
  debug_records : list LogRecord;
  debug_event : option BaseEvent
}.

Section ModeDetection.
Context {System : Type} {C : Collaborators System}.
Variable config : ModeDetectionConfig.

(** [str.lower] and [math.log] on a count, the interpreter's; whether the
    logger is enabled for [DEBUG]; what [datetime.now()] reads. *)
Variable str_lower : string -> string.
Variable math_log : nat -> float.
Variable debug_enabled : bool.
Variable now : Z.

(** Level 1: exact phrases. *)
Definition exact_phrase_step (text_lower : string) (mode : ScoredMode) (acc : Tallies)
    (phrase : string) : Tallies :=
  if contains phrase text_lower
  then add_pattern mode (String.append "exact_phrase: " phrase)
         (add_score mode
            (PrimFloat.mul (mode_weights config mode) CONTEXTUAL_PATTERN_PHRASE_WEIGHT) acc)
  else acc.

(** Level 2: one contextual word with its enhancers and suppressors. *)
Definition contextual_word_step (text_lower : string) (mode : ScoredMode) (acc : Tallies)
    (entry : string * WordModifiers) : Tallies :=
  let word := entry.1 in
  let modifiers := entry.2 in
  if contains word text_lower then
    let word_score := mode_weights config mode in
    let enhanced :=
      match first_in text_lower (enhancers modifiers) with
      | Some enhancer =>
          (PrimFloat.mul word_score CONTEXTUAL_PATTERN_CONTEXT_MULTIPLIER,
           add_pattern mode
             (String.append "enhanced: " (String.append word (String.append "+" enhancer)))
             acc)
      | None => (word_score, acc)
      end in
    match first_in text_lower (suppressors modifiers) with
    | Some suppressor =>
        let word_score' := PrimFloat.mul enhanced.1 CONTEXTUAL_PATTERN_SUPPRESSOR_MULTIPLIER in
        let acc' :=
          add_pattern mode
            (String.append "suppressed: " (String.append word (String.append "-" suppressor)))
            enhanced.2 in
        if PrimFloat.eqb CONTEXTUAL_PATTERN_SUPPRESSOR_MULTIPLIER 0%float
        then acc'
        else add_score mode word_score' acc'
    | None => add_score mode enhanced.1 enhanced.2
    end
  else acc.

(** Level 3: domain markers, on a logarithmic scale. *)
Definition domain_markers_step (text_lower : string) (mode : ScoredMode) (acc : Tallies)
    (markers : list string) : Tallies :=
  let domain_count := length (List.filter (fun marker => contains marker text_lower) markers) in
  if (0 <? domain_count)%nat
  then add_pattern mode
         (String.append "domains: " (NilZero.string_of_uint (Nat.to_uint domain_count)))
         (add_score mode
            (PrimFloat.mul
               (PrimFloat.mul (mode_weights config mode) CONTEXTUAL_PATTERN_DOMAIN_WEIGHT)
               (PrimFloat.add 1%float (math_log domain_count)))
            acc)
  else acc.

(** The body of [for mode in ['expert', 'creative', 'talk']]. *)
Definition contextual_mode_step (text_lower : string) (acc : Tallies) (mode : ScoredMode)
    : Tallies :=
  match dict_get (mode_name mode) (contextual_patterns config) with
  | None => acc
  | Some mode_patterns =>
      domain_markers_step text_lower mode
        (fold_left (contextual_word_step text_lower mode) (contextual_words mode_patterns)
           (fold_left (exact_phrase_step text_lower mode) (exact_phrases mode_patterns) acc))
        (domain_markers mode_patterns)
  end.

Definition contextual_scores (text_lower : string) (acc : Tallies) : Tallies :=
  match contextual_patterns config with
  | [] => acc
  | _ :: _ => fold_left (contextual_mode_step text_lower) scored_modes acc
  end.

(** The simple patterns of one mode. *)
Definition simple_pattern_step (text_lower : string) (mode : ScoredMode) (acc : Tallies)
    (pattern : string) : Tallies :=
  if contains pattern text_lower
  then add_pattern mode (String.append "simple: " pattern)
         (add_score mode (mode_weights config mode) acc)
  else acc.

(** [all(score == 0 for score in scores.values())] *)
Definition all_scores_zero (t : Tallies) : bool :=
  score_is_zero (tally_score (expert_tally t))
  && score_is_zero (tally_score (creative_tally t))
  && score_is_zero (tally_score (talk_tally t)).

Definition fallback_scores (text_lower : string) (acc : Tallies) : Tallies :=
  if all_scores_zero acc then
    fold_left (simple_pattern_step text_lower Talk) (talk_patterns config)
      (fold_left (simple_pattern_step text_lower Creative) (creative_patterns config)
         (fold_left (simple_pattern_step text_lower Expert) (expert_patterns config) acc))
  else acc.

Definition fallback_record : LogRecord :=
  {| log_level := DEBUG;
     log_text := "[fallback] all scores are zero, applying simple pattern fallback";
     log_args := [] |}.

(** Question words raise the expert score. *)
Definition question_scores (text_lower : string) (acc : Tallies) : Tallies :=
  if existsb (fun q => contains q text_lower) (question_words config)
  then add_pattern Expert "question_bonus" (add_score Expert (question_bonus config) acc)
  else acc.

(** The scores of a lowered text. *)
Definition mode_scores (text_lower : string) : Tallies :=
  question_scores text_lower
    (fallback_scores text_lower (contextual_scores text_lower no_tallies)).

(** The mode with the highest score and its confidence; ['talk'] at the
    threshold when no score is above or below zero. *)
Definition select_mode (t : Tallies) : ScoredMode * float :=
  if score_is_zero (best_mode t).2 then (Talk, MODE_CONFIDENCE_THRESHOLD)
  else ((best_mode t).1,
        py_min (PrimFloat.div (score_float (best_mode t).2) MODE_SCORE_NORMALIZATION_FACTOR)
          1%float).

(** The history boost: the details and the confidence after it. *)
Definition history_boost (history : list string) (selected : ScoredMode * float) (t : Tallies)
    : Tallies * float :=
  match stable_mode history with
  | Some last_mode =>
      if String.eqb (mode_name selected.1) last_mode
      then (add_pattern selected.1 "history_boost" t,
            py_min (PrimFloat.mul selected.2 (stable_history_multiplier config)) 1%float)
      else (t, selected.2)
  | None => (t, selected.2)
  end.

(** The function past its early return, on a text that is a string. *)
Definition detect (text : string) (session : UserSession) : Detection :=
  let text_lower := str_lower text in
  let contextual := contextual_scores text_lower no_tallies in
  let scores := mode_scores text_lower in
  let selected := select_mode scores in
  let boosted := history_boost (mode_history session) selected scores in
  let debugging := MODE_DETECTION_DEBUG_LOGGING && debug_enabled in
  {| detected_mode := mode_name selected.1;
     confidence := boosted.2;
     detection_details := Some (details_value boosted.1);
     debug_records :=
       (if all_scores_zero contextual && MODE_DETECTION_DEBUG_LOGGING
        then [fallback_record] else [])
       ++ (if debugging
           then [{| log_level := DEBUG; log_text := "Mode detection details";
                    log_args := [VStr (str_prefix 50 text);
                                 VStr (mode_name selected.1); VFloat boosted.2;
                                 scores_value scores; details_value boosted.1] |}]
           else []);
     debug_event :=
       if debugging
       then Some (BaseEvent_create (String.append "debug_mode_" (user_id session))
                    "PatternDebugEvent"
                    [("user_id", VStr (user_id session));
                     ("text_preview", VStr (str_prefix 100 text));
                     ("detected_mode", VStr (mode_name selected.1));
                     ("confidence", VFloat boosted.2);
                     ("scores", scores_value scores);
                     ("detection_details", details_value boosted.1);
                     ("timestamp", VStr (isoformat now))])
       else None |}.

(** [return session.current_mode or 'talk', 0.5] *)
Definition early_return (session : UserSession) : Detection :=
  {| detected_mode := if String.eqb (current_mode session) "" then "talk"
                      else current_mode session;
     confidence := 0.5%float;
     detection_details := None;
     debug_records := [];
     debug_event := None |}.

(** [_determine_generation_mode(text, session)].  A text that has no length
    raises at [len], one that is no string at [text.lower()]. *)
Definition determine_generation_mode (text : Value) (session : UserSession)
    : Outcome Detection :=
  if negb (truthy text) then Return (early_return session)
  else
    match py_len text with
    | Raise e => Raise e
    | Return n =>
        if n <? min_text_length config then Return (early_return session)
        else
          match text with
          | VStr t => Return (detect t session)
          | _ => Raise (AttributeError "lower")
          end
    end.

End ModeDetection.

(** The patterns the detection looks for in the text on their own: the
    exact phrases, contextual words and domain markers of the contextual
    patterns, the simple patterns and the question words (enhancers and
    suppressors are looked for only once their word was found). *)
Definition mode_patterns_tested (mp : ModePatterns) : list string :=
  exact_phrases mp ++ map fst (contextual_words mp) ++ domain_markers mp.

Definition tested_patterns (config : ModeDetectionConfig) : list string :=
  concat (map (fun entry => mode_patterns_tested entry.2) (contextual_patterns config))
  ++ expert_patterns config ++ creative_patterns config ++ talk_patterns config
  ++ question_words config.

Definition matches_nothing (config : ModeDetectionConfig) (text_lower : string) : bool :=
  forallb (fun p => negb (contains p text_lower)) (tested_patterns config).

(** Whether the last three modes of a history are all ['talk']. *)
Definition stable_talk (history : list string) : bool :=
  match stable_mode history with
  | Some last_mode => String.eqb "talk" last_mode
  | None => false
  end.

(** Two tallies with the same scores. *)
Definition same_scores (t t' : Tallies) : Prop :=
  forall m, tally_score (tally_of m t) = tally_score (tally_of m t').

(** Lower case on the letters A to Z: [str.lower] on a text whose other
    letters are in lower case already. *)
Definition ascii_lower (c : Ascii.ascii) : Ascii.ascii :=
  let n := Ascii.nat_of_ascii c in
  if ((65 <=? n) && (n <=? 90))%nat then Ascii.ascii_of_nat (n + 32) else c.

Fixpoint lower (s : string) : string :=
  match s with
  | EmptyString => EmptyString
  | String c rest => String (ascii_lower c) (lower rest)
  end.

(** A small configuration: one contextual word for the expert mode, with an
    enhancer and a suppressor, simple patterns and one question word. *)
Definition small_config : ModeDetectionConfig :=
  {| min_text_length := 2;
     mode_weights := fun _ => 1%float;
     contextual_patterns :=
       [("expert",
         {| exact_phrases := ["explain how"];
            contextual_words :=
              [("why", {| enhancers := ["exactly"]; suppressors := ["not"] |})];
            domain_markers := ["theorem"] |})];
     expert_patterns := ["define"];
     creative_patterns := ["story"];
     talk_patterns := ["hello"];
     question_words := ["what"];
     question_bonus := 0.5%float;
     stable_history_multiplier := 2%float |}.

Definition small_detect (text : Value) (session : UserSession) : Outcome Detection :=
  @determine_generation_mode ActorSystem plain_collaborators small_config lower
    (fun _ => 0%float) false 0 text session.

(** What [_determine_generation_mode] hands to [_handle_user_message]: the
    mode and the confidence it returns and the details it stores in
    [_last_detection_details].  Its log records and the [PatternDebugEvent]
    it schedules are its other effects. *)
Definition detection_result (d : Detection) : string * float * option Value :=
  (detected_mode d, confidence d, detection_details d).

Definition detection_outcome (o : Outcome Detection)
    : Outcome (string * float * option Value) :=
  match o with
  | Return d => Return (detection_result d)
  | Raise e => Raise e
  end.

(** The collaborators of the examples with the detection of [small_config],
    the logger not enabled for DEBUG. *)
Definition small_collaborators : Collaborators ActorSystem :=
  {| send_message := ActorSystem_send_message;
     append_event := fun _ sys => (sys, Return tt);
     append_event_detached := fun _ => Return tt;
     _determine_generation_mode := fun text session =>
       detection_outcome (small_detect text session);
     _should_include_prompt := fun s => Z.eqb (message_count s mod 10) 1;
     _get_prompt_reason := fun _ => "periodic_interval_10";
     prompt_strategy := VStr "periodic";
     pydantic_float_list := all_floats;
     isoformat := fun _ => "2025-01-01T00:00:00" |}.

(* ===================================================================== *)
(** * Part II. Properties                                                 *)
(* ===================================================================== *)

(** ** Lists and dictionaries *)

(** [len] and slices count characters, not bytes: six Cyrillic letters are
    twelve bytes. *)
Example str_len_counts_characters :
  str_len "привет" = 6%nat
  /\ String.length "привет" = 12%nat
  /\ str_prefix 3 "привет" = "при"
  /\ str_len "hello" = String.length "hello".
Proof. repeat split. Qed.

Lemma lastn_length {A} (n : nat) (l : list A) :
  length (lastn n l) = Nat.min n (length l).
Proof. unfold lastn. rewrite length_drop. lia. Qed.

Lemma lastn_all {A} (n : nat) (l : list A) :
  (length l <= n)%nat -> lastn n l = l.
Proof.
  intros Hle. unfold lastn.
  replace (length l - n)%nat with 0%nat by lia. reflexivity.
Qed.

Lemma lastn_app_long {A} (n : nat) (l rs : list A) :
  (n <= length rs)%nat -> lastn n (l ++ rs) = lastn n rs.
Proof.
  intros Hle. unfold lastn. rewrite length_app.
  replace (length l + length rs - n)%nat with (length l + (length rs - n))%nat by lia.
  apply drop_app_add.
Qed.

Lemma lastn_snoc_lastn {A} (n : nat) (l : list A) (x : A) :
  lastn n (lastn n l ++ [x]) = lastn n (l ++ [x]).
Proof.
  unfold lastn. rewrite !length_app, length_drop. simpl.
  destruct (decide (length l <= n)%nat) as [Hle | Hgt].
  - replace (length l - n)%nat with 0%nat by lia. rewrite drop_0.
    f_equal. lia.
  - replace (length l - (length l - n) + 1 - n)%nat with 1%nat by lia.
    replace (length l + 1 - n)%nat with ((length l - n) + 1)%nat by lia.
    rewrite <- (drop_drop (l ++ [x]) 1 (length l - n)).
    rewrite (drop_app_le l [x]) by lia. reflexivity.
Qed.

Lemma lastn_app_lastn {A} (n : nat) (l rs : list A) :
  lastn n (lastn n l ++ rs) = lastn n (l ++ rs).
Proof.
  revert l. induction rs as [| r rs IH] using rev_ind; intros l.
  - rewrite !app_nil_r. apply lastn_all. rewrite lastn_length. lia.
  - rewrite !app_assoc. rewrite <- (lastn_snoc_lastn n (lastn n l ++ rs)).
    rewrite IH. apply lastn_snoc_lastn.
Qed.

(** ** The event store *)

Lemma current_version_nonneg store sid : 0 <= current_version store sid.
Proof. unfold current_version. lia. Qed.

(** C7. For every stream, [append(streamId, event, expectedVersion)] appends
    the event if and only if the stream's current version equals the
    expected one.  When it does, the event is the new last event of the
    stream, at the next version, and no other stream changes; when it does
    not, the call fails with [EventStoreConcurrencyError] carrying the
    expected and the actual version, and the store is the one it was. *)
Theorem append_iff_expected_version
    (store : gmap string (list BaseEvent)) (sid : string) (event : BaseEvent) (expected : Z) :
  ((exists v, (EventStore_append store sid event expected).2 = Appended v)
     <-> current_version store sid = expected)
  /\ ((current_version store sid = expected
       /\ (EventStore_append store sid event expected).2 = Appended (expected + 1)
       /\ stream_of (EventStore_append store sid event expected).1 sid
          = stream_of store sid ++ [with_version (expected + 1) event]
       /\ (forall other, other <> sid ->
             stream_of (EventStore_append store sid event expected).1 other
             = stream_of store other))
      \/ (current_version store sid <> expected
          /\ (EventStore_append store sid event expected).2
             = EventStoreConcurrencyError expected (current_version store sid)
          /\ (EventStore_append store sid event expected).1 = store)).
Proof.
  unfold EventStore_append.
  destruct (Z.eqb_spec (current_version store sid) expected) as [Heq | Hne]; simpl.
  - split.
    + split; [intros _; exact Heq | intros _; eexists; reflexivity].
    + left. rewrite Heq. repeat split.
      * unfold stream_of at 1. rewrite lookup_insert_eq. reflexivity.
      * intros other Hother. unfold stream_of at 1.
        rewrite lookup_insert_ne by congruence. reflexivity.
  - split.
    + split; [intros [v Hv]; discriminate | intros Heq; contradiction].
    + right. repeat split. exact Hne.
Qed.

(** Versions of a stream read [1..N]: an accepted append raises the current
    version by one. *)
Lemma append_raises_version store sid event :
  current_version (EventStore_append store sid event (current_version store sid)).1 sid
  = current_version store sid + 1.
Proof.
  unfold EventStore_append. rewrite Z.eqb_refl. simpl.
  unfold current_version at 1, stream_of at 1. rewrite lookup_insert_eq. simpl.
  rewrite length_app. simpl. unfold current_version. lia.
Qed.

(** ** The memory actor: bounded buffer and degraded mode *)

Lemma user_buffer_store uid mtype content metadata a :
  user_buffer (store_interaction uid mtype content metadata a) uid
  = lastn (Z.to_nat STM_BUFFER_SIZE)
      (user_buffer a uid ++ [as_record (mtype, content, metadata)]).
Proof.
  unfold store_interaction, user_buffer at 1. simpl.
  rewrite lookup_insert_eq. reflexivity.
Qed.

Lemma user_buffer_store_other uid uid' mtype content metadata a :
  uid <> uid' ->
  user_buffer (store_interaction uid mtype content metadata a) uid' = user_buffer a uid'.
Proof.
  intros Hne. unfold store_interaction, user_buffer. simpl.
  rewrite lookup_insert_ne by exact Hne. reflexivity.
Qed.

Lemma user_buffer_store_records uid rs : forall r a,
  user_buffer (store_records uid (r :: rs) a) uid
  = lastn (Z.to_nat STM_BUFFER_SIZE) (user_buffer a uid ++ map as_record (r :: rs)).
Proof.
  induction rs as [| r' rs IH]; intros [[mtype content] metadata] a.
  - apply user_buffer_store.
  - change (store_records uid ((mtype, content, metadata) :: r' :: rs) a)
      with (store_records uid (r' :: rs) (store_interaction uid mtype content metadata a)).
    rewrite IH, user_buffer_store, lastn_app_lastn.
    rewrite <- app_assoc. reflexivity.
Qed.

(** C4. For every key, after storing [N] records with [N] greater than the
    capacity [STM_BUFFER_SIZE = 50], reading the buffer (with a limit that
    does not cut it further) yields exactly [capacity] records: the last
    [capacity] of the stored ones, in arrival order, the oldest
    [N - capacity] having been evicted, whatever the buffer held before. *)
Theorem buffer_keeps_last_capacity_records
    (uid : string) (rs : list (string * string * Value)) (limit : Z) (a : MemoryActor) :
  STM_BUFFER_SIZE < Z.of_nat (length rs) ->
  STM_BUFFER_SIZE <= limit ->
  get_context uid limit (store_records uid rs a)
  = map as_record (drop (length rs - Z.to_nat STM_BUFFER_SIZE) rs)
  /\ Z.of_nat (length (get_context uid limit (store_records uid rs a))) = STM_BUFFER_SIZE.
Proof.
  intros Hlong Hlimit.
  assert (Hread : get_context uid limit (store_records uid rs a)
                  = map as_record (drop (length rs - Z.to_nat STM_BUFFER_SIZE) rs)).
  { unfold get_context. destruct rs as [| r rs]; [simpl in Hlong; unfold STM_BUFFER_SIZE in Hlong; lia |].
    rewrite user_buffer_store_records.
    rewrite lastn_app_long by (rewrite length_map; unfold STM_BUFFER_SIZE in *; lia).
    rewrite lastn_all by (rewrite lastn_length; unfold STM_BUFFER_SIZE in *; lia).
    unfold lastn. rewrite length_map, skipn_map. reflexivity. }
  split; [exact Hread |].
  rewrite Hread, length_map, length_drop. unfold STM_BUFFER_SIZE in *. lia.
Qed.

(** Storing the sixty records of [test_buffer_maintains_50_messages]
    (capacity 50) leaves records 10 through 59. *)
Lemma buffer_keeps_last_capacity_records_witness :
  STM_BUFFER_SIZE < Z.of_nat (length (numbered_records 0 60))
  /\ get_context "test_user_buffer" STM_BUFFER_SIZE
       (store_records "test_user_buffer" (numbered_records 0 60) MemoryActor_new)
     = map as_record (numbered_records 10 50).
Proof.
  split; [vm_compute; reflexivity |].
  destruct (buffer_keeps_last_capacity_records "test_user_buffer" (numbered_records 0 60)
              STM_BUFFER_SIZE MemoryActor_new) as [Hread _].
  - vm_compute. reflexivity.
  - vm_compute. discriminate.
  - rewrite Hread. vm_compute. reflexivity.
Defined.

(** The same sixty records sent as [STORE_MEMORY] messages and read back
    with a [GET_CONTEXT]: the response counts fifty messages, the first
    ["Message 10"] and the last ["Message 59"]. *)
Example test_buffer_maintains_50_messages :
  let store i := memory_message STORE_MEMORY
                   [("user_id", VStr "test_user_buffer");
                    ("message_type", VStr (numbered_record i).1.1);
                    ("content", VStr (message_text i));
                    ("metadata", VDict [("index", VInt (Z.of_nat i))])] in
  let actor := fold_left (fun a i => (MemoryActor_handle_message (store i) a).1)
                 (seq 0 60) MemoryActor_new in
  let get := memory_message GET_CONTEXT [("user_id", VStr "test_user_buffer")] in
  exists response messages,
    (MemoryActor_handle_message get actor).2 = Return (Some response)
    /\ message_type response = MESSAGE_TYPES CONTEXT_RESPONSE
    /\ dict_get "total_messages" (payload response) = Some (VInt STM_BUFFER_SIZE)
    /\ dict_get "messages" (payload response) = Some (VList messages)
    /\ head messages = Some (VDict [("role", VStr "user"); ("content", VStr "Message 10")])
    /\ last messages = Some (VDict [("role", VStr "assistant"); ("content", VStr "Message 59")]).
Proof. vm_compute. do 2 eexists. repeat split. Qed.

(** C5. In degraded mode a [STORE_MEMORY] message raises no error and
    persists nothing: the handler returns, the buffer is what it was, the
    write is recorded as skipped and the actor stays in degraded mode; a
    [GET_CONTEXT] message is answered with a [CONTEXT_RESPONSE] whose
    payload has [degraded_mode] true and an empty [context] list. *)
Theorem degraded_mode_serves_without_persisting (a : MemoryActor) (message : ActorMessage) :
  _degraded_mode a = true ->
  (message_type message = MESSAGE_TYPES STORE_MEMORY ->
     (MemoryActor_handle_message message a).2 = Return None
     /\ stm_buffer (MemoryActor_handle_message message a).1 = stm_buffer a
     /\ skipped_writes (MemoryActor_handle_message message a).1 = skipped_writes a ++ [message]
     /\ store_memory_count (MemoryActor_handle_message message a).1 = store_memory_count a + 1
     /\ _degraded_mode (MemoryActor_handle_message message a).1 = true)
  /\ (message_type message = MESSAGE_TYPES GET_CONTEXT ->
        exists response,
          (MemoryActor_handle_message message a).2 = Return (Some response)
          /\ message_type response = MESSAGE_TYPES CONTEXT_RESPONSE
          /\ dict_get "degraded_mode" (payload response) = Some (VBool true)
          /\ dict_get "context" (payload response) = Some (VList [])
          /\ stm_buffer (MemoryActor_handle_message message a).1 = stm_buffer a
          /\ _degraded_mode (MemoryActor_handle_message message a).1 = true).
Proof.
  intros Hdeg. split; intros Htype; unfold MemoryActor_handle_message; rewrite Htype; simpl;
    rewrite Hdeg; simpl.
  - repeat split; try exact Hdeg.
  - eexists. repeat split; try exact Hdeg.
Qed.

(** The two messages of [test_degraded_mode_behavior]. *)
Lemma degraded_mode_serves_without_persisting_witness :
  let a := {| _degraded_mode := true; store_memory_count := 0; get_context_count := 0;
              clear_memory_count := 0; unknown_message_count := 0; stm_buffer := ∅;
              skipped_writes := [] |} in
  let store := memory_message STORE_MEMORY
                 [("user_id", VStr "test_user"); ("message_type", VStr "user");
                  ("content", VStr "Test message")] in
  let get := memory_message GET_CONTEXT [("user_id", VStr "test_user")] in
  ((MemoryActor_handle_message store a).2 = Return None
   /\ stm_buffer (MemoryActor_handle_message store a).1 = ∅)
  /\ exists response,
       (MemoryActor_handle_message get (MemoryActor_handle_message store a).1).2
       = Return (Some response)
       /\ dict_get "degraded_mode" (payload response) = Some (VBool true)
       /\ dict_get "context" (payload response) = Some (VList []).
Proof.
  cbv zeta. split.
  - pose proof (degraded_mode_serves_without_persisting
                  {| _degraded_mode := true; store_memory_count := 0; get_context_count := 0;
                     clear_memory_count := 0; unknown_message_count := 0; stm_buffer := ∅;
                     skipped_writes := [] |}
                  (memory_message STORE_MEMORY
                     [("user_id", VStr "test_user"); ("message_type", VStr "user");
                      ("content", VStr "Test message")]) eq_refl) as [Hstore _].
    destruct (Hstore eq_refl) as (Hret & Hbuf & _). split; [exact Hret | exact Hbuf].
  - vm_compute. eexists. repeat split.
Defined.

(** ** The run of the memory actor's test *)

(** The repository's test passes on the model: after its four messages each
    of the four counters is 1. *)
Example test_memory_actor_message_handling :
  store_memory_count message_handling_scenario.2 = 1
  /\ get_context_count message_handling_scenario.2 = 1
  /\ clear_memory_count message_handling_scenario.2 = 1
  /\ unknown_message_count message_handling_scenario.2 = 1
  /\ mailboxes message_handling_scenario.1 !! "memory" = Some [].
Proof. vm_compute. repeat split. Qed.

(** ** The [UserSession] model *)

Lemma existsb_eqb_In (v : string) (l : list string) :
  existsb (String.eqb v) l = true <-> In v l.
Proof.
  rewrite existsb_exists. split.
  - intros (x & Hin & Heq). apply String.eqb_eq in Heq. subst. exact Hin.
  - intros Hin. exists v. split; [exact Hin | apply String.eqb_refl].
Qed.

Lemma validate_mode_Return v v' :
  validate_mode v = Return v' -> v' = v /\ In v valid_modes.
Proof.
  unfold validate_mode. destruct (existsb (String.eqb v) valid_modes) eqn:Hex; cbn [negb].
  - intros [= <-]. split; [reflexivity | apply (proj1 (existsb_eqb_In v valid_modes)); exact Hex].
  - discriminate.
Qed.

Lemma validate_mode_Raise v :
  ~ In v valid_modes -> validate_mode v = Raise (ValueError "Invalid mode").
Proof.
  intros Hnot. unfold validate_mode.
  destruct (existsb (String.eqb v) valid_modes) eqn:Hex; cbn [negb]; [| reflexivity].
  exfalso. apply Hnot. apply (proj1 (existsb_eqb_In v valid_modes)). exact Hex.
Qed.

Lemma validate_confidence_Return v v' :
  validate_confidence v = Return v' -> v' = v /\ in_unit_interval v.
Proof.
  unfold validate_confidence, in_unit_interval.
  destruct (PrimFloat.leb PYDANTIC_CONFIDENCE_MIN v); destruct (PrimFloat.leb v PYDANTIC_CONFIDENCE_MAX);
    simpl; try discriminate.
  intros [= <-]. repeat split.
Qed.

Lemma validate_confidence_Raise v :
  ~ in_unit_interval v ->
  validate_confidence v = Raise (ValueError "Mode confidence must be between 0.0 and 1.0").
Proof.
  unfold validate_confidence, in_unit_interval. intros Hnot.
  destruct (PrimFloat.leb PYDANTIC_CONFIDENCE_MIN v); destruct (PrimFloat.leb v PYDANTIC_CONFIDENCE_MAX);
    simpl; try reflexivity.
  exfalso. apply Hnot. split; reflexivity.
Qed.

Lemma field_value_Return {A} field (validator : A -> Outcome A) given default v :
  field_value field validator given default = Return v ->
  (given = None /\ v = default) \/ (exists g, given = Some g /\ validator g = Return v).
Proof.
  unfold field_value, run_validator. destruct given as [g |].
  - destruct (validator g) eqn:Hv; [| discriminate].
    intros [= <-]. right. exists g. split; [reflexivity | exact Hv].
  - intros [= <-]. left. split; reflexivity.
Qed.

Lemma field_value_size_total field (given : option (list string)) default :
  exists v, field_value field validate_mode_history_size given default = Return v.
Proof.
  unfold field_value, run_validator, validate_mode_history_size.
  destruct given as [g |]; [| eexists; reflexivity].
  destruct (PYDANTIC_MODE_HISTORY_MAX_SIZE <? Z.of_nat (length g)); eexists; reflexivity.
Qed.

Lemma field_value_metrics_total field (given : option (list Value)) default :
  exists v, field_value field validate_cache_metrics_size given default = Return v.
Proof.
  unfold field_value, run_validator, validate_cache_metrics_size.
  destruct given as [g |]; [| eexists; reflexivity].
  destruct (PYDANTIC_CACHE_METRICS_MAX_SIZE <? Z.of_nat (length g)); eexists; reflexivity.
Qed.

Lemma default_session_valid : In "talk" valid_modes /\ in_unit_interval 0.0%float.
Proof. split; [left; reflexivity | split; reflexivity]. Qed.

Lemma init_valid now args s :
  UserSession_init now args = Return s -> session_valid s.
Proof.
  unfold UserSession_init, outcome_bind.
  destruct (field_value "cache_metrics" _ _ _) as [cm |]; [| discriminate].
  destruct (field_value "current_mode" _ _ _) as [mode |] eqn:Hmode; [| discriminate].
  destruct (field_value "mode_confidence" _ _ _) as [conf |] eqn:Hconf; [| discriminate].
  destruct (field_value "mode_history" _ _ _) as [hist |]; [| discriminate].
  intros [= <-]. unfold session_valid. simpl. split.
  - apply field_value_Return in Hmode as [[_ ->] | (g & _ & Hg)].
    + apply default_session_valid.
    + apply validate_mode_Return in Hg as [-> Hin]. exact Hin.
  - apply field_value_Return in Hconf as [[_ ->] | (g & _ & Hg)].
    + apply default_session_valid.
    + apply validate_confidence_Return in Hg as [-> Hin]. exact Hin.
Qed.

Lemma setattr_valid s a s' :
  session_valid s -> UserSession_setattr s a = Return s' -> session_valid s'.
Proof.
  unfold session_valid. intros [Hmode Hconf].
  destruct a; simpl; unfold outcome_bind, run_validator;
    try (intros [= <-]; simpl; split; assumption).
  - destruct (validate_cache_metrics_size v); [| discriminate].
    intros [= <-]. simpl. split; assumption.
  - destruct (validate_mode v) eqn:Hv; [| discriminate].
    intros [= <-]. simpl. apply validate_mode_Return in Hv as [-> Hin]. split; assumption.
  - destruct (validate_confidence v) eqn:Hv; [| discriminate].
    intros [= <-]. simpl. apply validate_confidence_Return in Hv as [-> Hin]. split; assumption.
  - destruct (validate_mode_history_size v); [| discriminate].
    intros [= <-]. simpl. split; assumption.
Qed.

Lemma reachable_valid s : session_reachable s -> session_valid s.
Proof.
  induction 1 as [now args s Hinit | s a s' _ IH Hset | s m _ IH | s _ IH | s v _ IH].
  - eapply init_valid, Hinit.
  - eapply setattr_valid; eassumption.
  - exact IH.
  - exact IH.
  - exact IH.
Qed.

(** C9. Every [UserSession] value, as built by the constructor and after any
    field assignments and in-place list updates, has a [current_mode] among
    ['talk', 'expert', 'creative', 'base'] and a [mode_confidence] within
    [[0.0, 1.0]]; a construction or an assignment that gives either field a
    value outside these raises a validation error, so no session in an
    invalid state is produced. *)
Theorem session_mode_and_confidence_stay_valid :
  (forall s, session_reachable s ->
     In (current_mode s) valid_modes /\ in_unit_interval (mode_confidence s))
  /\ (forall now args v, arg_current_mode args = Some v -> ~ In v valid_modes ->
        UserSession_init now args = Raise (ValidationError "current_mode"))
  /\ (forall now args v, arg_mode_confidence args = Some v -> ~ in_unit_interval v ->
        exists field, UserSession_init now args = Raise (ValidationError field))
  /\ (forall s v, ~ In v valid_modes ->
        UserSession_setattr s (Set_current_mode v) = Raise (ValidationError "current_mode"))
  /\ (forall s v, ~ in_unit_interval v ->
        UserSession_setattr s (Set_mode_confidence v) = Raise (ValidationError "mode_confidence")).
Proof.
  split; [exact reachable_valid |]. repeat split.
  - intros now args v Hgiven Hbad. unfold UserSession_init, outcome_bind.
    destruct (field_value_metrics_total "cache_metrics" (arg_cache_metrics args) []) as [cm ->].
    rewrite Hgiven. unfold field_value at 1, run_validator.
    rewrite (validate_mode_Raise v Hbad). reflexivity.
  - intros now args v Hgiven Hbad. unfold UserSession_init, outcome_bind.
    destruct (field_value_metrics_total "cache_metrics" (arg_cache_metrics args) []) as [cm ->].
    destruct (field_value "current_mode" _ _ _) as [mode | e] eqn:Hmode.
    + rewrite Hgiven. unfold field_value at 1, run_validator.
      rewrite (validate_confidence_Raise v Hbad). eexists; reflexivity.
    + unfold field_value, run_validator in Hmode.
      destruct (arg_current_mode args) as [g |]; [| discriminate].
      destruct (validate_mode g); [discriminate |].
      injection Hmode as <-. eexists; reflexivity.
  - intros s v Hbad. simpl. unfold run_validator.
    rewrite (validate_mode_Raise v Hbad). reflexivity.
  - intros s v Hbad. simpl. unfold run_validator.
    rewrite (validate_confidence_Raise v Hbad). reflexivity.
Qed.

(** A session built by the actor's constructor call and assigned a mode and
    a confidence is valid; a not-a-number confidence, a confidence above
    one and an unknown mode are refused. *)
Lemma session_mode_and_confidence_stay_valid_witness :
  let s0 := {| user_id := "u"; username := None; message_count := 0; created_at := 7;
               last_activity := 7; cache_metrics := []; current_mode := "talk";
               mode_confidence := 0.0%float; mode_history := [];
               last_mode_change := None |} in
  let s1 := with_current_mode "expert" s0 in
  let s2 := with_mode_confidence 0.75%float s1 in
  (In (current_mode s2) valid_modes /\ in_unit_interval (mode_confidence s2))
  /\ UserSession_setattr s2 (Set_mode_confidence nan) = Raise (ValidationError "mode_confidence")
  /\ UserSession_setattr s2 (Set_mode_confidence 1.5%float) = Raise (ValidationError "mode_confidence")
  /\ UserSession_setattr s2 (Set_current_mode "angry") = Raise (ValidationError "current_mode").
Proof.
  cbv zeta.
  destruct session_mode_and_confidence_stay_valid as (Hreach & _ & _ & Hmode & Hconf).
  split; [| split; [| split]].
  - apply Hreach.
    apply (reach_setattr
             (with_current_mode "expert"
                {| user_id := "u"; username := None; message_count := 0; created_at := 7;
                   last_activity := 7; cache_metrics := []; current_mode := "talk";
                   mode_confidence := 0.0%float; mode_history := [];
                   last_mode_change := None |})
             (Set_mode_confidence 0.75%float)).
    + apply (reach_setattr
               {| user_id := "u"; username := None; message_count := 0; created_at := 7;
                  last_activity := 7; cache_metrics := []; current_mode := "talk";
                  mode_confidence := 0.0%float; mode_history := [];
                  last_mode_change := None |}
               (Set_current_mode "expert")).
      * apply (reach_init 7 (session_args "u" None)). reflexivity.
      * reflexivity.
    + reflexivity.
  - apply Hconf. intros [H _]. vm_compute in H. discriminate.
  - apply Hconf. intros [_ H]. vm_compute in H. discriminate.
  - apply Hmode. intros H. simpl in H. intuition discriminate.
Defined.

(** ** Actions and what they keep *)

Section ActProperties.
Context {S : Type}.

Lemma act_bind_Return {A B} (m : Act S A) (k : A -> Act S B) st st' b :
  act_bind m k st = (st', Return b) ->
  exists a st1, m st = (st1, Return a) /\ k a st1 = (st', Return b).
Proof.
  unfold act_bind. destruct (m st) as [st1 [a | e]]; [| discriminate].
  intros H. exists a, st1. split; [reflexivity | exact H].
Qed.

Lemma act_bind_eq {A B} (m : Act S A) (k : A -> Act S B) st st1 a :
  m st = (st1, Return a) -> act_bind m k st = k a st1.
Proof. intros H. unfold act_bind. rewrite H. reflexivity. Qed.

Lemma act_bind_Raise {A B} (m : Act S A) (k : A -> Act S B) st st1 e :
  m st = (st1, Raise e) -> act_bind m k st = (st1, Raise e).
Proof. intros H. unfold act_bind. rewrite H. reflexivity. Qed.

Variable R : S -> S -> Prop.
Context {R_pre : PreOrder R}.

Lemma keeps_ret {A} (a : A) : keeps R (act_ret a).
Proof. intros st st' r [= <- _]. reflexivity. Qed.

Lemma keeps_raise {A} (e : PyExc) : keeps R (@act_raise S A e).
Proof. intros st st' r [= <- _]. reflexivity. Qed.

Lemma keeps_lift {A} (o : Outcome A) : keeps R (act_lift o).
Proof. intros st st' r [= <- _]. reflexivity. Qed.

Lemma keeps_get : keeps R act_get.
Proof. intros st st' r [= <- _]. reflexivity. Qed.

Lemma keeps_modify (f : S -> S) : (forall st, R st (f st)) -> keeps R (act_modify f).
Proof. intros Hf st st' r [= <- _]. apply Hf. Qed.

Lemma keeps_bind {A B} (m : Act S A) (k : A -> Act S B) :
  keeps R m -> (forall a, keeps R (k a)) -> keeps R (act_bind m k).
Proof.
  intros Hm Hk st st' r. unfold act_bind.
  destruct (m st) as [st1 [a | e]] eqn:Hrun.
  - intros Hrest. transitivity st1; [eapply Hm, Hrun | eapply Hk, Hrest].
  - intros [= <- _]. eapply Hm, Hrun.
Qed.

Lemma keeps_when (c : bool) (m : Act S unit) : keeps R m -> keeps R (act_when c m).
Proof. intros Hm. destruct c; [exact Hm | apply keeps_ret]. Qed.

Lemma keeps_for {A} (l : list A) (body : A -> Act S unit) :
  (forall x, keeps R (body x)) -> keeps R (act_for l body).
Proof.
  intros Hbody. induction l as [| x l IH]; simpl.
  - apply keeps_ret.
  - apply keeps_bind; [apply Hbody | intros _; exact IH].
Qed.

End ActProperties.

Create HintDb keeps.
#[local] Hint Resolve keeps_ret keeps_raise keeps_lift keeps_get keeps_when : keeps.

(** One step of a proof that a composed action keeps a relation. *)
Ltac keeps_apply l := apply l; try (typeclasses eauto).
Ltac keeps_step :=
  match goal with
  | |- keeps _ (act_bind _ _) => keeps_apply keeps_bind; [| intros ?]
  | |- keeps _ (act_ret _) => keeps_apply keeps_ret
  | |- keeps _ (act_raise _) => keeps_apply keeps_raise
  | |- keeps _ (act_lift _) => keeps_apply keeps_lift
  | |- keeps _ act_get => keeps_apply keeps_get
  | |- keeps _ (act_when _ _) => keeps_apply keeps_when
  | |- keeps _ (act_for _ _) => keeps_apply keeps_for; intros ?
  | |- keeps _ (match ?x with _ => _ end) => destruct x
  | |- keeps _ _ => solve [eauto with keeps]
  end.
Ltac keeps_all := repeat keeps_step.

(** ** The session actor: what each step keeps *)

Lemma detection_of_other_text uid r :
  log_text r <> "Mode detection for user" -> detection_of uid r = None.
Proof.
  intros Hne. unfold detection_of.
  destruct (log_args r) as [| [] [| [] rest]]; try reflexivity.
  destruct (String.eqb_spec (log_text r) "Mode detection for user") as [Heq | _];
    [contradiction | reflexivity].
Qed.

Lemma detected_modes_snoc uid records r :
  detected_modes uid (records ++ [r])
  = detected_modes uid records ++ match detection_of uid r with Some m => [m] | None => [] end.
Proof.
  unfold detected_modes. rewrite omap_app. simpl.
  destruct (detection_of uid r); reflexivity.
Qed.

Lemma detected_modes_other_text uid records lvl text args :
  text <> "Mode detection for user" ->
  detected_modes uid
    (records ++ [{| log_level := lvl; log_text := text; log_args := args |}])
  = detected_modes uid records.
Proof.
  intros Hne. rewrite detected_modes_snoc, detection_of_other_text by exact Hne.
  apply app_nil_r.
Qed.

Lemma setattr_keeps_history s a s' :
  (forall v, a <> Set_mode_history v) ->
  UserSession_setattr s a = Return s' -> mode_history s' = mode_history s.
Proof.
  intros Hnot. destruct a; simpl; unfold outcome_bind, run_validator;
    try (intros [= <-]; reflexivity).
  - destruct (validate_cache_metrics_size v); [intros [= <-]; reflexivity | discriminate].
  - destruct (validate_mode v); [intros [= <-]; reflexivity | discriminate].
  - destruct (validate_confidence v); [intros [= <-]; reflexivity | discriminate].
  - exfalso. eapply Hnot. reflexivity.
Qed.

Section ActorProperties.
Context {System : Type} {C : Collaborators System}.

Abbreviation interface := (@same_interface System).
Abbreviation detections := (@same_detections System).
Abbreviation history := (@history_kept System).

#[local] Instance same_interface_pre : PreOrder (@same_interface System).
Proof.
  split.
  - intros st. repeat split.
  - intros a b c (H1 & H2 & H3 & H4) (H1' & H2' & H3' & H4'). repeat split; congruence.
Qed.

#[local] Instance same_detections_pre : PreOrder (@same_detections System).
Proof.
  split.
  - intros st. repeat split.
  - intros a b c (H1 & H2 & H3) (H1' & H2' & H3'). repeat split; try congruence.
Qed.

#[local] Instance history_kept_pre : PreOrder (@history_kept System).
Proof.
  split.
  - intros st H. exact H.
  - intros a b c Hab Hbc H. apply Hbc, Hab, H.
Qed.

(** Reading the session table changes nothing. *)
Lemma the_session_run uid (st st' : UserSessionActor System) r :
  the_session uid st = (st', r) -> st' = st.
Proof.
  unfold the_session. destruct (_sessions st !! uid); intros [= <- _]; reflexivity.
Qed.

Lemma the_session_Return uid (st st' : UserSessionActor System) s :
  the_session uid st = (st', Return s) -> st' = st /\ _sessions st !! uid = Some s.
Proof.
  unfold the_session. destruct (_sessions st !! uid) eqn:Hs; [| discriminate].
  intros [= <- <-]. split; reflexivity.
Qed.

Lemma keeps_the_session (R : relation (UserSessionActor System)) `{!PreOrder R} uid :
  keeps R (the_session uid).
Proof. intros st st' r H. apply the_session_run in H as ->. reflexivity. Qed.

(** *** The interface *)

Lemma log_interface lvl text args : keeps interface (log lvl text args).
Proof. apply keeps_modify. intros st. repeat split. Qed.

Lemma put_session_interface uid s : keeps interface (put_session uid s).
Proof. apply keeps_modify. intros st. repeat split. Qed.

Lemma details_interface d : keeps interface (act_modify (with_details d)).
Proof. apply keeps_modify. intros st. repeat split. Qed.

Lemma append_event_interface event : keeps interface (_append_event event).
Proof.
  intros st st' r. unfold _append_event, same_interface, has_actor_system.
  destruct (actor_system st) as [sys |] eqn:Hsys.
  - destruct (append_event event sys) as [sys' [[] | e]]; intros [= <- _]; simpl;
      rewrite ?Hsys; repeat split.
  - destruct (append_event_detached event) as [[] | e]; intros [= <- _]; simpl;
      rewrite ?Hsys; repeat split.
Qed.

#[local] Hint Resolve log_interface put_session_interface details_interface
  append_event_interface : keeps.
#[local] Hint Extern 1 (keeps _ (the_session _)) => keeps_apply keeps_the_session : keeps.

Lemma session_setattr_interface uid a : keeps interface (session_setattr uid a).
Proof. unfold session_setattr. keeps_all. Qed.

Lemma session_mutate_interface uid f : keeps interface (session_mutate uid f).
Proof. unfold session_mutate. keeps_all. Qed.

#[local] Hint Resolve session_setattr_interface session_mutate_interface : keeps.

Lemma get_or_create_interface now user_id username :
  keeps interface (_get_or_create_session now user_id username).
Proof. unfold _get_or_create_session, create_session. keeps_all. Qed.

Lemma update_mode_interface now uid user_id text :
  keeps interface (update_mode now uid user_id text).
Proof. unfold update_mode, record_mode, update_mode_history. keeps_all. Qed.

Lemma touch_session_interface now uid : keeps interface (touch_session now uid).
Proof. unfold touch_session. keeps_all. Qed.

End ActorProperties.

(** ** Dictionaries *)

Lemma dict_get_app_r {V} (k : string) (pre rest : list (string * V)) :
  k ∉ dict_keys pre -> dict_get k (pre ++ rest) = dict_get k rest.
Proof.
  induction pre as [| [k' v'] pre IH]; simpl; intros Hnot; [reflexivity |].
  destruct (String.eqb_spec k k') as [-> | Hne].
  - exfalso. apply Hnot. left.
  - apply IH. intros Hin. apply Hnot. right. exact Hin.
Qed.

Lemma dict_pop_app_r {V} (k : string) (pre rest : list (string * V)) :
  k ∉ dict_keys pre -> dict_pop k (pre ++ rest) = pre ++ dict_pop k rest.
Proof.
  induction pre as [| [k' v'] pre IH]; simpl; intros Hnot; [reflexivity |].
  destruct (String.eqb_spec k k') as [-> | Hne].
  - exfalso. apply Hnot. left.
  - f_equal. apply IH. intros Hin. apply Hnot. right. exact Hin.
Qed.

Lemma dict_get_None_keys {V} (k : string) (d : list (string * V)) :
  dict_get k d = None <-> k ∉ dict_keys d.
Proof.
  induction d as [| [k' v'] d IH]; simpl.
  - split; [intros _ Hin; inversion Hin | reflexivity].
  - destruct (String.eqb_spec k k') as [-> | Hne].
    + split; [discriminate | intros Hnot; exfalso; apply Hnot; left].
    + rewrite IH. split.
      * intros Hnot Hin. apply elem_of_cons in Hin as [Heq | Hin]; [contradiction | auto].
      * intros Hnot Hin. apply Hnot. right. exact Hin.
Qed.

Lemma dict_set_fresh {V} (k : string) (v : V) (d : list (string * V)) :
  dict_get k d = None -> dict_set k v d = d ++ [(k, v)].
Proof.
  induction d as [| [k' v'] d IH]; simpl; [reflexivity |].
  destruct (String.eqb_spec k k') as [-> | Hne]; [discriminate |].
  intros Hnone. f_equal. apply IH, Hnone.
Qed.

Lemma dict_get_set_eq {V} (k : string) (v : V) (d : list (string * V)) :
  dict_get k (dict_set k v d) = Some v.
Proof.
  induction d as [| [k' v'] d IH]; simpl.
  - rewrite String.eqb_refl. reflexivity.
  - destruct (String.eqb_spec k k') as [-> | Hne]; simpl.
    + rewrite String.eqb_refl. reflexivity.
    + destruct (String.eqb_spec k k'); [contradiction | exact IH].
Qed.

Lemma dict_get_pop_eq {V} (k : string) (d : list (string * V)) :
  NoDup (dict_keys d) -> dict_get k (dict_pop k d) = None.
Proof.
  induction d as [| [k' v'] d IH]; simpl; intros Hnd; [reflexivity |].
  apply NoDup_cons in Hnd as [Hnot Hnd].
  destruct (String.eqb_spec k k') as [-> | Hne]; simpl.
  - apply dict_get_None_keys, Hnot.
  - destruct (String.eqb_spec k k'); [contradiction | apply IH, Hnd].
Qed.

Lemma dict_get_pop_ne {V} (k k' : string) (d : list (string * V)) :
  k <> k' -> dict_get k' (dict_pop k d) = dict_get k' d.
Proof.
  intros Hne. induction d as [| [k0 v0] d IH]; simpl; [reflexivity |].
  destruct (String.eqb_spec k k0) as [-> | Hne0]; simpl.
  - destruct (String.eqb_spec k' k0); [congruence | reflexivity].
  - rewrite IH. reflexivity.
Qed.

Lemma expired_ids_cons now k (p : PendingRequest) T :
  expired_ids now ((k, p) :: T)
  = if is_expired now p then k :: expired_ids now T else expired_ids now T.
Proof.
  unfold expired_ids. simpl. unfold entry_expired at 1. simpl.
  destruct (is_expired now p); reflexivity.
Qed.

(** ** The cleanup sweep *)

Lemma filter_expired_cons now k (p : PendingRequest) T :
  List.filter (entry_expired now) ((k, p) :: T)
  = if is_expired now p then (k, p) :: List.filter (entry_expired now) T
    else List.filter (entry_expired now) T.
Proof. reflexivity. Qed.

Lemma filter_not_expired_cons now k (p : PendingRequest) T :
  List.filter (not_expired now) ((k, p) :: T)
  = if is_expired now p then List.filter (not_expired now) T
    else (k, p) :: List.filter (not_expired now) T.
Proof.
  simpl. unfold not_expired at 1, entry_expired at 1. simpl.
  destruct (is_expired now p); reflexivity.
Qed.

Section Sweep.
Context {System : Type} {C : Collaborators System}.

Lemma NoDup_middle (pre : list (string * PendingRequest)) k p T :
  NoDup (dict_keys (pre ++ (k, p) :: T)) ->
  (k ∉ dict_keys pre) /\ NoDup (dict_keys (pre ++ T))
  /\ NoDup (dict_keys ((pre ++ [(k, p)]) ++ T)).
Proof.
  unfold dict_keys. rewrite !map_app. simpl. intros Hnd.
  apply NoDup_app in Hnd as (Hpre & Hdisj & Hrest).
  apply NoDup_cons in Hrest as [HkT HT].
  assert (Hk : k ∉ map fst pre).
  { intros Hin. apply (Hdisj k Hin). left. }
  split; [exact Hk |]. split.
  - apply NoDup_app. split; [exact Hpre |]. split; [| exact HT].
    intros x Hx HxT. apply (Hdisj x Hx). right. exact HxT.
  - rewrite <- app_assoc. simpl.
    apply NoDup_app. split; [exact Hpre |]. split.
    + exact Hdisj.
    + apply NoDup_cons. split; assumption.
Qed.

(** Expiring the head of the remaining table, on an actor without system: the
    entry goes, a warning is logged, nothing is sent. *)
Lemma expire_request_detached pre k p T (st : UserSessionActor System) :
  actor_system st = None ->
  _pending_requests st = pre ++ (k, p) :: T ->
  k ∉ dict_keys pre ->
  expire_request k st
  = (with_logged
       (logged st ++
        [{| log_level := WARNING;
            log_text := "Context request timeout, generating without historical context";
            log_args := [pending_user_id p] |}])
       (with_pending (pre ++ T) st), Return tt).
Proof.
  intros Hsys Htable Hk. unfold expire_request, act_bind, pop_pending.
  rewrite Htable, (dict_get_app_r k pre _ Hk), (dict_pop_app_r k pre _ Hk). simpl.
  rewrite String.eqb_refl. simpl.
  unfold send_if_system, has_actor_system. simpl. rewrite Hsys. reflexivity.
Qed.

Lemma sweep_detached now T : forall pre (st : UserSessionActor System),
  actor_system st = None ->
  _pending_requests st = pre ++ T ->
  NoDup (dict_keys (pre ++ T)) ->
  exists st',
    act_for (expired_ids now T) expire_request st = (st', Return tt)
    /\ _pending_requests st' = pre ++ List.filter (not_expired now) T
    /\ sent st' = sent st
    /\ actor_system st' = None
    /\ actor_id st' = actor_id st.
Proof.
  induction T as [| [k p] T IH]; intros pre st Hsys Htable Hnd.
  - exists st. simpl. rewrite app_nil_r in Htable. rewrite app_nil_r.
    repeat split; assumption.
  - rewrite expired_ids_cons, filter_not_expired_cons.
    destruct (NoDup_middle pre k p T Hnd) as (Hk & Hnd1 & Hnd2).
    destruct (is_expired now p) eqn:Hexp; simpl.
    + rewrite (act_bind_eq _ _ _ _ _ (expire_request_detached pre k p T st Hsys Htable Hk)).
      edestruct (IH pre) as (st' & Hrun & Hpending & Hsent & Hsys' & Hid);
        [| | exact Hnd1 | exists st'; split; [exact Hrun |]];
        [simpl; exact Hsys | reflexivity |].
      repeat split; assumption.
    + destruct (IH (pre ++ [(k, p)]) st Hsys) as (st' & Hrun & Hpending & Hsent & Hsys' & Hid).
      * rewrite Htable, <- app_assoc. reflexivity.
      * exact Hnd2.
      * exists st'. rewrite <- app_assoc in Hpending. repeat split; assumption.
Qed.

(** The same on an actor with a system that accepts the fallback message. *)
Lemma expire_request_attached pre k p T (st : UserSessionActor System) sys sys' :
  actor_system st = Some sys ->
  _pending_requests st = pre ++ (k, p) :: T ->
  k ∉ dict_keys pre ->
  send_message sys "generation" (generate_msg (actor_id st) p (VList [])) = (sys', Return tt) ->
  expire_request k st
  = (with_sent (sent st ++ [("generation", generate_msg (actor_id st) p (VList []))])
       (with_system (Some sys')
          (with_logged
             (logged st ++
              [{| log_level := WARNING;
                  log_text := "Context request timeout, generating without historical context";
                  log_args := [pending_user_id p] |}])
             (with_pending (pre ++ T) st))), Return tt).
Proof.
  intros Hsys Htable Hk Hsend. unfold expire_request, act_bind, pop_pending.
  rewrite Htable, (dict_get_app_r k pre _ Hk), (dict_pop_app_r k pre _ Hk). simpl.
  rewrite String.eqb_refl. simpl.
  unfold send_if_system, has_actor_system, system_send_message. simpl.
  rewrite Hsys, Hsend. reflexivity.
Qed.

Lemma sweep_attached now T : forall pre (st : UserSessionActor System) sys sys',
  actor_system st = Some sys ->
  _pending_requests st = pre ++ T ->
  NoDup (dict_keys (pre ++ T)) ->
  send_all sys (fallback_sends (actor_id st) (List.filter (entry_expired now) T))
  = (sys', Return tt) ->
  exists st',
    act_for (expired_ids now T) expire_request st = (st', Return tt)
    /\ _pending_requests st' = pre ++ List.filter (not_expired now) T
    /\ sent st'
       = sent st ++ fallback_sends (actor_id st) (List.filter (entry_expired now) T)
    /\ actor_system st' = Some sys'
    /\ actor_id st' = actor_id st.
Proof.
  induction T as [| [k p] T IH]; intros pre st sys sys' Hsys Htable Hnd Hall.
  - exists st. simpl in *. injection Hall as <-. rewrite app_nil_r in Htable.
    rewrite !app_nil_r. repeat split; assumption.
  - rewrite expired_ids_cons, filter_not_expired_cons, filter_expired_cons.
    rewrite filter_expired_cons in Hall.
    destruct (NoDup_middle pre k p T Hnd) as (Hk & Hnd1 & Hnd2).
    destruct (is_expired now p) eqn:Hexp; simpl in Hall |- *.
    + destruct (send_message sys "generation" (generate_msg (actor_id st) p (VList [])))
        as [sys1 [[] | e]] eqn:Hsend; [| discriminate].
      rewrite (act_bind_eq _ _ _ _ _
                 (expire_request_attached pre k p T st sys sys1 Hsys Htable Hk Hsend)).
      edestruct (IH pre) as (st' & Hrun & Hpending & Hsent & Hsys' & Hid);
        [| | exact Hnd1 | | exists st'; split; [exact Hrun |]];
        [simpl; reflexivity | reflexivity | simpl; exact Hall |].
      simpl in Hsent, Hid. rewrite <- app_assoc in Hsent. repeat split; assumption.
    + destruct (IH (pre ++ [(k, p)]) st sys sys' Hsys)
        as (st' & Hrun & Hpending & Hsent & Hsys' & Hid).
      * rewrite Htable, <- app_assoc. reflexivity.
      * exact Hnd2.
      * exact Hall.
      * exists st'. rewrite <- app_assoc in Hpending. repeat split; assumption.
Qed.

(** C1, as the code has it.  The sweep removes from the pending table every
    entry whose timestamp is more than [STM_CONTEXT_REQUEST_TIMEOUT] seconds
    old and leaves the other entries as they are, in their order.  For an
    actor that has an actor system which accepts the messages, it sends the
    generation actor exactly one [GENERATE_RESPONSE] per removed entry, built
    from the entry's saved context with an empty [historical_context]; for
    an actor without actor system it removes the entries and sends
    nothing. *)
Theorem sweep_resolves_expired_requests (now : Z) (st : UserSessionActor System) :
  NoDup (dict_keys (_pending_requests st)) ->
  match actor_system st with
  | None =>
      exists st',
        _cleanup_expired_requests now st = (st', Return tt)
        /\ _pending_requests st' = List.filter (not_expired now) (_pending_requests st)
        /\ sent st' = sent st
  | Some sys =>
      forall sys',
        send_all sys (fallback_sends (actor_id st)
                        (List.filter (entry_expired now) (_pending_requests st)))
        = (sys', Return tt) ->
        exists st',
          _cleanup_expired_requests now st = (st', Return tt)
          /\ _pending_requests st' = List.filter (not_expired now) (_pending_requests st)
          /\ sent st'
             = sent st ++ fallback_sends (actor_id st)
                            (List.filter (entry_expired now) (_pending_requests st))
          /\ actor_system st' = Some sys'
  end.
Proof.
  intros Hnd. unfold _cleanup_expired_requests.
  destruct (actor_system st) as [sys |] eqn:Hsys.
  - intros sys' Hall.
    destruct (sweep_attached now (_pending_requests st) [] st sys sys' Hsys eq_refl Hnd Hall)
      as (st' & Hrun & Hpending & Hsent & Hsys' & _).
    exists st'. repeat split; assumption.
  - destruct (sweep_detached now (_pending_requests st) [] st Hsys eq_refl Hnd)
      as (st' & Hrun & Hpending & Hsent & _).
    exists st'. repeat split; assumption.
Qed.

End Sweep.

(** C1, counterexample.  That the sweep emits one [GENERATE_RESPONSE] for
    every expired entry fails on an actor that has no actor system: the entry left behind by
    a user message is older than the timeout, the sweep returns normally,
    the table is empty afterwards and nothing has been sent. *)
Lemma sweep_without_system_sends_nothing :
  dict_keys (_pending_requests unregistered_with_request) = ["id-1"]
  /\ forallb (entry_expired after_timeout) (_pending_requests unregistered_with_request) = true
  /\ actor_system unregistered_with_request = None
  /\ (@_cleanup_expired_requests ActorSystem plain_collaborators after_timeout
        unregistered_with_request).2 = Return tt
  /\ _pending_requests
       (@_cleanup_expired_requests ActorSystem plain_collaborators after_timeout
          unregistered_with_request).1 = []
  /\ sent
       (@_cleanup_expired_requests ActorSystem plain_collaborators after_timeout
          unregistered_with_request).1 = [].
Proof. vm_compute. repeat split. Qed.

(** On the registered actor the same sweep sends the fallback message. *)
Lemma sweep_resolves_expired_requests_witness :
  NoDup (dict_keys (_pending_requests registered_with_request))
  /\ forallb (entry_expired after_timeout) (_pending_requests registered_with_request) = true
  /\ exists st',
       @_cleanup_expired_requests ActorSystem plain_collaborators after_timeout
         registered_with_request = (st', Return tt)
       /\ _pending_requests st' = []
       /\ sent st' = sent registered_with_request
                     ++ fallback_sends "user_session"
                          (_pending_requests registered_with_request).
Proof.
  assert (Hnd : NoDup (dict_keys (_pending_requests registered_with_request))).
  { replace (dict_keys (_pending_requests registered_with_request)) with ["id-1"]
      by (vm_compute; reflexivity).
    apply NoDup_cons. split; [apply not_elem_of_nil | apply NoDup_nil_2]. }
  split; [exact Hnd |]. split; [vm_compute; reflexivity |].
  pose proof (@sweep_resolves_expired_requests ActorSystem plain_collaborators after_timeout
                registered_with_request Hnd) as Hsweep.
  assert (Hsys : actor_system registered_with_request = Some system_after_request)
    by (vm_compute; reflexivity).
  rewrite Hsys in Hsweep.
  assert (Hall : @send_all ActorSystem plain_collaborators system_after_request
                   (fallback_sends (actor_id registered_with_request)
                      (List.filter (entry_expired after_timeout)
                         (_pending_requests registered_with_request)))
                 = (system_after_sweep, Return tt))
    by (vm_compute; reflexivity).
  destruct (Hsweep system_after_sweep Hall) as (st' & Hrun & Hpending & Hsent & _).
  exists st'. split; [exact Hrun |]. split.
  - rewrite Hpending. vm_compute. reflexivity.
  - rewrite Hsent. vm_compute. reflexivity.
Defined.

(** ** Resolving a pending request by its reply *)

Section ContextResponse.
Context {System : Type} {C : Collaborators System}.

Lemma known_request_string rid (table : list (string * PendingRequest)) pending :
  rid <> "" -> dict_get rid table = Some pending ->
  known_request (VStr rid) table = Return (Some rid).
Proof.
  intros Hne Hget. unfold known_request, dict_mem. simpl. rewrite Hget.
  destruct (String.eqb_spec rid "") as [Heq | _]; [contradiction | reflexivity].
Qed.

Lemma known_request_absent (pl : list (string * Value)) (table : list (string * PendingRequest)) :
  dict_get "request_id" pl = None
  \/ (exists rid, dict_get "request_id" pl = Some (VStr rid) /\ dict_get rid table = None) ->
  known_request (get_default pl "request_id" VNone) table = Return None.
Proof.
  unfold get_default. intros [Hmissing | (rid & Hrid & Hget)].
  - rewrite Hmissing. reflexivity.
  - rewrite Hrid. unfold known_request, dict_mem. rewrite Hget.
    destruct (negb (truthy (VStr rid))); reflexivity.
Qed.

Lemma handle_message_context_response now uuid message (st : UserSessionActor System) :
  message_type message = MESSAGE_TYPES CONTEXT_RESPONSE ->
  handle_message now uuid message st = handle_context_response message st.
Proof. intros Htype. unfold handle_message. rewrite Htype. reflexivity. Qed.


End ContextResponse.



(** ** Loops and errors *)

Section Loops.
Context {System : Type} {C : Collaborators System}.

(** Cancellation reaches the actor only while it waits: no call of the
    system raises it. *)
Hypothesis send_not_cancelled :
  forall sys target m, (send_message sys target m).2 <> Raise CancelledError.

Lemma expire_request_not_cancelled k (st st' : UserSessionActor System) :
  expire_request k st <> (st', Raise CancelledError).
Proof.
  unfold expire_request, act_bind, pop_pending.
  destruct (dict_get k (_pending_requests st)) as [p |]; [| discriminate].
  unfold log, act_modify, act_get, send_if_system, has_actor_system, system_send_message.
  cbn [actor_system with_logged with_pending].
  destruct (actor_system st) as [sys |]; [| discriminate].
  pose proof (send_not_cancelled sys "generation"
                (generate_msg
                   (actor_id
                      (with_logged
                         (logged (with_pending (dict_pop k (_pending_requests st)) st) ++
                          [{| log_level := WARNING;
                              log_text := "Context request timeout, generating without historical context";
                              log_args := [pending_user_id p] |}])
                         (with_pending (dict_pop k (_pending_requests st)) st)))
                   p (VList []))) as Hsend.
  destruct (send_message sys "generation" _) as [sys' [[] | e]]; [discriminate |].
  simpl in Hsend. intros [= _ ->]. apply Hsend. reflexivity.
Qed.

Lemma act_for_not_cancelled {A} (body : A -> Act (UserSessionActor System) unit) :
  (forall x st st', body x st <> (st', Raise CancelledError)) ->
  forall l st st', act_for l body st <> (st', Raise CancelledError).
Proof.
  intros Hbody. induction l as [| x l IH]; intros st st'; simpl.
  - discriminate.
  - unfold act_bind. destruct (body x st) as [st1 [[] | e]] eqn:Hrun.
    + apply IH.
    + intros [= <- ->]. eapply Hbody, Hrun.
Qed.

Lemma sweep_not_cancelled now (st st' : UserSessionActor System) :
  _cleanup_expired_requests now st <> (st', Raise CancelledError).
Proof.
  unfold _cleanup_expired_requests. apply act_for_not_cancelled.
  intros k st0 st1. apply expire_request_not_cancelled.
Qed.

Lemma cleanup_loop_step t ticks (st : UserSessionActor System) :
  tick_continues t ->
  exists st1, _cleanup_pending_requests_loop (t :: ticks) st
              = _cleanup_pending_requests_loop ticks st1.
Proof.
  intros [Hrun Hcancel]. simpl. rewrite Hrun, Hcancel. simpl.
  destruct (_cleanup_expired_requests (tick_now t) st) as [st1 [[] | e]] eqn:Hsweep.
  - exists st1. reflexivity.
  - destruct e; try (eexists; reflexivity).
    exfalso. eapply sweep_not_cancelled, Hsweep.
Qed.

Lemma cleanup_loop_stop t ticks (st : UserSessionActor System) :
  ~ tick_continues t ->
  (tick_is_running t = false
   /\ (_cleanup_pending_requests_loop (t :: ticks) st).2 = Exited StoppedRunning)
  \/ (tick_is_running t = true /\ tick_cancelled t = true
      /\ (_cleanup_pending_requests_loop (t :: ticks) st).2 = Exited Cancelled).
Proof.
  unfold tick_continues. intros Hstop. simpl.
  destruct (tick_is_running t); simpl; [| left; split; reflexivity].
  destruct (tick_cancelled t); simpl; [right; repeat split |].
  exfalso. apply Hstop. split; reflexivity.
Qed.

Lemma tick_continues_dec t : tick_continues t \/ ~ tick_continues t.
Proof.
  unfold tick_continues. destruct (tick_is_running t), (tick_cancelled t);
    first [left; split; reflexivity | right; intros [? ?]; discriminate].
Qed.

Lemma cleanup_loop_looping ticks : forall st : UserSessionActor System,
  (_cleanup_pending_requests_loop ticks st).2 = Looping <-> Forall tick_continues ticks.
Proof.
  induction ticks as [| t ticks IH]; intros st.
  - simpl. split; [intros _; apply Forall_nil_2 | reflexivity].
  - destruct (tick_continues_dec t) as [Hgo | Hstop].
    + destruct (cleanup_loop_step t ticks st Hgo) as [st1 ->]. rewrite IH.
      split; [intros H; apply Forall_cons; split; assumption |].
      intros H. apply Forall_cons in H as [_ H]. exact H.
    + split.
      * intros Hloop.
        destruct (cleanup_loop_stop t ticks st Hstop) as [[_ H] | (_ & _ & H)];
          rewrite H in Hloop; discriminate.
      * intros H. apply Forall_cons in H as [H _]. contradiction.
Qed.

Lemma cleanup_loop_exit ticks : forall (st : UserSessionActor System) why,
  (_cleanup_pending_requests_loop ticks st).2 = Exited why ->
  exists before t after,
    ticks = before ++ t :: after
    /\ Forall tick_continues before
    /\ ((why = StoppedRunning /\ tick_is_running t = false)
        \/ (why = Cancelled /\ tick_is_running t = true /\ tick_cancelled t = true)).
Proof.
  induction ticks as [| t ticks IH]; intros st why.
  - simpl. discriminate.
  - destruct (tick_continues_dec t) as [Hgo | Hstop].
    + destruct (cleanup_loop_step t ticks st Hgo) as [st1 ->]. intros Hexit.
      destruct (IH st1 why Hexit) as (before & t' & after & -> & Hbefore & Hwhy).
      exists (t :: before), t', after. split; [reflexivity |].
      split; [apply Forall_cons; split; assumption | exact Hwhy].
    + intros Hexit. exists [], t, ticks. split; [reflexivity |].
      split; [apply Forall_nil_2 |].
      destruct (cleanup_loop_stop t ticks st Hstop) as [[Hrun H] | (Hrun & Hcancel & H)];
        rewrite H in Hexit; injection Hexit as <-.
      * left. split; [reflexivity | exact Hrun].
      * right. repeat split; assumption.
Qed.

End Loops.

Section MessageLoopProperties.
Context {S : Type}.
Variable handle : ActorMessage -> S -> S * Outcome (option ActorMessage).

Hypothesis handle_not_cancelled :
  forall m st, (handle m st).2 <> Raise CancelledError.

Lemma retry_not_cancelled attempts m : forall st st',
  handle_with_retry handle attempts m st <> (st', Raise CancelledError).
Proof.
  induction attempts as [| n IH]; intros st st'; simpl; [discriminate |].
  pose proof (handle_not_cancelled m st) as Hhandle.
  destruct (handle m st) as [st1 [r | e]]; [discriminate |].
  simpl in Hhandle.
  destruct e; try (destruct n; [intros [= _ ?]; discriminate | apply IH]).
  exfalso. apply Hhandle. reflexivity.
Qed.

Lemma message_loop_cons t turns (rt : ActorRuntime S) :
  message_loop handle (t :: turns) rt
  = if negb (turn_is_running t) then (rt, Exited StoppedRunning)
    else if turn_cancelled t then (rt, Exited Cancelled)
    else
      match turn_message t with
      | None => message_loop handle turns rt
      | Some m =>
          match handle_with_retry handle (Z.to_nat ACTOR_MESSAGE_MAX_RETRIES) m (actor_state rt) with
          | (st', Return reply) =>
              message_loop handle turns
                {| actor_state := st';
                   replies := replies rt ++ match reply with Some r => [r] | None => [] end;
                   dead_letter_queue := dead_letter_queue rt |}
          | (st', Raise CancelledError) =>
              ({| actor_state := st'; replies := replies rt;
                  dead_letter_queue := dead_letter_queue rt |}, Exited Cancelled)
          | (st', Raise e) =>
              message_loop handle turns
                {| actor_state := st'; replies := replies rt;
                   dead_letter_queue := dead_letter m e (dead_letter_queue rt) |}
          end
      end.
Proof. reflexivity. Qed.

Lemma message_loop_step t turns (rt : ActorRuntime S) :
  turn_continues t ->
  exists rt1, message_loop handle (t :: turns) rt = message_loop handle turns rt1.
Proof.
  intros [Hrun Hcancel]. rewrite message_loop_cons, Hrun, Hcancel. cbn [negb].
  destruct (turn_message t) as [m |]; [| exists rt; reflexivity].
  destruct (handle_with_retry handle (Z.to_nat ACTOR_MESSAGE_MAX_RETRIES) m (actor_state rt))
    as [st1 [r | e]] eqn:Hretry.
  - eexists. reflexivity.
  - destruct e; try (eexists; reflexivity).
    exfalso. eapply retry_not_cancelled, Hretry.
Qed.

Lemma message_loop_stop t turns (rt : ActorRuntime S) :
  ~ turn_continues t ->
  (turn_is_running t = false
   /\ (message_loop handle (t :: turns) rt).2 = Exited StoppedRunning)
  \/ (turn_is_running t = true /\ turn_cancelled t = true
      /\ (message_loop handle (t :: turns) rt).2 = Exited Cancelled).
Proof.
  unfold turn_continues. intros Hstop. rewrite message_loop_cons.
  destruct (turn_is_running t); cbn [negb]; [| left; split; reflexivity].
  destruct (turn_cancelled t); [right; repeat split |].
  exfalso. apply Hstop. split; reflexivity.
Qed.

Lemma turn_continues_dec t : turn_continues t \/ ~ turn_continues t.
Proof.
  unfold turn_continues. destruct (turn_is_running t), (turn_cancelled t);
    first [left; split; reflexivity | right; intros [? ?]; discriminate].
Qed.

Lemma message_loop_looping turns : forall rt : ActorRuntime S,
  (message_loop handle turns rt).2 = Looping <-> Forall turn_continues turns.
Proof.
  induction turns as [| t turns IH]; intros rt.
  - simpl. split; [intros _; apply Forall_nil_2 | reflexivity].
  - destruct (turn_continues_dec t) as [Hgo | Hstop].
    + destruct (message_loop_step t turns rt Hgo) as [rt1 ->]. rewrite IH.
      split; [intros H; apply Forall_cons; split; assumption |].
      intros H. apply Forall_cons in H as [_ H]. exact H.
    + split.
      * intros Hloop.
        destruct (message_loop_stop t turns rt Hstop) as [[_ H] | (_ & _ & H)];
          rewrite H in Hloop; discriminate.
      * intros H. apply Forall_cons in H as [H _]. contradiction.
Qed.

Lemma message_loop_exit turns : forall (rt : ActorRuntime S) why,
  (message_loop handle turns rt).2 = Exited why ->
  exists before t after,
    turns = before ++ t :: after
    /\ Forall turn_continues before
    /\ ((why = StoppedRunning /\ turn_is_running t = false)
        \/ (why = Cancelled /\ turn_is_running t = true /\ turn_cancelled t = true)).
Proof.
  induction turns as [| t turns IH]; intros rt why.
  - simpl. discriminate.
  - destruct (turn_continues_dec t) as [Hgo | Hstop].
    + destruct (message_loop_step t turns rt Hgo) as [rt1 ->]. intros Hexit.
      destruct (IH rt1 why Hexit) as (before & t' & after & -> & Hbefore & Hwhy).
      exists (t :: before), t', after. split; [reflexivity |].
      split; [apply Forall_cons; split; assumption | exact Hwhy].
    + intros Hexit. exists [], t, turns. split; [reflexivity |].
      split; [apply Forall_nil_2 |].
      destruct (message_loop_stop t turns rt Hstop) as [[Hrun H] | (Hrun & Hcancel & H)];
        rewrite H in Hexit; injection Hexit as <-.
      * left. split; [reflexivity | exact Hrun].
      * right. repeat split; assumption.
Qed.

End MessageLoopProperties.

(** C8. No error raised while a message is processed or while a sweep runs
    ends an actor's loop.  With cancellation delivered only while the loop
    waits, the pending-request cleanup loop is still going after any turns
    exactly when in each of them the actor was running and the task was not
    cancelled, whatever the sweeps raised; when it has left, it left at the
    first turn that found the running flag false or that was cancelled.  The
    same holds for the message loop of an actor and what its handler
    raises. *)
Theorem loops_end_only_on_shutdown
    {System : Type} {C : Collaborators System} {S : Type}
    (handle : ActorMessage -> S -> S * Outcome (option ActorMessage)) :
  (forall sys target m, (send_message sys target m).2 <> Raise CancelledError) ->
  (forall m st, (handle m st).2 <> Raise CancelledError) ->
  (forall ticks (st : UserSessionActor System),
     ((_cleanup_pending_requests_loop ticks st).2 = Looping <-> Forall tick_continues ticks)
     /\ (forall why,
           (_cleanup_pending_requests_loop ticks st).2 = Exited why ->
           exists before t after,
             ticks = before ++ t :: after
             /\ Forall tick_continues before
             /\ ((why = StoppedRunning /\ tick_is_running t = false)
                 \/ (why = Cancelled /\ tick_is_running t = true /\ tick_cancelled t = true))))
  /\ (forall turns (rt : ActorRuntime S),
        ((message_loop handle turns rt).2 = Looping <-> Forall turn_continues turns)
        /\ (forall why,
              (message_loop handle turns rt).2 = Exited why ->
              exists before t after,
                turns = before ++ t :: after
                /\ Forall turn_continues before
                /\ ((why = StoppedRunning /\ turn_is_running t = false)
                    \/ (why = Cancelled /\ turn_is_running t = true
                        /\ turn_cancelled t = true)))).
Proof.
  intros Hsend Hhandle. split.
  - intros ticks st. split.
    + apply cleanup_loop_looping. exact Hsend.
    + intros why. apply cleanup_loop_exit. exact Hsend.
  - intros turns rt. split.
    + apply message_loop_looping. exact Hhandle.
    + intros why. apply message_loop_exit. exact Hhandle.
Qed.

Lemma ActorSystem_send_not_cancelled sys target m :
  (ActorSystem_send_message sys target m).2 <> Raise CancelledError.
Proof.
  unfold ActorSystem_send_message. destruct (mailboxes sys !! target) as [queue |]; simpl.
  - destruct (ACTOR_MESSAGE_QUEUE_SIZE <=? Z.of_nat (length queue)); simpl; discriminate.
  - discriminate.
Qed.

(** Two sweeps after the timeout on an actor whose system has no generation
    actor: the first fails at its send and the error is logged, the second
    finds the table empty; the loop is still going.  A handler that fails on
    every message is tried three times, the message is dead-lettered, and
    the message loop is still going. *)
Lemma loops_end_only_on_shutdown_witness :
  ((@_cleanup_expired_requests ActorSystem plain_collaborators after_timeout
      no_generation_with_request).2 = Raise (UnknownActorError "generation")
   /\ (@_cleanup_pending_requests_loop ActorSystem plain_collaborators
         [sweep_tick after_timeout; sweep_tick (after_timeout + 10000000)]
         no_generation_with_request).2 = Looping)
  /\ ((message_loop failing_handler [delivery unknown_msg]
         {| actor_state := 0; replies := []; dead_letter_queue := [] |}).2 = Looping
      /\ map dead_attempts
           (dead_letter_queue
              (message_loop failing_handler [delivery unknown_msg]
                 {| actor_state := 0; replies := []; dead_letter_queue := [] |}).1) = [3]).
Proof.
  destruct (@loops_end_only_on_shutdown ActorSystem plain_collaborators Z failing_handler
              ActorSystem_send_not_cancelled) as [Hsweep Hloop].
  - intros m st. discriminate.
  - split; split.
    + vm_compute. reflexivity.
    + apply Hsweep. repeat (apply Forall_cons; split; [split; reflexivity |]).
      apply Forall_nil_2.
    + apply Hloop. apply Forall_cons. split; [split; reflexivity | apply Forall_nil_2].
    + vm_compute. reflexivity.
Defined.

(** ** Handling a user message *)

Section UserMessage.
Context {System : Type} {C : Collaborators System}.

Abbreviation interface := (@same_interface System).

#[local] Existing Instance same_interface_pre.

Lemma act_lift_Return {A} (o : Outcome A) (st st' : UserSessionActor System) a :
  act_lift o st = (st', Return a) -> st' = st /\ o = Return a.
Proof. unfold act_lift. intros [= <- ->]. split; reflexivity. Qed.

Lemma act_get_Return (st st' a : UserSessionActor System) :
  act_get st = (st', Return a) -> st' = st /\ a = st.
Proof. unfold act_get. intros [= <- <-]. split; reflexivity. Qed.

Lemma act_ret_Return {A} (x a : A) (st st' : UserSessionActor System) :
  act_ret x st = (st', Return a) -> st' = st /\ a = x.
Proof. unfold act_ret. intros [= <- <-]. split; reflexivity. Qed.

Lemma subscript_Return d k v : subscript d k = Return v -> dict_get k d = Some v.
Proof. unfold subscript. destruct (dict_get k d); [intros [= <-]; reflexivity | discriminate]. Qed.

Lemma system_send_Return target msg (st st' : UserSessionActor System) r :
  system_send_message target msg st = (st', Return r) ->
  has_actor_system st = true
  /\ actor_id st' = actor_id st
  /\ _pending_requests st' = _pending_requests st
  /\ has_actor_system st' = true
  /\ sent st' = sent st ++ [(target, msg)].
Proof.
  unfold system_send_message, has_actor_system.
  destruct (actor_system st) as [sys |]; [| discriminate].
  destruct (send_message sys target msg) as [sys' [[] | e]]; [| discriminate].
  intros [= <- _]. simpl. repeat split.
Qed.

Lemma send_if_system_Return target msg (st st' : UserSessionActor System) r :
  send_if_system target msg st = (st', Return r) ->
  actor_id st' = actor_id st
  /\ _pending_requests st' = _pending_requests st
  /\ has_actor_system st' = has_actor_system st
  /\ sent st' = sent st ++ (if has_actor_system st then [(target, msg)] else []).
Proof.
  unfold send_if_system. destruct (has_actor_system st) eqn:Hsys.
  - intros Hsend. apply system_send_Return in Hsend as (_ & Hid & Hp & Hsys' & Hsent).
    repeat split; assumption.
  - intros [= <- _]. rewrite app_nil_r. repeat split. exact Hsys.
Qed.

(** What a call of [_handle_user_message] that returns has done to the
    actor's interface. *)
Lemma handle_user_message_Return now uuid message (st st' : UserSessionActor System) reply :
  _handle_user_message now uuid message st = (st', Return reply) ->
  exists user_id text chat_id session,
    dict_get "user_id" (payload message) = Some user_id
    /\ dict_get "text" (payload message) = Some text
    /\ dict_get "chat_id" (payload message) = Some chat_id
    /\ reply = None
    /\ actor_id st' = actor_id st
    /\ has_actor_system st = true
    /\ _pending_requests st'
       = dict_set uuid
           (new_pending now user_id chat_id text (_should_include_prompt session) session)
           (_pending_requests st)
    /\ sent st'
       = sent st
         ++ [("memory", store_user_msg (actor_id st) now user_id
                          (get_default (payload message) "username" VNone) text);
             ("memory", get_context_msg (actor_id st) user_id uuid)].
Proof.
  unfold _handle_user_message. intros H. cbv zeta in H.
  apply act_bind_Return in H as (user_id & s0 & Huser & H).
  apply act_lift_Return in Huser as [-> Huser]. apply subscript_Return in Huser.
  apply act_bind_Return in H as (text & s0 & Htext & H).
  apply act_lift_Return in Htext as [-> Htext]. apply subscript_Return in Htext.
  apply act_bind_Return in H as (chat_id & s0 & Hchat & H).
  apply act_lift_Return in Hchat as [-> Hchat]. apply subscript_Return in Hchat.
  apply act_bind_Return in H as (uid & s1 & Hcreate & H).
  apply get_or_create_interface in Hcreate as (Hid1 & Hp1 & Hs1 & Hsys1).
  apply act_bind_Return in H as (st1 & s2 & Hget & H).
  apply act_get_Return in Hget as [-> ->].
  apply act_bind_Return in H as (u2 & s2 & Hstore & H).
  apply send_if_system_Return in Hstore as (Hid2 & Hp2 & Hsys2 & Hs2).
  apply act_bind_Return in H as (u3 & s3 & Hmode & H).
  apply update_mode_interface in Hmode as (Hid3 & Hp3 & Hs3 & Hsys3).
  apply act_bind_Return in H as (u4 & s4 & Htouch & H).
  apply touch_session_interface in Htouch as (Hid4 & Hp4 & Hs4 & Hsys4).
  apply act_bind_Return in H as (session & s5 & Hsession & H).
  apply the_session_Return in Hsession as [-> Hsession].
  apply act_bind_Return in H as (u5 & s5 & Hprompt & H).
  assert (Hi5 : interface s4 s5).
  { revert Hprompt. generalize u5. clear.
    intros r Hprompt. eapply (keeps_when interface); [| exact Hprompt].
    apply append_event_interface. }
  destruct Hi5 as (Hid5 & Hp5 & Hs5 & Hsys5).
  apply act_bind_Return in H as (u6 & s6 & Hreg & H).
  unfold act_modify in Hreg. injection Hreg as <- _.
  apply act_bind_Return in H as (st6 & s7 & Hget & H).
  apply act_get_Return in Hget as [-> ->].
  apply act_bind_Return in H as (u7 & s7 & Hsend & H).
  apply system_send_Return in Hsend as (Hsys6 & Hid7 & Hp7 & Hsys7 & Hs7).
  apply act_bind_Return in H as (u8 & s8 & Hlog & H).
  unfold log, act_modify in Hlog. injection Hlog as <- _.
  apply act_ret_Return in H as [-> ->].
  simpl in Hsys6, Hid7, Hp7, Hs7 |- *.
  change (has_actor_system s5 = true) in Hsys6.
  assert (Hattached : has_actor_system st = true) by congruence.
  exists user_id, text, chat_id, session.
  repeat split; try assumption.
  - congruence.
  - rewrite Hp7. f_equal. congruence.
  - assert (Hid : actor_id s5 = actor_id st) by congruence.
    rewrite Hs7, Hs5, Hs4, Hs3, Hs2, Hs1, Hsys1, Hattached, Hid, Hid1.
    rewrite <- app_assoc. reflexivity.
Qed.

(** C3. A [USER_MESSAGE] that the actor processes gets no direct reply: the
    handler returns nothing.  It has recorded exactly one new entry in the
    pending table, under the freshly generated correlation id, holding the
    payload's [user_id], [chat_id] and [text] and the time of the call, and
    it has sent the memory actor a [GET_CONTEXT] message that carries this
    correlation id and names the actor itself in [reply_to]; the entry is
    there for the [CONTEXT_RESPONSE] that arrives later as a message of its
    own. *)
Theorem user_message_registers_request_without_waiting
    (now : Z) (uuid : string) (message : ActorMessage)
    (st st' : UserSessionActor System) (reply : option ActorMessage) :
  message_type message = MESSAGE_TYPES USER_MESSAGE ->
  dict_get uuid (_pending_requests st) = None ->
  handle_message now uuid message st = (st', Return reply) ->
  reply = None
  /\ exists user_id chat_id text entry stored,
       dict_get "user_id" (payload message) = Some user_id
       /\ dict_get "chat_id" (payload message) = Some chat_id
       /\ dict_get "text" (payload message) = Some text
       /\ _pending_requests st' = _pending_requests st ++ [(uuid, entry)]
       /\ pending_user_id entry = user_id
       /\ pending_chat_id entry = chat_id
       /\ pending_text entry = text
       /\ pending_timestamp entry = now
       /\ dict_get uuid (_pending_requests st') = Some entry
       /\ sent st' = sent st ++ [("memory", stored);
                                 ("memory", get_context_msg (actor_id st) user_id uuid)]
       /\ message_type stored = MESSAGE_TYPES STORE_MEMORY
       /\ message_type (get_context_msg (actor_id st) user_id uuid) = MESSAGE_TYPES GET_CONTEXT
       /\ dict_get "request_id" (payload (get_context_msg (actor_id st) user_id uuid))
          = Some (VStr uuid)
       /\ reply_to (get_context_msg (actor_id st) user_id uuid) = Some (actor_id st).
Proof.
  intros Htype Hfresh. unfold handle_message. rewrite Htype. cbn [MESSAGE_TYPES].
  rewrite String.eqb_refl. intros H.
  apply act_bind_Return in H as (reply0 & s1 & Hhandle & H).
  apply handle_user_message_Return in Hhandle
    as (user_id & text & chat_id & session & Huser & Htext & Hchat & -> & Hid & Hsys
        & Hpending & Hsent).
  apply act_bind_Return in H as (u & s2 & Hnone & H).
  apply act_ret_Return in Hnone as [-> _].
  apply act_ret_Return in H as [-> ->].
  split; [reflexivity |].
  exists user_id, chat_id, text,
    (new_pending now user_id chat_id text (_should_include_prompt session) session),
    (store_user_msg (actor_id st) now user_id
       (get_default (payload message) "username" VNone) text).
  repeat split; try assumption.
  - rewrite Hpending. apply dict_set_fresh, Hfresh.
  - rewrite Hpending. apply dict_get_set_eq.
Qed.

End UserMessage.

(** The user message of [test_context_request_timeout] on a registered
    actor. *)
Lemma user_message_registers_request_without_waiting_witness :
  (@handle_message ActorSystem plain_collaborators 100 "id-1" (user_message "u1" "expert")
     (attached three_actors)).2 = Return None
  /\ dict_keys (_pending_requests registered_with_request) = ["id-1"]
  /\ map (fun m => (m.1, message_type m.2, reply_to m.2, dict_get "request_id" (payload m.2)))
       (sent registered_with_request)
     = [("memory", "store_memory", None, None);
        ("memory", "get_context", Some "user_session", Some (VStr "id-1"))].
Proof.
  assert (Hrun : @handle_message ActorSystem plain_collaborators 100 "id-1"
                   (user_message "u1" "expert") (attached three_actors)
                 = (registered_with_request, Return None)) by (vm_compute; reflexivity).
  destruct (@user_message_registers_request_without_waiting ActorSystem plain_collaborators
              100 "id-1" (user_message "u1" "expert") (attached three_actors)
              registered_with_request None eq_refl eq_refl Hrun)
    as (_ & user_id & chat_id & text & entry & stored & _ & _ & _ & Hpending & _).
  split; [rewrite Hrun; reflexivity |].
  split; [rewrite Hpending; reflexivity |].
  vm_compute. reflexivity.
Defined.

(** ** The mode history *)

Lemma history_step (h : list string) (m : string) :
  (length h <= Z.to_nat MODE_HISTORY_SIZE)%nat ->
  (if MODE_HISTORY_SIZE <? Z.of_nat (length (h ++ [m])) then tail (h ++ [m]) else h ++ [m])
  = lastn (Z.to_nat MODE_HISTORY_SIZE) (h ++ [m]).
Proof.
  intros Hlen. unfold MODE_HISTORY_SIZE in *. rewrite length_app in *. simpl length.
  destruct (Z.ltb_spec 5 (Z.of_nat (length h + 1))) as [Hlt | Hge].
  - unfold lastn. rewrite length_app. simpl length.
    replace (length h + 1 - Z.to_nat 5)%nat with 1%nat by lia.
    destruct (h ++ [m]); reflexivity.
  - symmetry. apply lastn_all. rewrite length_app. simpl. lia.
Qed.

Lemma detection_of_recorded uid u mode rest :
  detection_of uid
    {| log_level := INFO; log_text := "Mode detection for user";
       log_args := VStr u :: VStr mode :: rest |}
  = if String.eqb u uid then Some mode else None.
Proof. reflexivity. Qed.

Section ModeHistory.
Context {System : Type} {C : Collaborators System}.

Abbreviation history := (@history_kept System).
Abbreviation detections := (@same_detections System).

#[local] Existing Instance history_kept_pre.
#[local] Existing Instance same_detections_pre.

(** A step that leaves the session table and the logged detections as they
    are keeps the histories in line with the log. *)
Lemma history_kept_quiet (st st' : UserSessionActor System) :
  _sessions st' = _sessions st ->
  (forall uid, detected_modes uid (logged st') = detected_modes uid (logged st)) ->
  history_kept st st'.
Proof.
  intros Hs Hd Hinv uid. rewrite Hs, Hd. apply Hinv.
Qed.

(** So does writing back a session whose history is unchanged. *)
Lemma history_kept_put uid s s' (st : UserSessionActor System) :
  _sessions st !! uid = Some s ->
  mode_history s' = mode_history s ->
  history_kept st (with_sessions (<[uid := s']> (_sessions st)) st).
Proof.
  intros Hs Hh Hinv u. cbn [_sessions with_sessions logged].
  destruct (decide (u = uid)) as [-> | Hne].
  - rewrite lookup_insert_eq, Hh. specialize (Hinv uid). rewrite Hs in Hinv. exact Hinv.
  - rewrite lookup_insert_ne by congruence. apply Hinv.
Qed.

Ltac quiet_step :=
  apply keeps_modify; intros ?; apply history_kept_quiet;
  [reflexivity | intros ?; cbn [logged with_logged with_pending with_details];
                 try (apply detected_modes_other_text; discriminate); reflexivity].

Lemma log_history lvl text args :
  text <> "Mode detection for user" -> keeps history (log lvl text args).
Proof.
  intros Hne. apply keeps_modify. intros st. apply history_kept_quiet; [reflexivity |].
  intros uid. apply detected_modes_other_text, Hne.
Qed.

Lemma details_history d : keeps history (act_modify (with_details d)).
Proof. quiet_step. Qed.

Lemma append_event_history event : keeps history (_append_event event).
Proof.
  intros st st' r. unfold _append_event.
  destruct (actor_system st) as [sys |].
  - destruct (append_event event sys) as [sys' [[] | e]]; intros [= <- _];
      apply history_kept_quiet; reflexivity.
  - destruct (append_event_detached event) as [[] | e]; intros [= <- _];
      apply history_kept_quiet; reflexivity.
Qed.

Lemma system_send_history target msg : keeps history (system_send_message target msg).
Proof.
  intros st st' r. unfold system_send_message.
  destruct (actor_system st) as [sys |]; [| intros [= <- _]; reflexivity].
  destruct (send_message sys target msg) as [sys' [[] | e]]; intros [= <- _];
    apply history_kept_quiet; reflexivity.
Qed.

Lemma send_if_system_history target msg : keeps history (send_if_system target msg).
Proof.
  intros st st' r. unfold send_if_system. destruct (has_actor_system st).
  - apply system_send_history.
  - intros [= <- _]. reflexivity.
Qed.

Lemma pop_pending_history rid : keeps history (pop_pending rid).
Proof.
  intros st st' r. unfold pop_pending.
  destruct (dict_get rid (_pending_requests st)); intros [= <- _];
    [apply history_kept_quiet; reflexivity | reflexivity].
Qed.

Lemma session_setattr_history uid a :
  (forall v, a <> Set_mode_history v) -> keeps history (session_setattr uid a).
Proof.
  intros Hnot st st' r. unfold session_setattr, act_bind, the_session, act_lift, put_session,
    act_modify.
  destruct (_sessions st !! uid) as [s |] eqn:Hs; [| intros [= <- _]; reflexivity].
  destruct (UserSession_setattr s a) as [s' |] eqn:Hset; intros [= <- _]; [| reflexivity].
  eapply history_kept_put; [exact Hs | eapply setattr_keeps_history; eassumption].
Qed.

Lemma cache_append_history uid v : keeps history (session_mutate uid (cache_metrics_append v)).
Proof.
  intros st st' r. unfold session_mutate, act_bind, the_session, put_session, act_modify.
  destruct (_sessions st !! uid) as [s |] eqn:Hs; intros [= <- _]; [| reflexivity].
  eapply history_kept_put; [exact Hs | reflexivity].
Qed.

(** The history update on a history within its bound: the session holds
    the last [MODE_HISTORY_SIZE] of the old entries and the new one. *)
Lemma update_mode_history_run uid m (st : UserSessionActor System) s :
  _sessions st !! uid = Some s ->
  (length (mode_history s) <= Z.to_nat MODE_HISTORY_SIZE)%nat ->
  update_mode_history uid m st
  = (with_sessions
       (<[uid := with_mode_history
                   (lastn (Z.to_nat MODE_HISTORY_SIZE) (mode_history s ++ [m])) s]>
          (_sessions st)) st, Return tt).
Proof.
  intros Hs Hlen. rewrite <- (history_step _ m Hlen).
  unfold update_mode_history, session_mutate, act_bind, the_session, put_session, act_modify.
  rewrite Hs. cbn [_sessions with_sessions]. rewrite lookup_insert_eq.
  cbn [mode_history mode_history_append with_mode_history].
  destruct (MODE_HISTORY_SIZE <? Z.of_nat (length (mode_history s ++ [m]))); cbn [act_when].
  - cbn [_sessions with_sessions]. rewrite lookup_insert_eq.
    cbn [_sessions with_sessions]. rewrite insert_insert_eq. reflexivity.
  - reflexivity.
Qed.

Lemma update_mode_history_missing uid m (st : UserSessionActor System) :
  _sessions st !! uid = None ->
  update_mode_history uid m st = (st, Raise (KeyError uid)).
Proof.
  intros Hs. unfold update_mode_history, session_mutate, act_bind, the_session.
  rewrite Hs. reflexivity.
Qed.

Lemma follows_log_bound (st : UserSessionActor System) uid s :
  history_follows_log st -> _sessions st !! uid = Some s ->
  (length (mode_history s) <= Z.to_nat MODE_HISTORY_SIZE)%nat.
Proof.
  intros Hinv Hs. specialize (Hinv uid). rewrite Hs in Hinv. rewrite Hinv, lastn_length. lia.
Qed.

(** Updating the history and logging the detection keeps every history the
    last [MODE_HISTORY_SIZE] logged detections of its user. *)
Lemma record_mode_history uid m confidence changed :
  keeps history (record_mode uid m confidence changed).
Proof.
  intros st st' r Hrun Hinv. unfold record_mode, act_bind in Hrun.
  destruct (_sessions st !! uid) as [s |] eqn:Hs.
  - rewrite (update_mode_history_run uid m st s Hs (follows_log_bound st uid s Hinv Hs)) in Hrun.
    unfold log, act_modify in Hrun. injection Hrun as <- _.
    intros u. cbn [_sessions with_sessions with_logged logged].
    rewrite detected_modes_snoc, detection_of_recorded.
    destruct (decide (u = uid)) as [-> | Hne].
    + rewrite lookup_insert_eq, String.eqb_refl. cbn [mode_history with_mode_history].
      specialize (Hinv uid). rewrite Hs in Hinv. rewrite Hinv. apply lastn_snoc_lastn.
    + rewrite lookup_insert_ne by congruence.
      destruct (String.eqb_spec uid u) as [Heq | _]; [congruence |].
      rewrite app_nil_r. apply Hinv.
  - rewrite (update_mode_history_missing uid m st Hs) in Hrun. injection Hrun as <- _.
    exact Hinv.
Qed.

#[local] Hint Resolve details_history append_event_history system_send_history
  send_if_system_history pop_pending_history cache_append_history record_mode_history : keeps.
#[local] Hint Extern 1 (keeps _ (the_session _)) => keeps_apply keeps_the_session : keeps.
#[local] Hint Extern 1 (keeps _ (log _ _ _)) => apply log_history; discriminate : keeps.
#[local] Hint Extern 1 (keeps _ (session_setattr _ _)) =>
  apply session_setattr_history; intros ?; discriminate : keeps.
#[local] Hint Extern 1 (keeps _ (act_modify _)) => quiet_step : keeps.

Lemma create_session_history now uid username (st st' : UserSessionActor System) r :
  _sessions st !! uid = None ->
  create_session now uid username st = (st', r) -> history_kept st st'.
Proof.
  intros Hnone Hrun Hinv. unfold create_session in Hrun.
  assert (Hcreate : forall uname st1 r1,
            act_bind (act_lift (UserSession_init now (session_args uid uname)))
              (fun session =>
                 act_bind (put_session uid session) (fun _ =>
                 act_bind (_append_event
                             (BaseEvent_create (String.append "user_" uid) "SessionCreatedEvent"
                                [("user_id", VStr uid); ("username", username);
                                 ("created_at", VStr (isoformat (created_at session)))]))
                   (fun _ => log INFO "Created new session for user" [VStr uid]))) st
            = (st1, r1) -> history_follows_log st1).
  { intros uname st1 r1 Hrest.
    unfold act_bind at 1, act_lift in Hrest. cbn in Hrest.
    unfold act_bind at 1, put_session, act_modify in Hrest.
    assert (Hkeep : keeps history
              (act_bind (_append_event
                           (BaseEvent_create (String.append "user_" uid) "SessionCreatedEvent"
                              [("user_id", VStr uid); ("username", username);
                               ("created_at", VStr (isoformat now))]))
                 (fun _ => log INFO "Created new session for user" [VStr uid])))
      by keeps_all.
    eapply Hkeep; [exact Hrest |].
    intros u. cbn [_sessions with_sessions logged].
    destruct (decide (u = uid)) as [-> | Hne].
    - rewrite lookup_insert_eq. cbn [mode_history].
      specialize (Hinv uid). rewrite Hnone in Hinv. rewrite Hinv. reflexivity.
    - rewrite lookup_insert_ne by congruence. apply Hinv. }
  unfold act_bind at 1 in Hrun.
  destruct username; cbn in Hrun;
    first [ injection Hrun as <- _; exact Hinv | eapply Hcreate; exact Hrun ].
Qed.

Lemma get_or_create_history now user_id username :
  keeps history (_get_or_create_session now user_id username).
Proof.
  intros st st' r. unfold _get_or_create_session.
  destruct user_id; try (intros [= <- _]; reflexivity).
  unfold act_bind at 1, act_get.
  destruct (_sessions st !! s) eqn:Hs; [intros [= <- _]; reflexivity |].
  unfold act_bind.
  destruct (create_session now s username st) as [st1 [[] | e]] eqn:Hcreate.
  - intros [= <- _]. eapply create_session_history; eassumption.
  - intros [= <- _]. eapply create_session_history; eassumption.
Qed.

#[local] Hint Resolve get_or_create_history : keeps.

Lemma update_mode_keeps_history now uid user_id text :
  keeps history (update_mode now uid user_id text).
Proof. unfold update_mode. keeps_all. Qed.

Lemma touch_session_history now uid : keeps history (touch_session now uid).
Proof. unfold touch_session. keeps_all. Qed.

#[local] Hint Resolve update_mode_keeps_history touch_session_history : keeps.

Lemma handle_user_message_history now uuid message :
  keeps history (_handle_user_message now uuid message).
Proof. unfold _handle_user_message. cbv zeta. keeps_all. Qed.

Lemma update_cache_metrics_history message : keeps history (_update_cache_metrics message).
Proof.
  unfold _update_cache_metrics. cbv zeta.
  destruct (negb (truthy (get_default (payload message) "user_id" VNone))); keeps_all.
Qed.

Lemma handle_context_response_history message :
  keeps history (handle_context_response message).
Proof. unfold handle_context_response. cbv zeta. keeps_all. Qed.

Lemma handle_bot_response_history now message : keeps history (handle_bot_response now message).
Proof. unfold handle_bot_response. keeps_all. Qed.

#[local] Hint Resolve handle_user_message_history update_cache_metrics_history
  handle_context_response_history handle_bot_response_history : keeps.

Lemma handle_message_history now uuid message : keeps history (handle_message now uuid message).
Proof.
  unfold handle_message.
  repeat match goal with |- keeps _ (if ?c then _ else _) => destruct c end; keeps_all.
Qed.

Lemma run_messages_history inputs : forall st : UserSessionActor System,
  history_follows_log st -> history_follows_log (run_messages inputs st).
Proof.
  induction inputs as [| [[now uuid] m] inputs IH]; intros st Hinv; simpl; [exact Hinv |].
  apply IH. unfold state_after.
  destruct (handle_message now uuid m st) as [st1 r] eqn:Hrun.
  eapply handle_message_history; eassumption.
Qed.

End ModeHistory.

Section Detections.
Context {System : Type} {C : Collaborators System}.

Abbreviation detections := (@same_detections System).

#[local] Existing Instance same_detections_pre.

Ltac same_detections_step :=
  apply keeps_modify; intros ?; repeat split; intros ?;
  cbn [logged with_logged with_pending with_details with_sessions];
  try (apply detected_modes_other_text; discriminate); reflexivity.

Lemma log_detections lvl text args :
  text <> "Mode detection for user" -> keeps detections (log lvl text args).
Proof.
  intros Hne. apply keeps_modify. intros st. repeat split.
  intros uid. apply detected_modes_other_text, Hne.
Qed.

Lemma put_session_detections uid s : keeps detections (put_session uid s).
Proof. apply keeps_modify. intros st. repeat split. Qed.

Lemma append_event_detections event : keeps detections (_append_event event).
Proof.
  intros st st' r. unfold _append_event, same_detections, has_actor_system.
  destruct (actor_system st) as [sys |] eqn:Hsys.
  - destruct (append_event event sys) as [sys' [[] | e]]; intros [= <- _]; simpl;
      rewrite ?Hsys; repeat split.
  - destruct (append_event_detached event) as [[] | e]; intros [= <- _]; simpl;
      rewrite ?Hsys; repeat split.
Qed.

Lemma system_send_detections target msg : keeps detections (system_send_message target msg).
Proof.
  intros st st' r. unfold system_send_message, same_detections, has_actor_system.
  destruct (actor_system st) as [sys |] eqn:Hsys.
  - destruct (send_message sys target msg) as [sys' [[] | e]]; intros [= <- _]; simpl;
      rewrite ?Hsys; repeat split.
  - intros [= <- _]. rewrite Hsys. repeat split.
Qed.

Lemma send_if_system_detections target msg : keeps detections (send_if_system target msg).
Proof.
  intros st st' r. unfold send_if_system. destruct (has_actor_system st).
  - apply system_send_detections.
  - intros [= <- _]. reflexivity.
Qed.

#[local] Hint Resolve put_session_detections append_event_detections system_send_detections
  send_if_system_detections : keeps.
#[local] Hint Extern 1 (keeps _ (the_session _)) => keeps_apply keeps_the_session : keeps.
#[local] Hint Extern 1 (keeps _ (log _ _ _)) => apply log_detections; discriminate : keeps.
#[local] Hint Extern 1 (keeps _ (act_modify _)) => same_detections_step : keeps.

Lemma session_setattr_detections uid a : keeps detections (session_setattr uid a).
Proof. unfold session_setattr. keeps_all. Qed.

Lemma session_mutate_detections uid f : keeps detections (session_mutate uid f).
Proof. unfold session_mutate. keeps_all. Qed.

#[local] Hint Resolve session_setattr_detections session_mutate_detections : keeps.

Lemma update_mode_history_detections uid m : keeps detections (update_mode_history uid m).
Proof. unfold update_mode_history. keeps_all. Qed.

Lemma get_or_create_detections now user_id username :
  keeps detections (_get_or_create_session now user_id username).
Proof. unfold _get_or_create_session, create_session. keeps_all. Qed.

Lemma touch_session_detections now uid : keeps detections (touch_session now uid).
Proof. unfold touch_session. keeps_all. Qed.

Lemma get_or_create_Return now user_id username (st st' : UserSessionActor System) uid :
  _get_or_create_session now user_id username st = (st', Return uid) -> user_id = VStr uid.
Proof.
  unfold _get_or_create_session. destruct user_id; try discriminate.
  intros H. apply act_bind_Return in H as (st0 & s1 & _ & H).
  destruct (_sessions st0 !! s).
  - injection H as _ <-. reflexivity.
  - apply act_bind_Return in H as (u & s2 & _ & H). injection H as _ <-. reflexivity.
Qed.

(** A mode update that returns has logged exactly one detection, for its
    user: the mode the detection gave on the session's state. *)
Lemma update_mode_Return now uid user_id text (st st' : UserSessionActor System) r :
  update_mode now uid user_id text st = (st', Return r) ->
  exists session detected,
    _sessions st !! uid = Some session
    /\ _determine_generation_mode text session = Return detected
    /\ actor_id st' = actor_id st
    /\ has_actor_system st' = has_actor_system st
    /\ forall u, detected_modes u (logged st')
                 = detected_modes u (logged st)
                   ++ (if String.eqb uid u then [detected.1.1] else []).
Proof.
  unfold update_mode. intros H.
  apply act_bind_Return in H as (session & s0 & Hsession & H).
  apply the_session_Return in Hsession as [-> Hsession].
  apply act_bind_Return in H as (detected & s0 & Hdetect & H).
  apply act_lift_Return in Hdetect as [-> Hdetect].
  apply act_bind_Return in H as (u1 & s1 & Hdetails & H).
  assert (H1 : detections st s1).
  { revert Hdetails. generalize (Return (A:=unit) u1). intros o.
    destruct detected.2; [| intros [= <- _]; reflexivity].
    intros [= <- _]. repeat split. }
  cbv zeta in H.
  apply act_bind_Return in H as (u2 & s2 & Hchange & H).
  assert (H2 : detections s1 s2).
  { revert Hchange. generalize (Return (A:=unit) u2). intros o. apply keeps_when; [typeclasses eauto |].
    keeps_all. }
  apply act_bind_Return in H as (u3 & s3 & Hconf & H).
  apply session_setattr_detections in Hconf as H3.
  apply act_bind_Return in H as (u4 & s4 & Hrecord & H).
  unfold record_mode in Hrecord.
  apply act_bind_Return in Hrecord as (u5 & s5 & Hupdate & Hlog).
  apply update_mode_history_detections in Hupdate as H5.
  unfold log, act_modify in Hlog. injection Hlog as <- _.
  apply act_bind_Return in H as (session' & s6 & Hsession' & H).
  apply the_session_Return in Hsession' as [-> _].
  apply act_bind_Return in H as (st6 & s7 & Hget & H).
  apply act_get_Return in Hget as [-> ->].
  assert (H7 : detections
                 (with_logged
                    (logged s5 ++
                     [{| log_level := INFO; log_text := "Mode detection for user";
                         log_args := [VStr uid; VStr detected.1.1; VFloat detected.1.2;
                                      VBool (negb (String.eqb detected.1.1 (current_mode session)))] |}])
                    s5) st').
  { revert H. generalize (Return (A:=unit) r). intros o. apply keeps_when; [typeclasses eauto |].
    apply append_event_detections. }
  destruct H1 as (Hid1 & Hsys1 & Hd1), H2 as (Hid2 & Hsys2 & Hd2), H3 as (Hid3 & Hsys3 & Hd3),
    H5 as (Hid5 & Hsys5 & Hd5), H7 as (Hid7 & Hsys7 & Hd7).
  cbn [actor_id has_actor_system actor_system with_logged logged] in Hid7, Hsys7, Hd7.
  exists session, detected. split; [exact Hsession |]. split; [exact Hdetect |].
  split; [congruence |]. split.
  - change (has_actor_system st' = has_actor_system s5) in Hsys7. congruence.
  - intros u. rewrite Hd7, detected_modes_snoc, detection_of_recorded.
    rewrite Hd5, Hd3, Hd2, Hd1. destruct (String.eqb uid u); reflexivity.
Qed.

End Detections.

Section ModeHistoryTheorem.
Context {System : Type} {C : Collaborators System}.

#[local] Existing Instance same_detections_pre.

Lemma new_actor_follows_log (osys : option System) :
  history_follows_log (with_system osys (UserSessionActor_new System)).
Proof. intros uid. cbn. rewrite lookup_empty. reflexivity. Qed.

(** A user message that is processed logs exactly one detection, for its
    user. *)
Lemma handle_user_message_detection now uuid message (st st' : UserSessionActor System) reply :
  _handle_user_message now uuid message st = (st', Return reply) ->
  exists uid text session detected,
    dict_get "user_id" (payload message) = Some (VStr uid)
    /\ dict_get "text" (payload message) = Some text
    /\ _determine_generation_mode text session = Return detected
    /\ forall u, detected_modes u (logged st')
                 = detected_modes u (logged st)
                   ++ (if String.eqb uid u then [detected.1.1] else []).
Proof.
  unfold _handle_user_message. intros H. cbv zeta in H.
  apply act_bind_Return in H as (user_id & s0 & Huser & H).
  apply act_lift_Return in Huser as [-> Huser]. apply subscript_Return in Huser.
  apply act_bind_Return in H as (text & s0 & Htext & H).
  apply act_lift_Return in Htext as [-> Htext]. apply subscript_Return in Htext.
  apply act_bind_Return in H as (chat_id & s0 & Hchat & H).
  apply act_lift_Return in Hchat as [-> _].
  apply act_bind_Return in H as (uid & s1 & Hcreate & H).
  pose proof (get_or_create_Return _ _ _ _ _ _ Hcreate) as ->.
  apply get_or_create_detections in Hcreate as (_ & _ & Hd1).
  apply act_bind_Return in H as (st1 & s2 & Hget & H).
  apply act_get_Return in Hget as [-> ->].
  apply act_bind_Return in H as (u2 & s2 & Hstore & H).
  apply send_if_system_detections in Hstore as (_ & _ & Hd2).
  apply act_bind_Return in H as (u3 & s3 & Hmode & H).
  apply update_mode_Return in Hmode
    as (session & detected & _ & Hdetect & _ & _ & Hd3).
  apply act_bind_Return in H as (u4 & s4 & Htouch & H).
  apply touch_session_detections in Htouch as (_ & _ & Hd4).
  apply act_bind_Return in H as (session' & s5 & Hsession & H).
  apply the_session_Return in Hsession as [-> _].
  apply act_bind_Return in H as (u5 & s5 & Hprompt & H).
  assert (H5 : same_detections s4 s5).
  { revert Hprompt. generalize (Return (A:=unit) u5). intros o.
    apply keeps_when; [typeclasses eauto |]. apply append_event_detections. }
  destruct H5 as (_ & _ & Hd5).
  apply act_bind_Return in H as (u6 & s6 & Hreg & H).
  unfold act_modify in Hreg. injection Hreg as <- _.
  apply act_bind_Return in H as (st6 & s7 & Hget & H).
  apply act_get_Return in Hget as [-> ->].
  apply act_bind_Return in H as (u7 & s7 & Hsend & H).
  apply system_send_detections in Hsend as (_ & _ & Hd7).
  apply act_bind_Return in H as (u8 & s8 & Hlog & H).
  unfold log, act_modify in Hlog. injection Hlog as <- _.
  apply act_ret_Return in H as [-> _].
  exists uid, text, session, detected.
  split; [exact Huser |]. split; [exact Htext |]. split; [exact Hdetect |].
  intros u. cbn [logged with_logged].
  rewrite detected_modes_other_text by discriminate.
  rewrite Hd7. cbn [logged with_pending]. rewrite Hd5, Hd4, Hd3, Hd2, Hd1. reflexivity.
Qed.

(** C10. After the actor has processed any sequence of messages, the
    [mode_history] of every session has at most [MODE_HISTORY_SIZE] entries:
    the most recent of the modes detected for its user, in detection order.
    Each user message that is processed adds exactly one detection, the mode
    found for its text, to those of its user and none to those of other
    users. *)
Theorem mode_history_holds_last_detections
    (osys : option System) (inputs : list (Z * string * ActorMessage))
    (uid : string) (s : UserSession) :
  _sessions (run_messages inputs (with_system osys (UserSessionActor_new System))) !! uid
  = Some s ->
  Z.of_nat (length (mode_history s)) <= MODE_HISTORY_SIZE
  /\ mode_history s
     = lastn (Z.to_nat MODE_HISTORY_SIZE)
         (detected_modes uid
            (logged (run_messages inputs (with_system osys (UserSessionActor_new System)))))
  /\ (forall now uuid message (st st' : UserSessionActor System) reply,
        message_type message = MESSAGE_TYPES USER_MESSAGE ->
        handle_message now uuid message st = (st', Return reply) ->
        exists user text session detected,
          dict_get "user_id" (payload message) = Some (VStr user)
          /\ dict_get "text" (payload message) = Some text
          /\ _determine_generation_mode text session = Return detected
          /\ forall u, detected_modes u (logged st')
                       = detected_modes u (logged st)
                         ++ (if String.eqb user u then [detected.1.1] else [])).
Proof.
  intros Hs.
  pose proof (run_messages_history inputs _ (new_actor_follows_log osys) uid) as Hinv.
  rewrite Hs in Hinv. split; [| split].
  - rewrite Hinv, lastn_length. unfold MODE_HISTORY_SIZE. lia.
  - exact Hinv.
  - intros now uuid message st st' reply Htype. unfold handle_message. rewrite Htype.
    cbn [MESSAGE_TYPES]. rewrite String.eqb_refl. intros H.
    apply act_bind_Return in H as (reply0 & s1 & Hhandle & H).
    apply act_bind_Return in H as (u & s2 & Hnone & H).
    apply act_ret_Return in H as [-> _].
    assert (Hsame : s2 = s1).
    { pose proof (handle_user_message_Return _ _ _ _ _ _ Hhandle)
        as (_ & _ & _ & _ & _ & _ & _ & -> & _).
      apply act_ret_Return in Hnone as [-> _]. reflexivity. }
    subst s2. eapply handle_user_message_detection, Hhandle.
Qed.

End ModeHistoryTheorem.

(** After seven user messages the history holds the last five detected
    modes, in order. *)
Lemma mode_history_holds_last_detections_witness :
  exists s,
    _sessions after_seven_messages !! "u1" = Some s
    /\ detected_modes "u1" (logged after_seven_messages)
       = ["expert"; "creative"; "talk"; "expert"; "expert"; "creative"; "talk"]
    /\ mode_history s = ["talk"; "expert"; "expert"; "creative"; "talk"].
Proof.
  assert (Hlog : detected_modes "u1" (logged after_seven_messages)
                 = ["expert"; "creative"; "talk"; "expert"; "expert"; "creative"; "talk"])
    by (vm_compute; reflexivity).
  assert (Hsome : is_Some (_sessions after_seven_messages !! "u1")).
  { assert (Hb : bool_decide (is_Some (_sessions after_seven_messages !! "u1")) = true)
      by (vm_compute; reflexivity).
    apply bool_decide_eq_true in Hb. exact Hb. }
  destruct Hsome as [s Hs]. exists s. split; [exact Hs |]. split; [exact Hlog |].
  destruct (@mode_history_holds_last_detections ActorSystem plain_collaborators
              (Some three_actors) seven_messages "u1" s Hs) as (_ & Hhistory & _).
  rewrite Hhistory.
  change (run_messages seven_messages
            (with_system (Some three_actors) (UserSessionActor_new ActorSystem)))
    with after_seven_messages.
  rewrite Hlog. reflexivity.
Defined.

(** ** The pending table: its keys *)

Lemma dict_keys_set {V} (k : string) (v : V) (d : list (string * V)) (x : string) :
  x ∈ dict_keys (dict_set k v d) -> x = k \/ x ∈ dict_keys d.
Proof.
  unfold dict_keys. induction d as [| [k' v'] d IH]; simpl.
  - intros Hin. apply list_elem_of_singleton in Hin. left. exact Hin.
  - destruct (String.eqb_spec k k') as [-> | Hne]; simpl.
    + intros Hin. right. exact Hin.
    + intros Hin. apply elem_of_cons in Hin as [-> | Hin].
      * right. left.
      * destruct (IH Hin) as [-> | Hd]; [left; reflexivity | right; right; exact Hd].
Qed.

Lemma dict_set_NoDup {V} (k : string) (v : V) (d : list (string * V)) :
  NoDup (dict_keys d) -> NoDup (dict_keys (dict_set k v d)).
Proof.
  induction d as [| [k' v'] d IH]; intros Hnd.
  - apply NoDup_singleton.
  - change (NoDup (k' :: dict_keys d)) in Hnd.
    apply NoDup_cons in Hnd as [Hnot Hnd]. simpl.
    destruct (String.eqb_spec k k') as [-> | Hne].
    + change (NoDup (k' :: dict_keys d)). apply NoDup_cons. split; assumption.
    + change (NoDup (k' :: dict_keys (dict_set k v d))). apply NoDup_cons.
      split; [| apply IH, Hnd].
      intros Hin. apply dict_keys_set in Hin as [Heq | Hin]; [congruence | contradiction].
Qed.

Lemma dict_keys_pop {V} (k : string) (d : list (string * V)) (x : string) :
  x ∈ dict_keys (dict_pop k d) -> x ∈ dict_keys d.
Proof.
  unfold dict_keys. induction d as [| [k' v'] d IH]; simpl; [intros Hin; exact Hin |].
  destruct (String.eqb_spec k k') as [-> | Hne]; simpl.
  - intros Hin. right. exact Hin.
  - intros Hin. apply elem_of_cons in Hin as [-> | Hin]; [left | right; apply IH, Hin].
Qed.

Lemma dict_pop_NoDup {V} (k : string) (d : list (string * V)) :
  NoDup (dict_keys d) -> NoDup (dict_keys (dict_pop k d)).
Proof.
  induction d as [| [k' v'] d IH]; intros Hnd; [exact Hnd |].
  change (NoDup (k' :: dict_keys d)) in Hnd.
  apply NoDup_cons in Hnd as [Hnot Hnd]. simpl.
  destruct (String.eqb_spec k k') as [-> | Hne]; [exact Hnd |].
  change (NoDup (k' :: dict_keys (dict_pop k d))). apply NoDup_cons.
  split; [| apply IH, Hnd].
  intros Hin. apply Hnot. eapply dict_keys_pop, Hin.
Qed.

Lemma dict_keys_filter {V} (f : string * V -> bool) (d : list (string * V)) (x : string) :
  x ∈ dict_keys (List.filter f d) -> x ∈ dict_keys d.
Proof.
  unfold dict_keys. induction d as [| [k' v'] d IH]; simpl; [intros Hin; exact Hin |].
  destruct (f (k', v')); simpl.
  - intros Hin. apply elem_of_cons in Hin as [-> | Hin]; [left | right; apply IH, Hin].
  - intros Hin. right. apply IH, Hin.
Qed.

(** An entry that a filter drops is not found in what the filter keeps. *)
Lemma dict_get_filter_out {V} (f : string * V -> bool) (k : string) (v : V)
    (d : list (string * V)) :
  NoDup (dict_keys d) -> dict_get k d = Some v -> f (k, v) = false ->
  dict_get k (List.filter f d) = None.
Proof.
  induction d as [| [k' v'] d IH]; intros Hnd Hget Hf; [discriminate |].
  change (NoDup (k' :: dict_keys d)) in Hnd.
  apply NoDup_cons in Hnd as [Hnot Hnd]. simpl in Hget |- *.
  destruct (String.eqb_spec k k') as [-> | Hne].
  - injection Hget as ->. rewrite Hf.
    apply dict_get_None_keys. intros Hin. apply Hnot. eapply dict_keys_filter, Hin.
  - destruct (f (k', v')); simpl.
    + destruct (String.eqb_spec k k'); [contradiction | apply IH; assumption].
    + apply IH; assumption.
Qed.

Lemma filter_not_expired_none now (T : list (string * PendingRequest)) :
  expired_ids now (List.filter (not_expired now) T) = [].
Proof.
  induction T as [| [k p] T IH]; [reflexivity |].
  rewrite filter_not_expired_cons. destruct (is_expired now p) eqn:Hexp; [exact IH |].
  rewrite expired_ids_cons, Hexp. exact IH.
Qed.

Lemma nothing_expired_ids now (T : list (string * PendingRequest)) :
  forallb (not_expired now) T = true -> expired_ids now T = [].
Proof.
  induction T as [| [k p] T IH]; [reflexivity |].
  simpl. intros Hall. apply andb_true_iff in Hall as [Hp Hall].
  rewrite expired_ids_cons. unfold not_expired, entry_expired in Hp. simpl in Hp.
  destruct (is_expired now p); [discriminate | apply IH, Hall].
Qed.

Lemma nothing_expired_filter now (T : list (string * PendingRequest)) :
  forallb (not_expired now) T = true -> List.filter (not_expired now) T = T.
Proof.
  induction T as [| [k p] T IH]; [reflexivity |].
  simpl. intros Hall. apply andb_true_iff in Hall as [Hp Hall].
  rewrite Hp, IH by exact Hall. reflexivity.
Qed.

Lemma expired_ids_app now (pre T : list (string * PendingRequest)) :
  expired_ids now (pre ++ T) = expired_ids now pre ++ expired_ids now T.
Proof. unfold expired_ids. rewrite List.filter_app, map_app. reflexivity. Qed.

Section UniqueIds.
Context {System : Type} {C : Collaborators System}.

Abbreviation unique := (@unique_ids_kept System).
Abbreviation attachment := (@same_attachment System).

#[local] Instance unique_ids_kept_pre : PreOrder (@unique_ids_kept System).
Proof.
  split.
  - intros st H. exact H.
  - intros a b c Hab Hbc H. apply Hbc, Hab, H.
Qed.

#[local] Instance same_attachment_pre : PreOrder (@same_attachment System).
Proof.
  split.
  - intros st. reflexivity.
  - intros a b c Hab Hbc. unfold same_attachment in *. congruence.
Qed.

#[local] Existing Instance same_interface_pre.

Lemma interface_unique {A} (m : Act (UserSessionActor System) A) :
  keeps (@same_interface System) m -> keeps unique m.
Proof.
  intros Hm st st' r Hrun Hu. apply Hm in Hrun as (_ & Hp & _).
  unfold unique_ids. rewrite Hp. exact Hu.
Qed.

Lemma interface_attachment {A} (m : Act (UserSessionActor System) A) :
  keeps (@same_interface System) m -> keeps attachment m.
Proof. intros Hm st st' r Hrun. apply Hm in Hrun as (_ & _ & _ & Hsys). exact Hsys. Qed.

Lemma system_send_unique target msg : keeps unique (system_send_message target msg).
Proof.
  intros st st' r. unfold system_send_message.
  destruct (actor_system st) as [sys |]; [| intros [= <- _] H; exact H].
  destruct (send_message sys target msg) as [sys' [[] | e]]; intros [= <- _] H; exact H.
Qed.

Lemma system_send_attachment target msg : keeps attachment (system_send_message target msg).
Proof.
  intros st st' r. unfold system_send_message, same_attachment, has_actor_system.
  destruct (actor_system st) as [sys |] eqn:Hsys; [| intros [= <- _]; rewrite Hsys; reflexivity].
  destruct (send_message sys target msg) as [sys' [[] | e]]; intros [= <- _]; simpl;
    rewrite ?Hsys; reflexivity.
Qed.

Lemma send_if_system_unique target msg : keeps unique (send_if_system target msg).
Proof.
  intros st st' r. unfold send_if_system. destruct (has_actor_system st).
  - apply system_send_unique.
  - intros [= <- _] H. exact H.
Qed.

Lemma send_if_system_attachment target msg : keeps attachment (send_if_system target msg).
Proof.
  intros st st' r. unfold send_if_system. destruct (has_actor_system st) eqn:Hsys.
  - apply system_send_attachment.
  - intros [= <- _]. reflexivity.
Qed.

Lemma pop_pending_unique rid : keeps unique (pop_pending rid).
Proof.
  intros st st' r. unfold pop_pending.
  destruct (dict_get rid (_pending_requests st)); intros [= <- _] H; [| exact H].
  apply dict_pop_NoDup, H.
Qed.

Lemma pop_pending_attachment rid : keeps attachment (pop_pending rid).
Proof.
  intros st st' r. unfold pop_pending.
  destruct (dict_get rid (_pending_requests st)); intros [= <- _]; reflexivity.
Qed.

Lemma register_unique rid (entry : PendingRequest) :
  keeps unique
    (act_modify (fun st : UserSessionActor System =>
       with_pending (dict_set rid entry (_pending_requests st)) st)).
Proof. apply keeps_modify. intros st H. apply dict_set_NoDup, H. Qed.

Lemma register_attachment rid (entry : PendingRequest) :
  keeps attachment
    (act_modify (fun st : UserSessionActor System =>
       with_pending (dict_set rid entry (_pending_requests st)) st)).
Proof. apply keeps_modify. intros st. reflexivity. Qed.

#[local] Hint Resolve log_interface put_session_interface details_interface
  append_event_interface session_setattr_interface session_mutate_interface
  get_or_create_interface update_mode_interface touch_session_interface : keeps.
#[local] Hint Resolve system_send_unique send_if_system_unique pop_pending_unique
  register_unique system_send_attachment send_if_system_attachment pop_pending_attachment
  register_attachment : keeps.
#[local] Hint Extern 1 (keeps _ (the_session _)) => keeps_apply keeps_the_session : keeps.
#[local] Hint Extern 3 (keeps (@unique_ids_kept _) _) => apply interface_unique : keeps.
#[local] Hint Extern 3 (keeps (@same_attachment _) _) => apply interface_attachment : keeps.

Lemma handle_user_message_unique now uuid message :
  keeps unique (_handle_user_message now uuid message).
Proof. unfold _handle_user_message. cbv zeta. keeps_all. Qed.

Lemma handle_user_message_attachment now uuid message :
  keeps attachment (_handle_user_message now uuid message).
Proof. unfold _handle_user_message. cbv zeta. keeps_all. Qed.

Lemma update_cache_metrics_interface message :
  keeps (@same_interface System) (_update_cache_metrics message).
Proof.
  unfold _update_cache_metrics. cbv zeta.
  destruct (negb (truthy (get_default (payload message) "user_id" VNone))); keeps_all.
Qed.

#[local] Hint Resolve update_cache_metrics_interface : keeps.

Lemma handle_context_response_unique message : keeps unique (handle_context_response message).
Proof. unfold handle_context_response. cbv zeta. keeps_all. Qed.

Lemma handle_bot_response_unique now message : keeps unique (handle_bot_response now message).
Proof. unfold handle_bot_response. keeps_all. Qed.

#[local] Hint Resolve handle_user_message_unique handle_context_response_unique
  handle_bot_response_unique : keeps.

Lemma handle_message_unique now uuid message : keeps unique (handle_message now uuid message).
Proof.
  unfold handle_message.
  repeat match goal with |- keeps _ (if ?c then _ else _) => destruct c end; keeps_all.
Qed.

Lemma expire_request_unique rid : keeps unique (expire_request rid).
Proof. unfold expire_request. keeps_all. Qed.

Lemma cleanup_unique now : keeps unique (_cleanup_expired_requests now).
Proof.
  intros st st' r. unfold _cleanup_expired_requests.
  apply (keeps_for unique_ids_kept). intros rid. apply expire_request_unique.
Qed.

Lemma step_input_unique i (st : UserSessionActor System) :
  unique_ids st -> unique_ids (step_input i st).
Proof.
  intros Hu. destruct i as [now uuid message | now]; unfold step_input, state_after.
  - destruct (handle_message now uuid message st) as [st' r] eqn:Hrun.
    eapply handle_message_unique; eassumption.
  - destruct (_cleanup_expired_requests now st) as [st' r] eqn:Hrun.
    eapply cleanup_unique; eassumption.
Qed.

End UniqueIds.

(** ** The sweep: what it leaves behind *)

Section SweepEdges.
Context {System : Type} {C : Collaborators System}.

Lemma expire_request_eq rid (st : UserSessionActor System) :
  expire_request rid st
  = match dict_get rid (_pending_requests st) with
    | None => (st, Raise (KeyError rid))
    | Some p =>
        send_if_system "generation" (generate_msg (actor_id st) p (VList []))
          (with_logged (logged st ++ [timeout_warning p])
             (with_pending (dict_pop rid (_pending_requests st)) st))
    end.
Proof.
  unfold expire_request, act_bind, pop_pending.
  destruct (dict_get rid (_pending_requests st)) as [p |]; reflexivity.
Qed.

(** A sweep that returned has dropped exactly the expired entries. *)
Lemma sweep_returned now T : forall pre (st st' : UserSessionActor System),
  _pending_requests st = pre ++ T ->
  NoDup (dict_keys (pre ++ T)) ->
  act_for (expired_ids now T) expire_request st = (st', Return tt) ->
  _pending_requests st' = pre ++ List.filter (not_expired now) T.
Proof.
  induction T as [| [k p] T IH]; intros pre st st' Htable Hnd.
  - cbn. unfold act_ret. intros [= <-]. exact Htable.
  - rewrite expired_ids_cons, filter_not_expired_cons.
    destruct (NoDup_middle pre k p T Hnd) as (Hk & Hnd1 & Hnd2).
    destruct (is_expired now p) eqn:Hexp.
    + cbn [act_for]. intros Hrun.
      apply act_bind_Return in Hrun as ([] & st1 & Hone & Hrest).
      rewrite expire_request_eq, Htable, (dict_get_app_r k pre _ Hk),
        (dict_pop_app_r k pre _ Hk) in Hone.
      simpl in Hone. rewrite String.eqb_refl in Hone.
      apply send_if_system_Return in Hone as (_ & Hp & _).
      eapply (IH pre st1); [exact Hp | exact Hnd1 | exact Hrest].
    + intros Hrun. rewrite (IH (pre ++ [(k, p)]) st st').
      * rewrite <- app_assoc. reflexivity.
      * rewrite Htable, <- app_assoc. reflexivity.
      * exact Hnd2.
      * exact Hrun.
Qed.

Lemma cleanup_returned now (st st' : UserSessionActor System) :
  NoDup (dict_keys (_pending_requests st)) ->
  _cleanup_expired_requests now st = (st', Return tt) ->
  _pending_requests st' = List.filter (not_expired now) (_pending_requests st).
Proof.
  intros Hnd Hrun. apply (sweep_returned now (_pending_requests st) [] st st' eq_refl Hnd Hrun).
Qed.

Lemma cleanup_nothing_expired now (st : UserSessionActor System) :
  forallb (not_expired now) (_pending_requests st) = true ->
  _cleanup_expired_requests now st = (st, Return tt).
Proof.
  intros Hall. unfold _cleanup_expired_requests.
  rewrite (nothing_expired_ids now _ Hall). reflexivity.
Qed.

(** X2. A sweep that finds no entry older than the timeout (an empty table
    included) does nothing at all: the actor is left exactly as it was and
    nothing is logged or sent.  So sweeping is idempotent: right after a
    sweep that returned, a second sweep at the same instant changes
    nothing. *)
Theorem sweep_twice_is_sweep_once (now : Z) :
  (forall st : UserSessionActor System,
     forallb (not_expired now) (_pending_requests st) = true ->
     _cleanup_expired_requests now st = (st, Return tt))
  /\ (forall st st1 : UserSessionActor System,
        NoDup (dict_keys (_pending_requests st)) ->
        _cleanup_expired_requests now st = (st1, Return tt) ->
        _cleanup_expired_requests now st1 = (st1, Return tt)).
Proof.
  split; [exact (cleanup_nothing_expired now) |].
  intros st st1 Hnd Hrun. unfold _cleanup_expired_requests.
  rewrite (cleanup_returned now st st1 Hnd Hrun), filter_not_expired_none. reflexivity.
Qed.

(** X3. When the system refuses the fallback message of the first expired
    entry, the sweep stops with that error: the entry has already been taken
    out of the table and nothing was sent for it, so the request is lost;
    the entries after it, expired or not, stay in the table. *)
Theorem failed_fallback_send_loses_request
    (now : Z) (st : UserSessionActor System) (sys sys' : System)
    (pre T : list (string * PendingRequest)) (k : string) (p : PendingRequest) (e : PyExc) :
  actor_system st = Some sys ->
  _pending_requests st = pre ++ (k, p) :: T ->
  NoDup (dict_keys (_pending_requests st)) ->
  forallb (not_expired now) pre = true ->
  is_expired now p = true ->
  send_message sys "generation" (generate_msg (actor_id st) p (VList [])) = (sys', Raise e) ->
  exists st',
    _cleanup_expired_requests now st = (st', Raise e)
    /\ _pending_requests st' = pre ++ T
    /\ sent st' = sent st
    /\ logged st' = logged st ++ [timeout_warning p].
Proof.
  intros Hsys Htable Hnd Hpre Hexp Hsend.
  rewrite Htable in Hnd. destruct (NoDup_middle pre k p T Hnd) as (Hk & _ & _).
  unfold _cleanup_expired_requests.
  rewrite Htable, expired_ids_app, (nothing_expired_ids now pre Hpre), expired_ids_cons, Hexp.
  cbn [app act_for]. unfold act_bind.
  rewrite expire_request_eq, Htable, (dict_get_app_r k pre _ Hk), (dict_pop_app_r k pre _ Hk).
  simpl. rewrite String.eqb_refl.
  unfold send_if_system, has_actor_system, system_send_message. simpl.
  rewrite Hsys, Hsend.
  eexists. split; [reflexivity |]. repeat split.
Qed.

(** X4. A reply that comes after the sweep has expired its request is
    ignored: the handler logs the unknown-id warning and returns, and
    neither the table nor what was sent changes, so a request that timed out
    is never answered a second time. *)
Theorem late_reply_after_timeout_is_ignored
    (now now' : Z) (uuid rid : string) (p : PendingRequest) (message : ActorMessage)
    (st st1 : UserSessionActor System) :
  NoDup (dict_keys (_pending_requests st)) ->
  dict_get rid (_pending_requests st) = Some p ->
  is_expired now p = true ->
  _cleanup_expired_requests now st = (st1, Return tt) ->
  message_type message = MESSAGE_TYPES CONTEXT_RESPONSE ->
  dict_get "request_id" (payload message) = Some (VStr rid) ->
  handle_message now' uuid message st1
  = (with_logged (logged st1 ++ [unknown_request_warning (VStr rid)]) st1, Return None).
Proof.
  intros Hnd Hget Hexp Hsweep Htype Hrid.
  rewrite (handle_message_context_response now' uuid message st1 Htype).
  assert (Hgone : dict_get rid (_pending_requests st1) = None).
  { rewrite (cleanup_returned now st st1 Hnd Hsweep).
    apply (dict_get_filter_out _ rid p); [exact Hnd | exact Hget |].
    unfold not_expired, entry_expired. simpl. rewrite Hexp. reflexivity. }
  unfold handle_context_response, act_bind, act_get, act_lift.
  rewrite (known_request_absent (payload message) (_pending_requests st1)).
  - unfold get_default. rewrite Hrid. reflexivity.
  - right. exists rid. split; assumption.
Qed.

End SweepEdges.

(** Nothing is expired at the time of the request; after the timeout the
    first sweep empties the table and the second finds nothing. *)
Lemma sweep_twice_is_sweep_once_witness :
  @_cleanup_expired_requests ActorSystem plain_collaborators 100 registered_with_request
  = (registered_with_request, Return tt)
  /\ exists st1,
       @_cleanup_expired_requests ActorSystem plain_collaborators after_timeout
         registered_with_request = (st1, Return tt)
       /\ @_cleanup_expired_requests ActorSystem plain_collaborators after_timeout st1
          = (st1, Return tt).
Proof.
  destruct (@sweep_twice_is_sweep_once ActorSystem plain_collaborators 100) as [Hnone _].
  destruct (@sweep_twice_is_sweep_once ActorSystem plain_collaborators after_timeout)
    as [_ Htwice].
  split.
  - apply Hnone. vm_compute. reflexivity.
  - assert (Hrun : exists st1,
              @_cleanup_expired_requests ActorSystem plain_collaborators after_timeout
                registered_with_request = (st1, Return tt))
      by (vm_compute; eexists; reflexivity).
    destruct Hrun as [st1 Hrun]. exists st1. split; [exact Hrun |].
    apply (Htwice registered_with_request st1); [| exact Hrun].
    replace (dict_keys (_pending_requests registered_with_request)) with ["id-1"]
      by (vm_compute; reflexivity).
    apply NoDup_singleton.
Defined.

(** The sweep on the actor whose system has no generation actor. *)
Lemma failed_fallback_send_loses_request_witness :
  exists st',
    @_cleanup_expired_requests ActorSystem plain_collaborators after_timeout
      no_generation_with_request = (st', Raise (UnknownActorError "generation"))
    /\ dict_keys (_pending_requests no_generation_with_request) = ["id-1"]
    /\ _pending_requests st' = []
    /\ sent st' = sent no_generation_with_request.
Proof.
  assert (Htable : exists p, _pending_requests no_generation_with_request = [("id-1", p)])
    by (vm_compute; eexists; reflexivity).
  destruct Htable as [p Htable].
  assert (Hsys : exists sys, actor_system no_generation_with_request = Some sys)
    by (vm_compute; eexists; reflexivity).
  destruct Hsys as [sys Hsys].
  assert (Hexp : is_expired after_timeout p = true).
  { assert (Hall : forallb (entry_expired after_timeout)
                     (_pending_requests no_generation_with_request) = true)
      by (vm_compute; reflexivity).
    rewrite Htable in Hall. simpl in Hall. rewrite andb_true_r in Hall. exact Hall. }
  assert (Hsend : @send_message ActorSystem plain_collaborators sys "generation"
                    (generate_msg (actor_id no_generation_with_request) p (VList []))
                  = (sys, Raise (UnknownActorError "generation"))).
  { assert (Hmail : mailboxes sys !! "generation" = None).
    { assert (Hb : match actor_system no_generation_with_request with
                   | Some s => bool_decide (mailboxes s !! "generation" = None)
                   | None => false
                   end = true) by (vm_compute; reflexivity).
      rewrite Hsys in Hb. apply bool_decide_eq_true in Hb. exact Hb. }
    cbn [send_message plain_collaborators]. unfold ActorSystem_send_message.
    rewrite Hmail. reflexivity. }
  destruct (@failed_fallback_send_loses_request ActorSystem plain_collaborators after_timeout
              no_generation_with_request sys sys [] [] "id-1" p
              (UnknownActorError "generation") Hsys Htable)
    as (st' & Hrun & Hpending & Hsent & _).
  - rewrite Htable. apply NoDup_singleton.
  - reflexivity.
  - exact Hexp.
  - exact Hsend.
  - exists st'. split; [exact Hrun |]. split; [rewrite Htable; reflexivity |].
    split; [exact Hpending | exact Hsent].
Defined.

(** The reply to ["id-1"] after the sweep of the registered actor. *)
Lemma late_reply_after_timeout_is_ignored_witness :
  exists st1,
    @_cleanup_expired_requests ActorSystem plain_collaborators after_timeout
      registered_with_request = (st1, Return tt)
    /\ @handle_message ActorSystem plain_collaborators (after_timeout + 1) "id-2"
         (context_reply "id-1") st1
       = (with_logged (logged st1 ++ [unknown_request_warning (VStr "id-1")]) st1, Return None).
Proof.
  assert (Hrun : exists st1,
            @_cleanup_expired_requests ActorSystem plain_collaborators after_timeout
              registered_with_request = (st1, Return tt))
    by (vm_compute; eexists; reflexivity).
  destruct Hrun as [st1 Hrun]. exists st1. split; [exact Hrun |].
  assert (Htable : exists p, _pending_requests registered_with_request = [("id-1", p)])
    by (vm_compute; eexists; reflexivity).
  destruct Htable as [p Htable].
  apply (@late_reply_after_timeout_is_ignored ActorSystem plain_collaborators after_timeout
           (after_timeout + 1) "id-2" "id-1" p (context_reply "id-1")
           registered_with_request st1).
  - rewrite Htable. apply NoDup_singleton.
  - rewrite Htable. reflexivity.
  - assert (Hall : forallb (entry_expired after_timeout)
                     (_pending_requests registered_with_request) = true)
      by (vm_compute; reflexivity).
    rewrite Htable in Hall. simpl in Hall. rewrite andb_true_r in Hall. exact Hall.
  - exact Hrun.
  - reflexivity.
  - reflexivity.
Defined.

(** ** Replies, bot responses and other messages *)

Section Replies.
Context {System : Type} {C : Collaborators System}.

Lemma send_if_system_frame target msg (st st' : UserSessionActor System) r :
  send_if_system target msg st = (st', r) ->
  _pending_requests st' = _pending_requests st
  /\ actor_id st' = actor_id st
  /\ _sessions st' = _sessions st
  /\ logged st' = logged st.
Proof.
  unfold send_if_system, system_send_message, has_actor_system.
  destruct (actor_system st) as [sys |]; [| intros [= <- _]; repeat split].
  destruct (send_message sys target msg) as [sys' [[] | e]]; intros [= <- _]; repeat split.
Qed.

Lemma handle_context_response_known message (st : UserSessionActor System) rid pending n :
  dict_get "request_id" (payload message) = Some (VStr rid) ->
  rid <> "" ->
  dict_get rid (_pending_requests st) = Some pending ->
  py_len (get_default (payload message) "messages" (VList [])) = Return n ->
  handle_context_response message st
  = act_bind
      (send_if_system "generation"
         (generate_msg (actor_id st) pending
            (get_default (payload message) "messages" (VList []))))
      (fun _ => act_ret None)
      (with_logged
         (logged st ++ [{| log_level := INFO; log_text := "Created GENERATE_RESPONSE for user";
                          log_args := [pending_user_id pending; VInt n] |}])
         (with_pending (dict_pop rid (_pending_requests st)) st)).
Proof.
  intros Hrid Hne Hget Hlen.
  unfold handle_context_response, act_bind, act_get, act_lift.
  replace (get_default (payload message) "request_id" VNone) with (VStr rid)
    by (unfold get_default; rewrite Hrid; reflexivity).
  rewrite (known_request_string rid _ pending Hne Hget).
  unfold pop_pending. rewrite Hget, Hlen.
  unfold log, act_modify. reflexivity.
Qed.

Lemma handle_message_user now uuid message (st st' : UserSessionActor System) reply :
  message_type message = MESSAGE_TYPES USER_MESSAGE ->
  handle_message now uuid message st = (st', Return reply) ->
  _handle_user_message now uuid message st = (st', Return None) /\ reply = None.
Proof.
  intros Htype. unfold handle_message. rewrite Htype. cbn [MESSAGE_TYPES].
  rewrite String.eqb_refl. intros H.
  apply act_bind_Return in H as (reply0 & s1 & Hhandle & H).
  pose proof (handle_user_message_Return _ _ _ _ _ _ Hhandle)
    as (_ & _ & _ & _ & _ & _ & _ & -> & _).
  apply act_bind_Return in H as (u & s2 & Hnone & H).
  apply act_ret_Return in Hnone as [-> _].
  apply act_ret_Return in H as [-> ->].
  split; [exact Hhandle | reflexivity].
Qed.

(** X5. Request and reply compose to a round trip.  After a user message
    that was processed under a fresh id, the [CONTEXT_RESPONSE] that carries
    this id, with messages that have a length, puts the pending table back
    to what it was before the user
    message, and the [GENERATE_RESPONSE] it builds carries the [user_id],
    [chat_id] and [text] of that user message together with the reply's
    [messages] as [historical_context]; when the system accepts it, it is
    the one message sent and the handler returns nothing. *)
Theorem request_and_reply_round_trip
    (now now' : Z) (uuid uuid' : string) (message reply : ActorMessage)
    (st st1 : UserSessionActor System) (r : option ActorMessage) (n : Z) :
  message_type message = MESSAGE_TYPES USER_MESSAGE ->
  dict_get uuid (_pending_requests st) = None ->
  uuid <> "" ->
  handle_message now uuid message st = (st1, Return r) ->
  message_type reply = MESSAGE_TYPES CONTEXT_RESPONSE ->
  dict_get "request_id" (payload reply) = Some (VStr uuid) ->
  py_len (get_default (payload reply) "messages" (VList [])) = Return n ->
  exists user_id chat_id text g,
    dict_get "user_id" (payload message) = Some user_id
    /\ dict_get "chat_id" (payload message) = Some chat_id
    /\ dict_get "text" (payload message) = Some text
    /\ message_type g = MESSAGE_TYPES GENERATE_RESPONSE
    /\ dict_get "user_id" (payload g) = Some user_id
    /\ dict_get "chat_id" (payload g) = Some chat_id
    /\ dict_get "text" (payload g) = Some text
    /\ dict_get "historical_context" (payload g)
       = Some (get_default (payload reply) "messages" (VList []))
    /\ _pending_requests (handle_message now' uuid' reply st1).1 = _pending_requests st
    /\ forall sys1 sys2,
         actor_system st1 = Some sys1 ->
         send_message sys1 "generation" g = (sys2, Return tt) ->
         (handle_message now' uuid' reply st1).2 = Return None
         /\ sent (handle_message now' uuid' reply st1).1 = sent st1 ++ [("generation", g)].
Proof.
  intros Htype Hfresh Hne Hrun Htype' Hrid Hlen.
  apply (handle_message_user now uuid message st st1 r Htype) in Hrun as [Hrun _].
  apply handle_user_message_Return in Hrun
    as (user_id & text & chat_id & session & Huser & Htext & Hchat & _ & Hid & _ & Hpending & _).
  set (entry := new_pending now user_id chat_id text (_should_include_prompt session) session)
    in Hpending.
  assert (Hentry : dict_get uuid (_pending_requests st1) = Some entry)
    by (rewrite Hpending; apply dict_get_set_eq).
  rewrite (handle_message_context_response now' uuid' reply st1 Htype').
  rewrite (handle_context_response_known reply st1 uuid entry n Hrid Hne Hentry Hlen).
  exists user_id, chat_id, text,
    (generate_msg (actor_id st1) entry (get_default (payload reply) "messages" (VList []))).
  repeat (split; [first [assumption | reflexivity] |]).
  split.
  - unfold act_bind.
    destruct (send_if_system _ _ _) as [st2 [[] | e]] eqn:Hsend;
      apply send_if_system_frame in Hsend as (Hp & _); cbn [fst act_ret]; rewrite Hp;
      cbn [_pending_requests with_logged with_pending];
      rewrite Hpending, (dict_set_fresh uuid entry _ Hfresh);
      rewrite (dict_pop_app_r uuid (_pending_requests st) [(uuid, entry)])
        by (apply dict_get_None_keys, Hfresh);
      simpl; rewrite String.eqb_refl; apply app_nil_r.
  - intros sys1 sys2 Hsys Hsend.
    unfold act_bind, send_if_system, has_actor_system, system_send_message.
    cbn [actor_system with_logged with_pending]. rewrite Hsys.
    cbn [actor_id with_logged with_pending]. rewrite Hsend. cbn. split; reflexivity.
Qed.

(** X6. A [BOT_RESPONSE] is handed to the memory actor only by an actor that
    has an actor system.  Without one the message is dropped silently,
    whatever its payload.  With one, the payload must hold [user_id] and
    [text] (a missing key raises [KeyError] and changes nothing), and exactly
    one [STORE_MEMORY] of message type ['bot'] with the text as content goes
    to the memory actor; no session is created or touched and the pending
    table stays as it is. *)
Theorem bot_response_is_stored_through_the_system
    (now : Z) (uuid : string) (message : ActorMessage) (st : UserSessionActor System) :
  message_type message = MESSAGE_TYPES BOT_RESPONSE ->
  match actor_system st with
  | None => handle_message now uuid message st = (st, Return None)
  | Some sys =>
      match dict_get "user_id" (payload message), dict_get "text" (payload message) with
      | None, _ => handle_message now uuid message st = (st, Raise (KeyError "user_id"))
      | Some _, None => handle_message now uuid message st = (st, Raise (KeyError "text"))
      | Some user_id, Some text =>
          match send_message sys "memory"
                  (store_bot_msg (actor_id st) now message user_id text) with
          | (sys', Return _) =>
              handle_message now uuid message st
              = (with_sent
                   (sent st ++ [("memory", store_bot_msg (actor_id st) now message user_id text)])
                   (with_system (Some sys') st),
                 Return None)
          | (sys', Raise e) =>
              handle_message now uuid message st = (with_system (Some sys') st, Raise e)
          end
      end
  end.
Proof.
  intros Htype. unfold handle_message. rewrite Htype. cbn [MESSAGE_TYPES String.eqb Ascii.eqb Bool.eqb].
  unfold handle_bot_response, act_bind, act_get, has_actor_system, act_when, act_lift, subscript,
    system_send_message.
  destruct (actor_system st) as [sys |] eqn:Hsys; [| reflexivity].
  destruct (dict_get "user_id" (payload message)) as [user_id |]; [| reflexivity].
  destruct (dict_get "text" (payload message)) as [text |]; [| reflexivity].
  rewrite Hsys. unfold store_bot_msg.
  destruct (send_message sys "memory" _) as [sys' [[] | e]]; reflexivity.
Qed.

(** X7. The actor reacts to four message types only.  A message of any
    other type, in the catalog or not, is ignored: the actor is left exactly
    as it was, nothing is logged, and the handler returns nothing.  And
    whatever the message, a call of [handle_message] that returns has
    returned [None]: the actor answers by sending, never by its return
    value. *)
Theorem other_message_types_are_ignored
    (now : Z) (uuid : string) (message : ActorMessage) (st : UserSessionActor System) :
  (message_type message <> MESSAGE_TYPES USER_MESSAGE ->
   message_type message <> MESSAGE_TYPES CACHE_HIT_METRIC ->
   message_type message <> MESSAGE_TYPES BOT_RESPONSE ->
   message_type message <> MESSAGE_TYPES CONTEXT_RESPONSE ->
   handle_message now uuid message st = (st, Return None))
  /\ (forall st' reply, handle_message now uuid message st = (st', Return reply) -> reply = None).
Proof.
  split.
  - intros H1 H2 H3 H4. unfold handle_message.
    destruct (String.eqb_spec (message_type message) (MESSAGE_TYPES USER_MESSAGE));
      [contradiction |].
    destruct (String.eqb_spec (message_type message) (MESSAGE_TYPES CACHE_HIT_METRIC));
      [contradiction |].
    destruct (String.eqb_spec (message_type message) (MESSAGE_TYPES BOT_RESPONSE));
      [contradiction |].
    destruct (String.eqb_spec (message_type message) (MESSAGE_TYPES CONTEXT_RESPONSE));
      [contradiction |].
    reflexivity.
  - intros st' reply. unfold handle_message.
    destruct (String.eqb (message_type message) (MESSAGE_TYPES USER_MESSAGE)).
    { intros H. apply act_bind_Return in H as (r0 & s1 & _ & H).
      apply act_bind_Return in H as (u & s2 & _ & H).
      apply act_ret_Return in H as [_ ->]. reflexivity. }
    destruct (String.eqb (message_type message) (MESSAGE_TYPES CACHE_HIT_METRIC)).
    { intros H. apply act_bind_Return in H as (u & s1 & _ & H).
      apply act_ret_Return in H as [_ ->]. reflexivity. }
    destruct (String.eqb (message_type message) (MESSAGE_TYPES BOT_RESPONSE)).
    { unfold handle_bot_response. intros H.
      apply act_bind_Return in H as (s0 & s1 & _ & H).
      apply act_bind_Return in H as (u & s2 & _ & H).
      apply act_ret_Return in H as [_ ->]. reflexivity. }
    destruct (String.eqb (message_type message) (MESSAGE_TYPES CONTEXT_RESPONSE)).
    { unfold handle_context_response. cbv zeta. intros H.
      apply act_bind_Return in H as (s0 & s1 & _ & H).
      apply act_bind_Return in H as (known & s2 & _ & H).
      destruct known as [rid |].
      - apply act_bind_Return in H as (p & s3 & _ & H).
        apply act_bind_Return in H as (n & s4 & _ & H).
        apply act_bind_Return in H as (u & s5 & _ & H).
        apply act_bind_Return in H as (u' & s6 & _ & H).
        apply act_ret_Return in H as [_ ->]. reflexivity.
      - apply act_bind_Return in H as (u & s3 & _ & H).
        apply act_ret_Return in H as [_ ->]. reflexivity. }
    intros H. apply act_ret_Return in H as [_ ->]. reflexivity.
Qed.

#[local] Instance detached_quiet_pre : PreOrder (@detached_quiet System).
Proof.
  split.
  - intros st H. split; [exact H | reflexivity].
  - intros a b c Hab Hbc H. destruct (Hab H) as [Hb Hs]. destruct (Hbc Hb) as [Hc Hs'].
    split; [exact Hc | congruence].
Qed.

#[local] Existing Instance same_interface_pre.

Lemma interface_detached {A} (m : Act (UserSessionActor System) A) :
  keeps (@same_interface System) m -> keeps detached_quiet m.
Proof.
  intros Hm st st' r Hrun Hnone. apply Hm in Hrun as (_ & _ & Hsent & Hsys).
  split; [| exact Hsent].
  unfold has_actor_system in Hsys. rewrite Hnone in Hsys.
  destruct (actor_system st'); [discriminate | reflexivity].
Qed.

Lemma system_send_detached target msg : keeps detached_quiet (system_send_message target msg).
Proof.
  intros st st' r. unfold system_send_message. intros Hrun Hnone. rewrite Hnone in Hrun.
  injection Hrun as <- _. split; [exact Hnone | reflexivity].
Qed.

Lemma send_if_system_detached target msg : keeps detached_quiet (send_if_system target msg).
Proof.
  intros st st' r. unfold send_if_system. destruct (has_actor_system st).
  - apply system_send_detached.
  - intros [= <- _]. reflexivity.
Qed.

Lemma register_detached rid (entry : PendingRequest) :
  keeps detached_quiet
    (act_modify (fun st : UserSessionActor System =>
       with_pending (dict_set rid entry (_pending_requests st)) st)).
Proof. apply keeps_modify. intros st H. split; [exact H | reflexivity]. Qed.

#[local] Hint Resolve log_interface put_session_interface details_interface
  append_event_interface session_setattr_interface session_mutate_interface
  get_or_create_interface update_mode_interface touch_session_interface : keeps.
#[local] Hint Resolve system_send_detached send_if_system_detached register_detached : keeps.
#[local] Hint Extern 1 (keeps _ (the_session _)) => keeps_apply keeps_the_session : keeps.
#[local] Hint Extern 3 (keeps detached_quiet _) => apply interface_detached : keeps.

Lemma handle_user_message_detached now uuid message :
  keeps detached_quiet (_handle_user_message now uuid message).
Proof. unfold _handle_user_message. cbv zeta. keeps_all. Qed.

(** X8. An actor without actor system cannot process a user message: the
    call always ends in an error (when everything before it went well, at
    the context request, which is sent without the guard the other sends
    have), and it has sent nothing. *)
Theorem user_message_needs_an_actor_system
    (now : Z) (uuid : string) (message : ActorMessage) (st : UserSessionActor System) :
  message_type message = MESSAGE_TYPES USER_MESSAGE ->
  actor_system st = None ->
  (exists e, (handle_message now uuid message st).2 = Raise e)
  /\ sent (handle_message now uuid message st).1 = sent st
  /\ actor_system (handle_message now uuid message st).1 = None.
Proof.
  intros Htype Hnone.
  destruct (handle_message now uuid message st) as [st' [reply | e]] eqn:Hrun.
  - exfalso. apply (handle_message_user now uuid message st st' reply Htype) in Hrun as [Hrun _].
    apply handle_user_message_Return in Hrun as (_ & _ & _ & _ & _ & _ & _ & _ & _ & Hsys & _).
    unfold has_actor_system in Hsys. rewrite Hnone in Hsys. discriminate.
  - split; [exists e; reflexivity |].
    unfold handle_message in Hrun. rewrite Htype in Hrun. cbn [MESSAGE_TYPES] in Hrun.
    rewrite String.eqb_refl in Hrun. unfold act_bind in Hrun.
    destruct (_handle_user_message now uuid message st) as [s1 [reply | e1]] eqn:Hhandle.
    + apply handle_user_message_Return in Hhandle
        as (_ & _ & _ & _ & _ & _ & _ & _ & _ & Hsys & _).
      unfold has_actor_system in Hsys. rewrite Hnone in Hsys. discriminate.
    + injection Hrun as <- _.
      destruct (handle_user_message_detached now uuid message st s1 _ Hhandle Hnone)
        as [Hsys Hsent].
      split; assumption.
Qed.

End Replies.

(** The user message and its reply on the registered actor. *)
Lemma request_and_reply_round_trip_witness :
  _pending_requests (attached three_actors) = []
  /\ dict_keys (_pending_requests registered_with_request) = ["id-1"]
  /\ _pending_requests
       (@handle_message ActorSystem plain_collaborators after_timeout "id-2"
          (context_reply "id-1") registered_with_request).1 = []
  /\ exists g,
       dict_get "user_id" (payload g) = Some (VStr "u1")
       /\ dict_get "chat_id" (payload g) = Some (VInt 12345)
       /\ dict_get "text" (payload g) = Some (VStr "expert")
       /\ dict_get "historical_context" (payload g)
          = Some (VList [VDict [("role", VStr "user"); ("content", VStr "hello")]]).
Proof.
  assert (Hrun : @handle_message ActorSystem plain_collaborators 100 "id-1"
                   (user_message "u1" "expert") (attached three_actors)
                 = (registered_with_request, Return None)) by (vm_compute; reflexivity).
  destruct (@request_and_reply_round_trip ActorSystem plain_collaborators 100 after_timeout
              "id-1" "id-2" (user_message "u1" "expert") (context_reply "id-1")
              (attached three_actors) registered_with_request None 1
              eq_refl eq_refl ltac:(discriminate) Hrun eq_refl eq_refl eq_refl)
    as (user_id & chat_id & text & g & Huser & Hchat & Htext & _ & Hu & Hc & Ht & Hh & Hp & _).
  split; [reflexivity |]. split; [vm_compute; reflexivity |]. split; [exact Hp |].
  exists g.
  injection Huser as <-. injection Hchat as <-. injection Htext as <-.
  repeat split; assumption.
Defined.

(** A bot response on the registered actor, and the same message and one
    without payload on an actor that was never registered. *)
Lemma bot_response_is_stored_through_the_system_witness :
  map (fun m => (m.1, message_type m.2, dict_get "message_type" (payload m.2),
                 dict_get "content" (payload m.2)))
    (sent (@handle_message ActorSystem plain_collaborators 200 "id-2"
             (ActorMessage_create "generation" (MESSAGE_TYPES BOT_RESPONSE)
                [("user_id", VStr "u1"); ("text", VStr "Hello!")] None)
             (attached three_actors)).1)
  = [("memory", "store_memory", Some (VStr "bot"), Some (VStr "Hello!"))]
  /\ @handle_message ActorSystem plain_collaborators 200 "id-2"
       (ActorMessage_create "generation" (MESSAGE_TYPES BOT_RESPONSE) [] None)
       (UserSessionActor_new ActorSystem)
     = (UserSessionActor_new ActorSystem, Return None).
Proof.
  split.
  - pose proof (@bot_response_is_stored_through_the_system ActorSystem plain_collaborators
                  200 "id-2"
                  (ActorMessage_create "generation" (MESSAGE_TYPES BOT_RESPONSE)
                     [("user_id", VStr "u1"); ("text", VStr "Hello!")] None)
                  (attached three_actors) eq_refl) as H.
    cbn [actor_system attached payload ActorMessage_create dict_get String.eqb Ascii.eqb
         Bool.eqb] in H.
    destruct (send_message three_actors "memory" _) as [sys' [[] | e]] eqn:Hs in H.
    + rewrite H. reflexivity.
    + exfalso. revert Hs. cbn [send_message plain_collaborators].
      unfold ActorSystem_send_message.
      replace (mailboxes three_actors !! "memory") with (Some (@nil ActorMessage))
        by (vm_compute; reflexivity).
      cbn. discriminate.
  - exact (@bot_response_is_stored_through_the_system ActorSystem plain_collaborators
             200 "id-2" (ActorMessage_create "generation" (MESSAGE_TYPES BOT_RESPONSE) [] None)
             (UserSessionActor_new ActorSystem) eq_refl).
Defined.

(** A [GENERATE_RESPONSE] and a message of a type outside the catalog, handed
    to the session actor. *)
Lemma other_message_types_are_ignored_witness :
  @handle_message ActorSystem plain_collaborators 200 "id-2"
    (ActorMessage_create "test" (MESSAGE_TYPES GENERATE_RESPONSE) [("user_id", VStr "u1")] None)
    registered_with_request
  = (registered_with_request, Return None)
  /\ @handle_message ActorSystem plain_collaborators 200 "id-2" unknown_msg
       registered_with_request
     = (registered_with_request, Return None).
Proof.
  split.
  - apply (@other_message_types_are_ignored ActorSystem plain_collaborators 200 "id-2"
             (ActorMessage_create "test" (MESSAGE_TYPES GENERATE_RESPONSE)
                [("user_id", VStr "u1")] None) registered_with_request); discriminate.
  - apply (@other_message_types_are_ignored ActorSystem plain_collaborators 200 "id-2"
             unknown_msg registered_with_request); discriminate.
Defined.

(** The user message of the test on an actor that was never registered: the
    call fails at the unguarded send, after the entry was stored. *)
Lemma user_message_needs_an_actor_system_witness :
  (@handle_message ActorSystem plain_collaborators 100 "id-1" (user_message "u1" "expert")
     (UserSessionActor_new ActorSystem)).2 = Raise (AttributeError "send_message")
  /\ sent unregistered_with_request = []
  /\ dict_keys (_pending_requests unregistered_with_request) = ["id-1"].
Proof.
  destruct (@user_message_needs_an_actor_system ActorSystem plain_collaborators 100 "id-1"
              (user_message "u1" "expert") (UserSessionActor_new ActorSystem) eq_refl eq_refl)
    as (_ & Hsent & _).
  split; [vm_compute; reflexivity |].
  split; [exact Hsent | vm_compute; reflexivity].
Defined.

(** ** The session table *)

Lemma setattr_keeps_user_id s a s' :
  (forall v, a <> Set_user_id v) ->
  UserSession_setattr s a = Return s' -> user_id s' = user_id s.
Proof.
  intros Hnot. destruct a; simpl; unfold outcome_bind, run_validator;
    try (intros [= <-]; reflexivity).
  - exfalso. eapply Hnot. reflexivity.
  - destruct (validate_cache_metrics_size v); [intros [= <-]; reflexivity | discriminate].
  - destruct (validate_mode v); [intros [= <-]; reflexivity | discriminate].
  - destruct (validate_confidence v); [intros [= <-]; reflexivity | discriminate].
  - destruct (validate_mode_history_size v); [intros [= <-]; reflexivity | discriminate].
Qed.

Lemma setattr_keeps_count s a s' :
  (forall v, a <> Set_message_count v) ->
  UserSession_setattr s a = Return s' -> message_count s' = message_count s.
Proof.
  intros Hnot. destruct a; simpl; unfold outcome_bind, run_validator;
    try (intros [= <-]; reflexivity).
  - exfalso. eapply Hnot. reflexivity.
  - destruct (validate_cache_metrics_size v); [intros [= <-]; reflexivity | discriminate].
  - destruct (validate_mode v); [intros [= <-]; reflexivity | discriminate].
  - destruct (validate_confidence v); [intros [= <-]; reflexivity | discriminate].
  - destruct (validate_mode_history_size v); [intros [= <-]; reflexivity | discriminate].
Qed.

Lemma setattr_current_mode_Return s v s' :
  UserSession_setattr s (Set_current_mode v) = Return s' ->
  s' = with_current_mode v s /\ In v valid_modes.
Proof.
  simpl. unfold outcome_bind, run_validator.
  destruct (validate_mode v) as [v' |] eqn:Hv; [| discriminate].
  apply validate_mode_Return in Hv as [-> Hin]. intros [= <-]. split; [reflexivity | exact Hin].
Qed.

Lemma setattr_mode_confidence_Return s v s' :
  UserSession_setattr s (Set_mode_confidence v) = Return s' ->
  s' = with_mode_confidence v s /\ in_unit_interval v.
Proof.
  simpl. unfold outcome_bind, run_validator.
  destruct (validate_confidence v) as [v' |] eqn:Hv; [| discriminate].
  apply validate_confidence_Return in Hv as [-> Hin]. intros [= <-].
  split; [reflexivity | exact Hin].
Qed.

Lemma init_fresh now uid uname :
  UserSession_init now (session_args uid uname) = Return (fresh_session now uid uname).
Proof. reflexivity. Qed.

Lemma fresh_session_sound now uid uname : session_sound uid (fresh_session now uid uname).
Proof.
  split; [reflexivity |]. split; [apply default_session_valid |].
  split; [reflexivity | apply Forall_nil_2].
Qed.

Lemma setattr_sound uid s a s' :
  (forall v, a <> Set_user_id v) ->
  (forall v, a <> Set_message_count v) ->
  (forall v, a <> Set_mode_history v) ->
  session_sound uid s -> UserSession_setattr s a = Return s' -> session_sound uid s'.
Proof.
  intros Hid Hcount Hhist (Hu & Hvalid & Hc & Hh) Hset.
  split; [rewrite (setattr_keeps_user_id s a s' Hid Hset); exact Hu |].
  split; [eapply setattr_valid; eassumption |].
  split; [rewrite (setattr_keeps_count s a s' Hcount Hset); exact Hc |].
  rewrite (setattr_keeps_history s a s' Hhist Hset). exact Hh.
Qed.

Lemma history_append_sound uid m s :
  In m valid_modes -> session_sound uid s -> session_sound uid (mode_history_append m s).
Proof.
  intros Hm (Hu & Hvalid & Hc & Hh). repeat split; try assumption; try apply Hvalid.
  cbn. apply Forall_app. split; [exact Hh |]. apply Forall_cons. split; [exact Hm | apply Forall_nil_2].
Qed.

Lemma history_pop0_sound uid s :
  session_sound uid s -> session_sound uid (mode_history_pop0 s).
Proof.
  intros (Hu & Hvalid & Hc & Hh). repeat split; try assumption; try apply Hvalid.
  cbn. destruct (mode_history s) as [| m h]; [exact Hh |].
  apply Forall_cons in Hh as [_ Hh]. exact Hh.
Qed.

Lemma metrics_append_sound uid v s :
  session_sound uid s -> session_sound uid (cache_metrics_append v s).
Proof. intros (Hu & Hvalid & Hc & Hh). repeat split; try assumption; apply Hvalid. Qed.

Section Sessions.
Context {System : Type} {C : Collaborators System}.

Abbreviation sound := (@sessions_sound_kept System).
Abbreviation table := (@same_sessions System).

#[local] Instance sessions_sound_kept_pre : PreOrder (@sessions_sound_kept System).
Proof.
  split.
  - intros st H. exact H.
  - intros a b c Hab Hbc H. apply Hbc, Hab, H.
Qed.

#[local] Instance same_sessions_pre : PreOrder (@same_sessions System).
Proof.
  split.
  - intros st. reflexivity.
  - intros a b c Hab Hbc. unfold same_sessions in *. congruence.
Qed.

#[local] Existing Instance same_interface_pre.

Lemma act_bind_run {A B} (m : Act (UserSessionActor System) A)
    (k : A -> Act (UserSessionActor System) B) st st' r :
  act_bind m k st = (st', r) ->
  (exists a st1, m st = (st1, Return a) /\ k a st1 = (st', r))
  \/ (exists e, m st = (st', Raise e) /\ r = Raise e).
Proof.
  unfold act_bind. destruct (m st) as [st1 [a | e]]; intros H.
  - left. exists a, st1. split; [reflexivity | exact H].
  - right. injection H as <- <-. exists e. split; reflexivity.
Qed.

Lemma keeps_bind_lift (R : relation (UserSessionActor System)) `{!PreOrder R} {A B}
    (o : Outcome A) (k : A -> Act (UserSessionActor System) B) :
  (forall a, o = Return a -> keeps R (k a)) -> keeps R (act_bind (act_lift o) k).
Proof.
  intros Hk st st' r. unfold act_bind, act_lift. destruct o as [a | e].
  - apply Hk. reflexivity.
  - intros [= <- _]. reflexivity.
Qed.

Lemma session_setattr_eq uid a (st : UserSessionActor System) :
  session_setattr uid a st
  = match _sessions st !! uid with
    | None => (st, Raise (KeyError uid))
    | Some s =>
        match UserSession_setattr s a with
        | Return s' => (with_sessions (<[uid := s']> (_sessions st)) st, Return tt)
        | Raise e => (st, Raise e)
        end
    end.
Proof.
  unfold session_setattr, act_bind, the_session, act_lift, put_session, act_modify.
  destruct (_sessions st !! uid) as [s |]; [| reflexivity].
  destruct (UserSession_setattr s a); reflexivity.
Qed.

Lemma session_mutate_eq uid f (st : UserSessionActor System) :
  session_mutate uid f st
  = match _sessions st !! uid with
    | None => (st, Raise (KeyError uid))
    | Some s => (with_sessions (<[uid := f s]> (_sessions st)) st, Return tt)
    end.
Proof.
  unfold session_mutate, act_bind, the_session, put_session, act_modify.
  destruct (_sessions st !! uid) as [s |]; reflexivity.
Qed.

(** *** Steps that leave the session table alone *)

Lemma log_sessions lvl text args : keeps table (log lvl text args).
Proof. apply keeps_modify. intros st. reflexivity. Qed.

Lemma details_sessions d : keeps table (act_modify (with_details d)).
Proof. apply keeps_modify. intros st. reflexivity. Qed.

Lemma register_sessions rid (entry : PendingRequest) :
  keeps table
    (act_modify (fun st : UserSessionActor System =>
       with_pending (dict_set rid entry (_pending_requests st)) st)).
Proof. apply keeps_modify. intros st. reflexivity. Qed.

Lemma append_event_sessions event : keeps table (_append_event event).
Proof.
  intros st st' r. unfold _append_event.
  destruct (actor_system st) as [sys |].
  - destruct (append_event event sys) as [sys' [[] | e]]; intros [= <- _]; reflexivity.
  - destruct (append_event_detached event) as [[] | e]; intros [= <- _]; reflexivity.
Qed.

Lemma system_send_sessions target msg : keeps table (system_send_message target msg).
Proof.
  intros st st' r. unfold system_send_message.
  destruct (actor_system st) as [sys |]; [| intros [= <- _]; reflexivity].
  destruct (send_message sys target msg) as [sys' [[] | e]]; intros [= <- _]; reflexivity.
Qed.

Lemma send_if_system_sessions target msg : keeps table (send_if_system target msg).
Proof.
  intros st st' r. unfold send_if_system. destruct (has_actor_system st).
  - apply system_send_sessions.
  - intros [= <- _]. reflexivity.
Qed.

Lemma pop_pending_sessions rid : keeps table (pop_pending rid).
Proof.
  intros st st' r. unfold pop_pending.
  destruct (dict_get rid (_pending_requests st)); intros [= <- _]; reflexivity.
Qed.

#[local] Hint Resolve log_sessions details_sessions register_sessions append_event_sessions
  system_send_sessions send_if_system_sessions pop_pending_sessions : keeps.
#[local] Hint Extern 1 (keeps _ (the_session _)) => keeps_apply keeps_the_session : keeps.

Lemma expire_request_sessions rid : keeps table (expire_request rid).
Proof. unfold expire_request. keeps_all. Qed.

Lemma cleanup_sessions now : keeps table (_cleanup_expired_requests now).
Proof.
  intros st st' r. unfold _cleanup_expired_requests.
  apply (keeps_for same_sessions). intros rid. apply expire_request_sessions.
Qed.

Lemma handle_context_response_sessions message : keeps table (handle_context_response message).
Proof. unfold handle_context_response. cbv zeta. keeps_all. Qed.

Lemma handle_bot_response_sessions now message : keeps table (handle_bot_response now message).
Proof. unfold handle_bot_response. keeps_all. Qed.

(** *** Steps that keep the sessions sound *)

Lemma table_sound {A} (m : Act (UserSessionActor System) A) : keeps table m -> keeps sound m.
Proof.
  intros Hm st st' r Hrun Hinv uid s. rewrite (Hm st st' r Hrun). apply Hinv.
Qed.

Lemma put_sound uid s (st : UserSessionActor System) :
  sessions_sound st -> session_sound uid s ->
  sessions_sound (with_sessions (<[uid := s]> (_sessions st)) st).
Proof.
  intros Hinv Hs u s'. cbn [_sessions with_sessions].
  destruct (decide (u = uid)) as [-> | Hne].
  - rewrite lookup_insert_eq. intros [= <-]. exact Hs.
  - rewrite lookup_insert_ne by congruence. apply Hinv.
Qed.

Lemma put_fresh_sound now uid uname :
  keeps sound (put_session uid (fresh_session now uid uname)).
Proof. apply keeps_modify. intros st Hinv. apply put_sound, fresh_session_sound. exact Hinv. Qed.

Lemma session_setattr_sound uid a :
  (forall v, a <> Set_user_id v) ->
  (forall v, a <> Set_message_count v) ->
  (forall v, a <> Set_mode_history v) ->
  keeps sound (session_setattr uid a).
Proof.
  intros Hid Hcount Hhist st st' r. rewrite session_setattr_eq.
  destruct (_sessions st !! uid) as [s |] eqn:Hs; [| intros [= <- _] H; exact H].
  destruct (UserSession_setattr s a) as [s' |] eqn:Hset; intros [= <- _] Hinv; [| exact Hinv].
  apply put_sound; [exact Hinv |].
  eapply setattr_sound; try eassumption. apply Hinv, Hs.
Qed.

Lemma session_mutate_sound uid f :
  (forall s, session_sound uid s -> session_sound uid (f s)) ->
  keeps sound (session_mutate uid f).
Proof.
  intros Hf st st' r. rewrite session_mutate_eq.
  destruct (_sessions st !! uid) as [s |] eqn:Hs; intros [= <- _] Hinv; [| exact Hinv].
  apply put_sound; [exact Hinv |]. apply Hf, Hinv, Hs.
Qed.

#[local] Hint Extern 3 (keeps (@sessions_sound_kept _) _) => apply table_sound : keeps.
#[local] Hint Extern 1 (keeps _ (session_setattr _ _)) =>
  apply session_setattr_sound; intros ?; discriminate : keeps.
#[local] Hint Resolve put_fresh_sound : keeps.

Lemma create_session_sound now uid username : keeps sound (create_session now uid username).
Proof.
  unfold create_session.
  apply keeps_bind; try (typeclasses eauto); [destruct username; keeps_all |].
  intros uname. apply keeps_bind_lift; try (typeclasses eauto).
  intros session Hinit. rewrite init_fresh in Hinit. injection Hinit as <-.
  keeps_all.
Qed.

#[local] Hint Resolve create_session_sound : keeps.

Lemma get_or_create_sound now user_id username :
  keeps sound (_get_or_create_session now user_id username).
Proof. unfold _get_or_create_session. keeps_all. Qed.

Lemma record_mode_sound uid m confidence changed :
  In m valid_modes -> keeps sound (record_mode uid m confidence changed).
Proof.
  intros Hm. unfold record_mode, update_mode_history.
  assert (Happend : keeps sound (session_mutate uid (mode_history_append m)))
    by (apply session_mutate_sound; intros s; apply history_append_sound, Hm).
  assert (Hpop : keeps sound (session_mutate uid mode_history_pop0))
    by (apply session_mutate_sound; intros s; apply history_pop0_sound).
  keeps_all.
Qed.

Lemma set_current_mode_Return uid v (st st' : UserSessionActor System) r :
  session_setattr uid (Set_current_mode v) st = (st', Return r) -> In v valid_modes.
Proof.
  rewrite session_setattr_eq. destruct (_sessions st !! uid) as [s |]; [| discriminate].
  destruct (UserSession_setattr s (Set_current_mode v)) as [s' |] eqn:Hset; [| discriminate].
  intros _. apply setattr_current_mode_Return in Hset as [_ Hin]. exact Hin.
Qed.

Ltac sound_step H Hinv K Hnew :=
  let Hstep := fresh "Hstep" in
  apply act_bind_run in H as [(? & ? & Hstep & H) | (? & Hstep & _)];
  [ assert (Hnew := K _ _ _ Hstep Hinv) | exact (K _ _ _ Hstep Hinv) ].

Lemma update_mode_sound now uid user_id text : keeps sound (update_mode now uid user_id text).
Proof.
  intros st st' r Hrun Hinv. unfold update_mode in Hrun.
  apply act_bind_run in Hrun as [(session & s0 & Hs & Hrun) | (e & Hs & _)];
    [apply the_session_Return in Hs as [-> Hs] | apply the_session_run in Hs as ->; exact Hinv].
  apply act_bind_run in Hrun as [(detected & s0 & Hd & Hrun) | (e & Hd & _)];
    [apply act_lift_Return in Hd as [-> Hd] | injection Hd as <- _; exact Hinv].
  cbv zeta in Hrun.
  assert (K1 : keeps sound
                 (match detected.2 with
                  | Some d => act_modify (with_details d)
                  | None => act_ret tt
                  end)) by keeps_all.
  sound_step Hrun Hinv K1 Hinv1.
  assert (K2 : keeps sound
                 (act_when (negb (String.eqb detected.1.1 (current_mode session)))
                    (act_bind (session_setattr uid (Set_last_mode_change (Some now)))
                       (fun _ => session_setattr uid (Set_current_mode detected.1.1)))))
    by keeps_all.
  apply act_bind_run in Hrun as [(u2 & s2 & Hchange & Hrun) | (e & Hchange & _)];
    [| exact (K2 _ _ _ Hchange Hinv1)].
  pose proof (K2 _ _ _ Hchange Hinv1) as Hinv2.
  assert (Hvalid : In detected.1.1 valid_modes).
  { destruct (negb (String.eqb detected.1.1 (current_mode session))) eqn:Hch.
    - cbn [act_when] in Hchange. apply act_bind_Return in Hchange as (u & sx & _ & Hset).
      eapply set_current_mode_Return, Hset.
    - apply negb_false_iff, String.eqb_eq in Hch. rewrite Hch.
      destruct (Hinv uid session Hs) as (_ & [Hm _] & _). exact Hm. }
  assert (K3 : keeps sound (session_setattr uid (Set_mode_confidence detected.1.2)))
    by keeps_all.
  sound_step Hrun Hinv2 K3 Hinv3.
  pose proof (record_mode_sound uid detected.1.1 detected.1.2
                (negb (String.eqb detected.1.1 (current_mode session))) Hvalid) as K4.
  sound_step Hrun Hinv3 K4 Hinv4.
  apply act_bind_run in Hrun as [(session' & s5 & Hs' & Hrun) | (e & Hs' & _)];
    [apply the_session_Return in Hs' as [-> Hs'] | apply the_session_run in Hs' as ->; assumption].
  apply act_bind_run in Hrun as [(st5 & s6 & Hget & Hrun) | (e & Hget & _)];
    [apply act_get_Return in Hget as [-> ->] | discriminate].
  eapply (keeps_when sessions_sound_kept); [| exact Hrun | exact Hinv4]. keeps_all.
Qed.

Lemma touch_session_sound now uid : keeps sound (touch_session now uid).
Proof.
  intros st st' r Hrun Hinv. unfold touch_session in Hrun.
  apply act_bind_run in Hrun as [(session & s0 & Hs & Hrun) | (e & Hs & _)];
    [apply the_session_Return in Hs as [-> Hs] | apply the_session_run in Hs as ->; exact Hinv].
  assert (Hcount : sessions_sound
                     (with_sessions
                        (<[uid := with_message_count (message_count session + 1) session]>
                           (_sessions st)) st)).
  { apply put_sound; [exact Hinv |].
    destruct (Hinv uid session Hs) as (Hu & Hvalid & Hc & Hh).
    repeat split; try assumption; try apply Hvalid. cbn. lia. }
  apply act_bind_run in Hrun as [(u1 & s1 & Hset & Hrun) | (e & Hset & _)];
    rewrite session_setattr_eq, Hs in Hset; cbn in Hset; [| discriminate].
  injection Hset as <-.
  assert (K : keeps sound (session_setattr uid (Set_last_activity now))) by keeps_all.
  exact (K _ _ _ Hrun Hcount).
Qed.

#[local] Hint Resolve get_or_create_sound update_mode_sound touch_session_sound : keeps.

Lemma handle_user_message_sound now uuid message :
  keeps sound (_handle_user_message now uuid message).
Proof. unfold _handle_user_message. cbv zeta. keeps_all. Qed.

Lemma update_cache_metrics_sound message : keeps sound (_update_cache_metrics message).
Proof.
  unfold _update_cache_metrics. cbv zeta.
  assert (Happend : forall uid v,
            keeps sound (session_mutate uid (cache_metrics_append v)))
    by (intros uid v; apply session_mutate_sound; intros s; apply metrics_append_sound).
  destruct (negb (truthy (get_default (payload message) "user_id" VNone))); keeps_all.
Qed.

#[local] Hint Resolve handle_user_message_sound update_cache_metrics_sound
  handle_context_response_sessions handle_bot_response_sessions : keeps.

Lemma handle_message_sound now uuid message : keeps sound (handle_message now uuid message).
Proof.
  unfold handle_message.
  repeat match goal with |- keeps _ (if ?c then _ else _) => destruct c end; keeps_all.
Qed.

Lemma step_input_sound i (st : UserSessionActor System) :
  sessions_sound st -> sessions_sound (step_input i st).
Proof.
  intros Hinv. destruct i as [now uuid message | now]; unfold step_input, state_after.
  - destruct (handle_message now uuid message st) as [st' r] eqn:Hrun.
    eapply handle_message_sound; eassumption.
  - destruct (_cleanup_expired_requests now st) as [st' r] eqn:Hrun.
    eapply (table_sound _ (cleanup_sessions now)); eassumption.
Qed.

(** X9. The actor never stores an unsound session.  After any sequence of
    messages and sweeps that starts from a new actor, whatever the calls
    returned or raised, every session in [_sessions] sits under its own
    [user_id], has a [current_mode] among the valid modes and a
    [mode_confidence] within [[0.0, 1.0]], a [message_count] that is not
    negative, and a [mode_history] that holds valid modes only: a detection
    result the model refuses makes the handler raise before the result
    reaches the history. *)
Theorem stored_sessions_stay_sound :
  (forall i (st : UserSessionActor System), sessions_sound st -> sessions_sound (step_input i st))
  /\ (forall (osys : option System) inputs uid s,
        _sessions (run_inputs inputs (with_system osys (UserSessionActor_new System))) !! uid
        = Some s ->
        user_id s = uid
        /\ In (current_mode s) valid_modes
        /\ in_unit_interval (mode_confidence s)
        /\ 0 <= message_count s
        /\ Forall (fun m => In m valid_modes) (mode_history s)).
Proof.
  split; [exact step_input_sound |].
  intros osys inputs uid s Hs.
  assert (Hrun : forall st : UserSessionActor System,
            sessions_sound st -> sessions_sound (run_inputs inputs st)).
  { clear Hs. induction inputs as [| i inputs IH]; intros st Hinv; [exact Hinv |].
    simpl. apply IH, step_input_sound, Hinv. }
  assert (Hnew : sessions_sound (with_system osys (UserSessionActor_new System))).
  { intros u s'. cbn. rewrite lookup_empty. discriminate. }
  destruct (Hrun _ Hnew uid s Hs) as (Hu & [Hm Hc] & Hcount & Hh).
  repeat split; try assumption; apply Hc.
Qed.

(** *** Steps that append no event *)

Abbreviation no_event := (@same_events System).

#[local] Instance same_events_pre : PreOrder (@same_events System).
Proof.
  split.
  - intros st. split; reflexivity.
  - intros a b c [Hab Hab'] [Hbc Hbc']. split; congruence.
Qed.

Lemma log_events lvl text args : keeps no_event (log lvl text args).
Proof. apply keeps_modify. intros st. split; reflexivity. Qed.

Lemma put_session_events uid s : keeps no_event (put_session uid s).
Proof. apply keeps_modify. intros st. split; reflexivity. Qed.

Lemma system_send_events target msg : keeps no_event (system_send_message target msg).
Proof.
  intros st st' r. unfold system_send_message.
  destruct (actor_system st) as [sys |]; [| intros [= <- _]; reflexivity].
  destruct (send_message sys target msg) as [sys' [[] | e]]; intros [= <- _]; split; reflexivity.
Qed.

Lemma send_if_system_events target msg : keeps no_event (send_if_system target msg).
Proof.
  intros st st' r. unfold send_if_system. destruct (has_actor_system st).
  - apply system_send_events.
  - intros [= <- _]. reflexivity.
Qed.

#[local] Hint Resolve log_events put_session_events system_send_events send_if_system_events
  : keeps.

Lemma session_setattr_events uid a : keeps no_event (session_setattr uid a).
Proof. unfold session_setattr. keeps_all. Qed.

Lemma session_mutate_events uid f : keeps no_event (session_mutate uid f).
Proof. unfold session_mutate. keeps_all. Qed.

#[local] Hint Resolve session_setattr_events session_mutate_events : keeps.

Lemma record_mode_events uid mode confidence changed :
  keeps no_event (record_mode uid mode confidence changed).
Proof. unfold record_mode, update_mode_history. keeps_all. Qed.

Lemma touch_session_events now uid : keeps no_event (touch_session now uid).
Proof. unfold touch_session. keeps_all. Qed.

Lemma append_event_details event (st st' : UserSessionActor System) r :
  _append_event event st = (st', r) -> _last_detection_details st' = _last_detection_details st.
Proof.
  unfold _append_event. destruct (actor_system st) as [sys |].
  - destruct (append_event event sys) as [sys' [[] | e]]; intros [= <- _]; reflexivity.
  - destruct (append_event_detached event) as [[] | e]; intros [= <- _]; reflexivity.
Qed.

Lemma append_event_Return event (st st' : UserSessionActor System) r :
  _append_event event st = (st', Return r) -> appended st' = appended st ++ [event].
Proof.
  unfold _append_event. destruct (actor_system st) as [sys |].
  - destruct (append_event event sys) as [sys' [[] | e]]; [| discriminate].
    intros [= <-]. reflexivity.
  - destruct (append_event_detached event) as [[] | e]; [| discriminate].
    intros [= <-]. reflexivity.
Qed.

Lemma append_event_Raise event (st st' : UserSessionActor System) e :
  _append_event event st = (st', Raise e) -> appended st' = appended st /\ logged st' = logged st.
Proof.
  unfold _append_event. destruct (actor_system st) as [sys |].
  - destruct (append_event event sys) as [sys' [[] | e']]; [discriminate |].
    intros [= <-]. split; reflexivity.
  - destruct (append_event_detached event) as [[] | e']; [discriminate |].
    intros [= <-]. split; reflexivity.
Qed.

Lemma penultimate_after_append (m : string) (h : list string) :
  h <> [] -> (h ++ [m]) !! (length (h ++ [m]) - 2)%nat = last h.
Proof.
  intros Hne. rewrite last_lookup, List.length_app. cbn [length].
  destruct h as [| a h]; [contradiction |]. cbn [length].
  rewrite lookup_app_l by (cbn [length]; lia). f_equal. lia.
Qed.

Lemma previous_entry (m : string) (h : list string) :
  (if 1 <? Z.of_nat (length (h ++ [m]))
   then value_of_option ((h ++ [m]) !! (length (h ++ [m]) - 2)%nat) else VNone)
  = value_of_option (last h).
Proof.
  destruct h as [| a h]; [reflexivity |].
  replace (1 <? Z.of_nat (length ((a :: h) ++ [m]))) with true
    by (symmetry; apply Z.ltb_lt; rewrite List.length_app; cbn [length]; lia).
  rewrite penultimate_after_append by discriminate. reflexivity.
Qed.

Lemma previous_entry_trimmed (m : string) (h : list string) :
  MODE_HISTORY_SIZE < Z.of_nat (length (h ++ [m])) ->
  (if 1 <? Z.of_nat (length (tail (h ++ [m])))
   then value_of_option (tail (h ++ [m]) !! (length (tail (h ++ [m])) - 2)%nat) else VNone)
  = value_of_option (last h).
Proof.
  unfold MODE_HISTORY_SIZE. rewrite List.length_app. cbn [length]. intros Hlong.
  destruct h as [| a [| b h]]; cbn [length] in Hlong; [lia | lia |].
  change (tail ((a :: b :: h) ++ [m])) with ((b :: h) ++ [m]).
  rewrite previous_entry. rewrite last_cons_cons. reflexivity.
Qed.

(** The mode before the detection, as the [ModeDetectedEvent] reports it: the
    last entry the history had. *)
Lemma previous_mode_after_detection now mode confidence s :
  previous_mode (session_after_detection now mode confidence s)
  = value_of_option (last (mode_history s)).
Proof.
  unfold session_after_detection. cbv zeta.
  set (s1 := if negb (String.eqb mode (current_mode s))
             then with_current_mode mode (with_last_mode_change (Some now) s) else s).
  assert (Hh : mode_history (mode_history_append mode (with_mode_confidence confidence s1))
               = mode_history s ++ [mode]).
  { subst s1. destruct (negb (String.eqb mode (current_mode s))); reflexivity. }
  rewrite Hh.
  destruct (MODE_HISTORY_SIZE <? Z.of_nat (length (mode_history s ++ [mode]))) eqn:Hlong.
  - apply Z.ltb_lt in Hlong. unfold previous_mode.
    change (mode_history (mode_history_pop0
              (mode_history_append mode (with_mode_confidence confidence s1))))
      with (tail (mode_history (mode_history_append mode (with_mode_confidence confidence s1)))).
    rewrite Hh. apply previous_entry_trimmed, Hlong.
  - unfold previous_mode. rewrite Hh. apply previous_entry.
Qed.

(** *** What a processed user message leaves in the session *)

Lemma session_setattr_track uid a (st st' : UserSessionActor System) r s m :
  session_setattr uid a st = (st', Return r) ->
  _sessions st = <[uid := s]> m ->
  exists s', UserSession_setattr s a = Return s' /\ _sessions st' = <[uid := s']> m.
Proof.
  rewrite session_setattr_eq. intros H Hm. rewrite Hm, lookup_insert_eq in H.
  destruct (UserSession_setattr s a) as [s' |]; [| discriminate].
  injection H as <-. exists s'. split; [reflexivity |].
  cbn [_sessions with_sessions]. apply insert_insert_eq.
Qed.

Lemma session_mutate_track uid f (st st' : UserSessionActor System) r s m :
  session_mutate uid f st = (st', Return r) ->
  _sessions st = <[uid := s]> m ->
  _sessions st' = <[uid := f s]> m.
Proof.
  rewrite session_mutate_eq. intros H Hm. rewrite Hm, lookup_insert_eq in H.
  injection H as <-. cbn [_sessions with_sessions]. apply insert_insert_eq.
Qed.

Lemma update_mode_history_track uid mode (st st' : UserSessionActor System) r s m :
  update_mode_history uid mode st = (st', Return r) ->
  _sessions st = <[uid := s]> m ->
  _sessions st'
  = <[uid := if MODE_HISTORY_SIZE <? Z.of_nat (length (mode_history (mode_history_append mode s)))
             then mode_history_pop0 (mode_history_append mode s)
             else mode_history_append mode s]> m.
Proof.
  unfold update_mode_history. intros H Hm.
  apply act_bind_Return in H as (u & s1 & Happ & H).
  pose proof (session_mutate_track _ _ _ _ _ _ _ Happ Hm) as H1.
  apply act_bind_Return in H as (session & s2 & Hs & H).
  apply the_session_Return in Hs as [-> Hs]. rewrite H1, lookup_insert_eq in Hs.
  injection Hs as <-.
  destruct (MODE_HISTORY_SIZE <? Z.of_nat (length (mode_history (mode_history_append mode s))));
    cbn [act_when] in H.
  - eapply session_mutate_track; eassumption.
  - apply act_ret_Return in H as [-> _]. exact H1.
Qed.

Lemma update_mode_track now uid user_id text (st st' : UserSessionActor System) r s m :
  update_mode now uid user_id text st = (st', Return r) ->
  _sessions st = <[uid := s]> m ->
  exists detected,
    _determine_generation_mode text s = Return detected
    /\ _sessions st' = <[uid := session_after_detection now detected.1.1 detected.1.2 s]> m
    /\ _last_detection_details st'
       = match detected.2 with Some d => d | None => _last_detection_details st end
    /\ appended st'
       = appended st
         ++ (if negb (String.eqb detected.1.1 (current_mode s))
             then [mode_detected_event now uid user_id detected.1.1 detected.1.2
                     (previous_mode (session_after_detection now detected.1.1 detected.1.2 s))
                     match detected.2 with Some d => d | None => _last_detection_details st end]
             else []).
Proof.
  unfold update_mode. intros H Hm.
  apply act_bind_Return in H as (session & s0 & Hsession & H).
  apply the_session_Return in Hsession as [-> Hsession].
  rewrite Hm, lookup_insert_eq in Hsession. injection Hsession as <-.
  apply act_bind_Return in H as (detected & s0 & Hdetect & H).
  apply act_lift_Return in Hdetect as [-> Hdetect].
  exists detected. split; [exact Hdetect |].
  apply act_bind_Return in H as (u1 & s1 & Hdetails & H).
  assert (H1 : _sessions s1 = <[uid := s]> m).
  { rewrite <- Hm. destruct detected.2; injection Hdetails as <-; reflexivity. }
  assert (E1 : appended s1 = appended st
               /\ _last_detection_details s1
                  = match detected.2 with Some d => d | None => _last_detection_details st end).
  { destruct detected.2; injection Hdetails as <-; split; reflexivity. }
  cbv zeta in H.
  apply act_bind_Return in H as (u2 & s2 & Hchange & H).
  assert (E2 : same_events s1 s2).
  { assert (K : keeps no_event
                  (act_when (negb (String.eqb detected.1.1 (current_mode s)))
                     (act_bind (session_setattr uid (Set_last_mode_change (Some now)))
                        (fun _ => session_setattr uid (Set_current_mode detected.1.1)))))
      by keeps_all.
    exact (K _ _ _ Hchange). }
  assert (H2 : _sessions s2
               = <[uid := if negb (String.eqb detected.1.1 (current_mode s))
                          then with_current_mode detected.1.1 (with_last_mode_change (Some now) s)
                          else s]> m).
  { destruct (negb (String.eqb detected.1.1 (current_mode s))); cbn [act_when] in Hchange.
    - apply act_bind_Return in Hchange as (u & sx & Hlmc & Hmode).
      destruct (session_setattr_track _ _ _ _ _ _ _ Hlmc H1) as (sa & Hsa & Ha).
      injection Hsa as <-.
      destruct (session_setattr_track _ _ _ _ _ _ _ Hmode Ha) as (sb & Hsb & Hb).
      apply setattr_current_mode_Return in Hsb as [-> _]. exact Hb.
    - apply act_ret_Return in Hchange as [-> _]. exact H1. }
  apply act_bind_Return in H as (u3 & s3 & Hconf & H).
  pose proof (session_setattr_events _ _ _ _ _ Hconf) as E3.
  destruct (session_setattr_track _ _ _ _ _ _ _ Hconf H2) as (sc & Hsc & H3).
  apply setattr_mode_confidence_Return in Hsc as [-> _].
  apply act_bind_Return in H as (u4 & s4 & Hrecord & H).
  pose proof (record_mode_events _ _ _ _ _ _ _ Hrecord) as E4.
  assert (E : appended s4 = appended st
              /\ _last_detection_details s4
                 = match detected.2 with Some d => d | None => _last_detection_details st end).
  { destruct E1 as [Ea Ed], E2 as [Ea2 Ed2], E3 as [Ea3 Ed3], E4 as [Ea4 Ed4].
    split; congruence. }
  destruct E as [Ea Ed]. clear E1 E2 E3 E4.
  unfold record_mode in Hrecord.
  apply act_bind_Return in Hrecord as (u5 & s5 & Hupdate & Hlog).
  pose proof (update_mode_history_track _ _ _ _ _ _ _ Hupdate H3) as H5.
  unfold log, act_modify in Hlog. injection Hlog as <-.
  apply act_bind_Return in H as (session' & s6 & Hsession' & H).
  apply the_session_Return in Hsession' as [-> Hsession'].
  cbn [_sessions with_logged] in Hsession'. rewrite H5, lookup_insert_eq in Hsession'.
  injection Hsession' as <-.
  apply act_bind_Return in H as (st6 & s7 & Hget & H).
  apply act_get_Return in Hget as [-> ->].
  assert (H7 : same_sessions
                 (with_logged
                    (logged s5 ++
                     [{| log_level := INFO; log_text := "Mode detection for user";
                         log_args := [VStr uid; VStr detected.1.1; VFloat detected.1.2;
                                      VBool (negb (String.eqb detected.1.1 (current_mode s)))] |}])
                    s5) st').
  { eapply (keeps_when same_sessions); [| exact H]. apply append_event_sessions. }
  unfold same_sessions in H7. cbn [_sessions with_logged] in H7.
  split; [rewrite H7, H5; unfold session_after_detection; reflexivity |].
  unfold session_after_detection. cbv zeta. revert H.
  destruct (negb (String.eqb detected.1.1 (current_mode s))); cbn [act_when]; intros H.
  - split; [rewrite (append_event_details _ _ _ _ H); exact Ed |].
    rewrite (append_event_Return _ _ _ _ H), Ea, Ed. reflexivity.
  - apply act_ret_Return in H as [-> _]. split; [exact Ed |].
    rewrite Ea. symmetry. apply app_nil_r.
Qed.

Lemma touch_session_track now uid (st st' : UserSessionActor System) r s m :
  touch_session now uid st = (st', Return r) ->
  _sessions st = <[uid := s]> m ->
  _sessions st'
  = <[uid := with_last_activity now (with_message_count (message_count s + 1) s)]> m.
Proof.
  unfold touch_session. intros H Hm.
  apply act_bind_Return in H as (session & s0 & Hsession & H).
  apply the_session_Return in Hsession as [-> Hsession].
  rewrite Hm, lookup_insert_eq in Hsession. injection Hsession as <-.
  apply act_bind_Return in H as (u1 & s1 & Hcount & H).
  destruct (session_setattr_track _ _ _ _ _ _ _ Hcount Hm) as (sa & Hsa & Ha).
  injection Hsa as <-.
  destruct (session_setattr_track _ _ _ _ _ _ _ H Ha) as (sb & Hsb & Hb).
  injection Hsb as <-. exact Hb.
Qed.

Lemma get_or_create_track now user_id username (st st' : UserSessionActor System) uid :
  _get_or_create_session now user_id username st = (st', Return uid) ->
  user_id = VStr uid
  /\ exists before,
       _sessions st' = <[uid := before]> (_sessions st)
       /\ match _sessions st !! uid with
          | Some s => before = s
          | None => exists uname,
                      username = value_of_option uname /\ before = fresh_session now uid uname
          end
       /\ _last_detection_details st' = _last_detection_details st
       /\ appended st'
          = appended st
            ++ match _sessions st !! uid with
               | Some _ => []
               | None => [session_created_event now uid username]
               end.
Proof.
  intros H. pose proof (get_or_create_Return _ _ _ _ _ _ H) as ->.
  split; [reflexivity |]. unfold _get_or_create_session in H.
  apply act_bind_Return in H as (st0 & s1 & Hget & H).
  apply act_get_Return in Hget as [-> ->].
  destruct (_sessions st !! uid) as [s |] eqn:Hs.
  - apply act_ret_Return in H as [-> _]. exists s.
    split; [symmetry; apply insert_id, Hs |].
    split; [reflexivity |]. split; [reflexivity |]. symmetry. apply app_nil_r.
  - apply act_bind_Return in H as (u & s2 & Hcreate & H).
    apply act_ret_Return in H as [<- _].
    unfold create_session in Hcreate.
    apply act_bind_Return in Hcreate as (uname & s3 & Huname & Hcreate).
    assert (Hu : s3 = st /\ username = value_of_option uname).
    { destruct username; try discriminate; apply act_ret_Return in Huname as [-> ->];
        split; reflexivity. }
    destruct Hu as [-> ->].
    rewrite init_fresh in Hcreate. unfold act_bind at 1, act_lift in Hcreate.
    unfold act_bind at 1, put_session, act_modify in Hcreate.
    assert (Hkeep : same_sessions
                      (with_sessions (<[uid := fresh_session now uid uname]> (_sessions st)) st)
                      st').
    { assert (K : keeps table
                    (act_bind
                       (_append_event
                          (BaseEvent_create (String.append "user_" uid) "SessionCreatedEvent"
                             [("user_id", VStr uid); ("username", value_of_option uname);
                              ("created_at",
                               VStr (isoformat (created_at (fresh_session now uid uname))))]))
                       (fun _ => log INFO "Created new session for user" [VStr uid])))
        by keeps_all.
      exact (K _ _ _ Hcreate). }
    exists (fresh_session now uid uname). split; [exact Hkeep |].
    split; [exists uname; split; reflexivity |].
    apply act_bind_Return in Hcreate as (u' & s4 & Happend & Hlog).
    unfold log, act_modify in Hlog. injection Hlog as <-.
    cbn [_last_detection_details appended with_logged].
    rewrite (append_event_details _ _ _ _ Happend), (append_event_Return _ _ _ _ Happend).
    split; reflexivity.
Qed.

Lemma session_after_message_fields now mode confidence s :
  current_mode (session_after_message now mode confidence s) = mode
  /\ mode_confidence (session_after_message now mode confidence s) = confidence
  /\ message_count (session_after_message now mode confidence s) = message_count s + 1
  /\ last_activity (session_after_message now mode confidence s) = now
  /\ user_id (session_after_message now mode confidence s) = user_id s
  /\ username (session_after_message now mode confidence s) = username s
  /\ created_at (session_after_message now mode confidence s) = created_at s
  /\ cache_metrics (session_after_message now mode confidence s) = cache_metrics s.
Proof.
  unfold session_after_message, session_after_detection. cbv zeta.
  destruct (String.eqb_spec mode (current_mode s)) as [-> | Hne]; cbn [negb];
    match goal with |- context [if ?c then _ else _] => destruct c end;
    cbn; repeat split; reflexivity.
Qed.

(** A call of [_handle_user_message] that returns, followed through the
    session table and the pending table. *)
Lemma handle_user_message_track now uuid message (st st' : UserSessionActor System) reply :
  _handle_user_message now uuid message st = (st', Return reply) ->
  exists uid text chat_id before detected,
    dict_get "user_id" (payload message) = Some (VStr uid)
    /\ dict_get "text" (payload message) = Some text
    /\ dict_get "chat_id" (payload message) = Some chat_id
    /\ match _sessions st !! uid with
       | Some s => before = s
       | None => exists uname,
                   get_default (payload message) "username" VNone = value_of_option uname
                   /\ before = fresh_session now uid uname
       end
    /\ _determine_generation_mode text before = Return detected
    /\ _sessions st'
       = <[uid := session_after_message now detected.1.1 detected.1.2 before]> (_sessions st)
    /\ _pending_requests st'
       = dict_set uuid
           (new_pending now (VStr uid) chat_id text
              (_should_include_prompt
                 (session_after_message now detected.1.1 detected.1.2 before))
              (session_after_message now detected.1.1 detected.1.2 before))
           (_pending_requests st)
    /\ appended st'
       = appended st
         ++ match _sessions st !! uid with
            | Some _ => []
            | None => [session_created_event now uid
                         (get_default (payload message) "username" VNone)]
            end
         ++ (if negb (String.eqb detected.1.1 (current_mode before))
             then [mode_detected_event now uid (VStr uid) detected.1.1 detected.1.2
                     (previous_mode
                        (session_after_detection now detected.1.1 detected.1.2 before))
                     match detected.2 with
                     | Some d => d
                     | None => _last_detection_details st
                     end]
             else [])
         ++ (if _should_include_prompt
                  (session_after_message now detected.1.1 detected.1.2 before)
             then [prompt_inclusion_event uid (VStr uid)
                     (session_after_message now detected.1.1 detected.1.2 before)]
             else []).
Proof.
  unfold _handle_user_message. intros H. cbv zeta in H.
  apply act_bind_Return in H as (user_id & s0 & Huser & H).
  apply act_lift_Return in Huser as [-> Huser]. apply subscript_Return in Huser.
  apply act_bind_Return in H as (text & s0 & Htext & H).
  apply act_lift_Return in Htext as [-> Htext]. apply subscript_Return in Htext.
  apply act_bind_Return in H as (chat_id & s0 & Hchat & H).
  apply act_lift_Return in Hchat as [-> Hchat]. apply subscript_Return in Hchat.
  apply act_bind_Return in H as (uid & s1 & Hcreate & H).
  pose proof (get_or_create_interface _ _ _ _ _ _ Hcreate) as (_ & Hp1 & _).
  apply get_or_create_track in Hcreate as (-> & before & Hs1 & Hbefore & Hd1 & Ha1).
  apply act_bind_Return in H as (st1 & s2 & Hget & H).
  apply act_get_Return in Hget as [-> ->].
  apply act_bind_Return in H as (u2 & s2 & Hstore & H).
  pose proof (send_if_system_events _ _ _ _ _ Hstore) as [Ha2 Hd2].
  apply send_if_system_frame in Hstore as (Hp2 & _ & Hs2 & _).
  apply act_bind_Return in H as (u3 & s3 & Hmode & H).
  pose proof (update_mode_interface _ _ _ _ _ _ _ Hmode) as (_ & Hp3 & _).
  rewrite <- Hs2 in Hs1.
  destruct (update_mode_track _ _ _ _ _ _ _ _ _ Hmode Hs1)
    as (detected & Hdetect & Hs3 & Hd3 & Ha3).
  apply act_bind_Return in H as (u4 & s4 & Htouch & H).
  pose proof (touch_session_events _ _ _ _ _ Htouch) as [Ha4 Hd4].
  pose proof (touch_session_interface _ _ _ _ _ Htouch) as (_ & Hp4 & _).
  pose proof (touch_session_track _ _ _ _ _ _ _ Htouch Hs3) as Hs4.
  change (with_last_activity now
            (with_message_count
               (message_count (session_after_detection now detected.1.1 detected.1.2 before) + 1)
               (session_after_detection now detected.1.1 detected.1.2 before)))
    with (session_after_message now detected.1.1 detected.1.2 before) in Hs4.
  apply act_bind_Return in H as (session & s5 & Hsession & H).
  apply the_session_Return in Hsession as [-> Hsession].
  rewrite Hs4, lookup_insert_eq in Hsession. injection Hsession as <-.
  apply act_bind_Return in H as (u5 & s5 & Hprompt & H).
  assert (H5 : same_sessions s4 s5 /\ same_interface s4 s5).
  { split.
    - eapply (keeps_when same_sessions); [| exact Hprompt]. apply append_event_sessions.
    - eapply (keeps_when same_interface); [| exact Hprompt]. apply append_event_interface. }
  destruct H5 as [Hs5 (_ & Hp5 & _)].
  assert (Ha5 : appended s5
                = appended s4
                  ++ (if _should_include_prompt
                           (session_after_message now detected.1.1 detected.1.2 before)
                      then [prompt_inclusion_event uid (VStr uid)
                              (session_after_message now detected.1.1 detected.1.2 before)]
                      else [])).
  { revert Hprompt.
    destruct (_should_include_prompt
                (session_after_message now detected.1.1 detected.1.2 before));
      cbn [act_when]; intros Hprompt.
    - exact (append_event_Return _ _ _ _ Hprompt).
    - apply act_ret_Return in Hprompt as [-> _]. symmetry. apply app_nil_r. }
  apply act_bind_Return in H as (u6 & s6 & Hreg & H).
  unfold act_modify in Hreg. injection Hreg as <-.
  apply act_bind_Return in H as (st6 & s7 & Hget & H).
  apply act_get_Return in Hget as [-> ->].
  apply act_bind_Return in H as (u7 & s7 & Hsend & H).
  pose proof (system_send_sessions _ _ _ _ _ Hsend) as Hs7.
  pose proof (system_send_events _ _ _ _ _ Hsend) as [Ha7 _].
  apply system_send_Return in Hsend as (_ & _ & Hp7 & _).
  apply act_bind_Return in H as (u8 & s8 & Hlog & H).
  unfold log, act_modify in Hlog. injection Hlog as <-.
  apply act_ret_Return in H as [-> _].
  exists uid, text, chat_id, before, detected.
  split; [exact Huser |]. split; [exact Htext |]. split; [exact Hchat |].
  split; [exact Hbefore |]. split; [exact Hdetect |]. split; [| split].
  - cbn [_sessions with_logged]. unfold same_sessions in Hs7, Hs5.
    cbn [_sessions with_pending] in Hs7. rewrite Hs7, Hs5, Hs4. reflexivity.
  - cbn [_pending_requests with_logged]. rewrite Hp7. cbn [_pending_requests with_pending].
    f_equal. congruence.
  - cbn [appended with_logged]. rewrite Ha7. cbn [appended with_pending].
    rewrite Ha5, Ha4, Ha3, Ha2, Ha1, Hd2, Hd1. rewrite <- !app_assoc. reflexivity.
Qed.

(** X10. What a processed user message leaves behind.  When [handle_message]
    returns for a [USER_MESSAGE], the sender's session (the one it had, or a
    new one with the defaults) has the detected mode as [current_mode] and
    the detected confidence as [mode_confidence], its [message_count] is one
    more than before and its [last_activity] is the time of the call; the
    sessions of the other users are as they were.  The pending entry stored
    under the new id carries that mode, that confidence and the new count,
    and the prompt decision taken on the updated session. *)
Theorem processed_message_updates_its_session
    (now : Z) (uuid : string) (message : ActorMessage)
    (st st' : UserSessionActor System) (reply : option ActorMessage) :
  message_type message = MESSAGE_TYPES USER_MESSAGE ->
  handle_message now uuid message st = (st', Return reply) ->
  exists uid text before detected after entry,
    dict_get "user_id" (payload message) = Some (VStr uid)
    /\ dict_get "text" (payload message) = Some text
    /\ match _sessions st !! uid with
       | Some s => before = s
       | None => exists uname,
                   get_default (payload message) "username" VNone = value_of_option uname
                   /\ before = fresh_session now uid uname
       end
    /\ _determine_generation_mode text before = Return detected
    /\ _sessions st' = <[uid := after]> (_sessions st)
    /\ current_mode after = detected.1.1
    /\ mode_confidence after = detected.1.2
    /\ message_count after = message_count before + 1
    /\ last_activity after = now
    /\ dict_get uuid (_pending_requests st') = Some entry
    /\ pending_mode entry = detected.1.1
    /\ pending_mode_confidence entry = detected.1.2
    /\ pending_message_count entry = message_count before + 1
    /\ pending_include_prompt entry = _should_include_prompt after.
Proof.
  intros Htype Hrun.
  apply (handle_message_user now uuid message st st' reply Htype) in Hrun as [Hrun _].
  apply handle_user_message_track in Hrun
    as (uid & text & chat_id & before & detected & Huser & Htext & _ & Hbefore & Hdetect
        & Hsessions & Hpending & _).
  destruct (session_after_message_fields now detected.1.1 detected.1.2 before)
    as (Hmode & Hconf & Hcount & Hlast & _).
  exists uid, text, before, detected,
    (session_after_message now detected.1.1 detected.1.2 before),
    (new_pending now (VStr uid) chat_id text
       (_should_include_prompt (session_after_message now detected.1.1 detected.1.2 before))
       (session_after_message now detected.1.1 detected.1.2 before)).
  repeat (split; [assumption |]).
  split; [rewrite Hpending; apply dict_get_set_eq |].
  cbn [pending_mode pending_mode_confidence pending_message_count pending_include_prompt
       new_pending].
  repeat split; assumption.
Qed.

Lemma detection_without_debug_schedules_nothing
    (config : ModeDetectionConfig) (str_lower : string -> string) (math_log : nat -> float)
    (clock : Z) (text : Value) (session : UserSession) (d : Detection) :
  determine_generation_mode config str_lower math_log false clock text session = Return d ->
  debug_event d = None.
Proof.
  unfold determine_generation_mode.
  destruct (negb (truthy text)); [intros [= <-]; reflexivity |].
  destruct (py_len text) as [n | e]; [| discriminate].
  destruct (n <? min_text_length config); [intros [= <-]; reflexivity |].
  destruct text; try discriminate. intros [= <-].
  unfold detect. cbv zeta. cbn [debug_event]. rewrite andb_false_r. reflexivity.
Qed.

(** X20. The events of a processed user message, when the logger is not
    enabled for DEBUG.  With [_determine_generation_mode] the function of
    the source and DEBUG off, the detection schedules no [PatternDebugEvent],
    and when [handle_message] returns for a [USER_MESSAGE] the events handed
    to the version manager are, in this order and after the earlier ones: a
    [SessionCreatedEvent] exactly when the sender had no session; a
    [ModeDetectedEvent] exactly when the detected mode differs from the
    session's current one, carrying as [previous_mode] the last entry the
    mode history had before the call ([None] for an empty history) and the
    details the detection stored; a [PromptInclusionEvent] exactly when the
    prompt decision on the updated session is positive. *)
Theorem processed_message_appends_its_events
    (config : ModeDetectionConfig) (str_lower : string -> string) (math_log : nat -> float)
    (debug_enabled : bool)
    (now : Z) (uuid : string) (message : ActorMessage)
    (st st' : UserSessionActor System) (reply : option ActorMessage) :
  (forall text session,
     _determine_generation_mode text session
     = detection_outcome
         (determine_generation_mode config str_lower math_log debug_enabled now
            text session)) ->
  debug_enabled = false ->
  message_type message = MESSAGE_TYPES USER_MESSAGE ->
  handle_message now uuid message st = (st', Return reply) ->
  exists uid text before d,
    dict_get "user_id" (payload message) = Some (VStr uid)
    /\ dict_get "text" (payload message) = Some text
    /\ match _sessions st !! uid with
       | Some s => before = s
       | None => exists uname,
                   get_default (payload message) "username" VNone = value_of_option uname
                   /\ before = fresh_session now uid uname
       end
    /\ determine_generation_mode config str_lower math_log debug_enabled now text before
       = Return d
    /\ debug_event d = None
    /\ appended st'
       = appended st
         ++ match _sessions st !! uid with
            | Some _ => []
            | None => [session_created_event now uid
                         (get_default (payload message) "username" VNone)]
            end
         ++ (if String.eqb (detected_mode d) (current_mode before)
             then []
             else [mode_detected_event now uid (VStr uid) (detected_mode d) (confidence d)
                     (value_of_option (last (mode_history before)))
                     match detection_details d with
                     | Some details => details
                     | None => _last_detection_details st
                     end])
         ++ (if _should_include_prompt
                  (session_after_message now (detected_mode d) (confidence d) before)
             then [prompt_inclusion_event uid (VStr uid)
                     (session_after_message now (detected_mode d) (confidence d) before)]
             else []).
Proof.
  intros Hsource -> Htype Hrun.
  apply (handle_message_user now uuid message st st' reply Htype) in Hrun as [Hrun _].
  apply handle_user_message_track in Hrun
    as (uid & text & chat_id & before & detected & Huser & Htext & _ & Hbefore & Hdetect
        & _ & _ & Hevents).
  rewrite Hsource in Hdetect.
  destruct (determine_generation_mode config str_lower math_log false now text before)
    as [d | e] eqn:Hd; [| discriminate].
  injection Hdetect as <-.
  exists uid, text, before, d.
  repeat (split; [assumption |]).
  split; [exact (detection_without_debug_schedules_nothing _ _ _ _ _ _ _ Hd) |].
  rewrite Hevents, previous_mode_after_detection.
  cbn [detection_result fst snd].
  destruct (String.eqb (detected_mode d) (current_mode before)); reflexivity.
Qed.

End Sessions.

(** The first message of a user, whose text has a pattern of the expert
    mode, on an actor with the detection of [small_config]: the session is
    new, the mode changes from the default and the first message includes
    the prompt, so the three events are appended and no debug event is
    scheduled. *)
Lemma processed_message_appends_its_events_witness :
  exists d,
    small_detect (VStr "define it") (fresh_session 100 "u1" (Some "TestUser")) = Return d
    /\ detected_mode d = "expert"
    /\ debug_event d = None
    /\ appended
         (state_after
            (@handle_message ActorSystem small_collaborators 100 "id-1"
               (user_message "u1" "define it") (attached three_actors)))
       = [session_created_event (C := small_collaborators) 100 "u1" (VStr "TestUser");
          mode_detected_event (C := small_collaborators) 100 "u1" (VStr "u1") "expert"
            (confidence d) VNone (default VNone (detection_details d));
          prompt_inclusion_event (C := small_collaborators) "u1" (VStr "u1")
            (session_after_message 100 "expert" (confidence d)
               (fresh_session 100 "u1" (Some "TestUser")))].
Proof.
  destruct (@handle_message ActorSystem small_collaborators 100 "id-1"
              (user_message "u1" "define it") (attached three_actors)) as [st' r] eqn:Hrun.
  assert (Hr : r = Return None).
  { apply (f_equal snd) in Hrun. vm_compute in Hrun. symmetry. exact Hrun. }
  subst r.
  destruct (@processed_message_appends_its_events ActorSystem small_collaborators
              small_config lower (fun _ => 0%float) false 100 "id-1"
              (user_message "u1" "define it") (attached three_actors) st' None
              (fun text session => eq_refl) eq_refl eq_refl Hrun)
    as (uid & text & before & d & Huser & Htext & Hbefore & Hdetect & Hdebug & Hevents).
  injection Huser as <-. injection Htext as <-.
  cbn [attached _sessions] in Hbefore, Hevents. rewrite lookup_empty in Hbefore, Hevents.
  destruct Hbefore as (uname & Huname & ->).
  destruct uname as [uname |]; [| discriminate]. injection Huname as <-.
  exists d.
  assert (Hfields : detected_mode d = "expert" /\ exists details, detection_details d = Some details).
  { vm_compute in Hdetect. injection Hdetect as <-. split; [reflexivity | eexists; reflexivity]. }
  destruct Hfields as [Hmode (details & Hdetails)].
  split; [exact Hdetect |]. split; [exact Hmode |]. split; [exact Hdebug |].
  cbn [state_after fst]. rewrite Hevents, Hmode, Hdetails. reflexivity.
Defined.

(** The first message of a user on the registered actor: the session is new,
    counts one message and is in the mode the text names. *)
Lemma processed_message_updates_its_session_witness :
  exists after entry,
    _sessions registered_with_request !! "u1" = Some after
    /\ current_mode after = "expert"
    /\ message_count after = 1
    /\ last_activity after = 100
    /\ dict_get "id-1" (_pending_requests registered_with_request) = Some entry
    /\ pending_mode entry = "expert"
    /\ pending_message_count entry = 1.
Proof.
  assert (Hrun : @handle_message ActorSystem plain_collaborators 100 "id-1"
                   (user_message "u1" "expert") (attached three_actors)
                 = (registered_with_request, Return None)) by (vm_compute; reflexivity).
  destruct (@processed_message_updates_its_session ActorSystem plain_collaborators 100 "id-1"
              (user_message "u1" "expert") (attached three_actors) registered_with_request None
              eq_refl Hrun)
    as (uid & text & before & detected & after & entry & Huser & Htext & Hbefore & Hdetect
        & Hsessions & Hmode & _ & Hcount & Hlast & Hentry & Hpmode & _ & Hpcount & _).
  injection Huser as <-. injection Htext as <-.
  cbn [attached _sessions] in Hbefore. rewrite lookup_empty in Hbefore.
  destruct Hbefore as (uname & _ & ->).
  injection Hdetect as <-.
  exists after, entry.
  split; [rewrite Hsessions; apply lookup_insert_eq |].
  repeat split; assumption.
Defined.

(** ** Cache metrics, session creation and the size validators *)

Section Bookkeeping.
Context {System : Type} {C : Collaborators System}.

Lemma truthy_string uid : uid <> "" -> negb (truthy (VStr uid)) = false.
Proof.
  intros Hne. simpl. destruct (String.eqb_spec uid ""); [contradiction | reflexivity].
Qed.

(** X11. A [CACHE_HIT_METRIC] for a user without session (or without a usable
    [user_id]) does nothing and creates no session.  For a user with a
    session the rate, whatever value the payload holds (0.0 when it holds
    none), is appended in place, without validation; only when the list then
    has more than 20 entries is it assigned back, cut to its last 20, and
    only that assignment is validated: if the validation refuses the list,
    the call raises and the session keeps the longer list.  When the
    coercion keeps the length of the list, a session with at most 20 metrics
    has at most 20 after a call that returns. *)
Theorem cache_metric_is_appended_then_trimmed
    (message : ActorMessage) (st : UserSessionActor System) :
  (match get_default (payload message) "user_id" VNone with
   | VStr uid => uid = "" \/ _sessions st !! uid = None
   | VList (_ :: _) | VDict (_ :: _) => False
   | _ => True
   end ->
   _update_cache_metrics message st = (st, Return tt))
  /\ (forall uid s,
        dict_get "user_id" (payload message) = Some (VStr uid) ->
        uid <> "" ->
        _sessions st !! uid = Some s ->
        if 20 <? Z.of_nat (length (cache_metrics s ++
                   [get_default (payload message) "cache_hit_rate" (VFloat 0.0%float)]))
        then
          match pydantic_float_list
                  (lastn 20 (cache_metrics s ++
                     [get_default (payload message) "cache_hit_rate" (VFloat 0.0%float)])) with
          | Return coerced =>
              _update_cache_metrics message st
              = (with_sessions
                   (<[uid := with_cache_metrics
                               (lastn (Z.to_nat PYDANTIC_CACHE_METRICS_MAX_SIZE) coerced) s]>
                      (_sessions st)) st, Return tt)
          | Raise e =>
              _update_cache_metrics message st
              = (with_sessions
                   (<[uid := cache_metrics_append
                               (get_default (payload message) "cache_hit_rate"
                                  (VFloat 0.0%float)) s]>
                      (_sessions st)) st, Raise e)
          end
        else
          _update_cache_metrics message st
          = (with_sessions
               (<[uid := cache_metrics_append
                           (get_default (payload message) "cache_hit_rate" (VFloat 0.0%float))
                           s]>
                  (_sessions st)) st, Return tt))
  /\ ((forall l l', pydantic_float_list l = Return l' -> length l' = length l) ->
      forall uid s st' s',
        dict_get "user_id" (payload message) = Some (VStr uid) ->
        uid <> "" ->
        _sessions st !! uid = Some s ->
        (length (cache_metrics s) <= 20)%nat ->
        _update_cache_metrics message st = (st', Return tt) ->
        _sessions st' !! uid = Some s' ->
        (length (cache_metrics s') <= 20)%nat).
Proof.
  assert (Hknown : forall uid s,
            dict_get "user_id" (payload message) = Some (VStr uid) ->
            uid <> "" ->
            _sessions st !! uid = Some s ->
            _update_cache_metrics message st
            = act_when (20 <? Z.of_nat (length (cache_metrics s ++
                          [get_default (payload message) "cache_hit_rate" (VFloat 0.0%float)])))
                (act_bind
                   (act_lift (pydantic_float_list
                      (lastn 20 (cache_metrics s ++
                         [get_default (payload message) "cache_hit_rate" (VFloat 0.0%float)]))))
                   (fun coerced => session_setattr uid (Set_cache_metrics coerced)))
                (with_sessions
                   (<[uid := cache_metrics_append
                               (get_default (payload message) "cache_hit_rate"
                                  (VFloat 0.0%float)) s]>
                      (_sessions st)) st)).
  { intros uid s Huid Hne Hs. unfold _update_cache_metrics. cbv zeta.
    replace (get_default (payload message) "user_id" VNone) with (VStr uid)
      by (unfold get_default; rewrite Huid; reflexivity).
    rewrite (truthy_string uid Hne).
    unfold act_bind at 1, act_get. rewrite Hs.
    unfold act_bind at 1. rewrite session_mutate_eq, Hs.
    unfold act_bind at 1, the_session. cbn [_sessions with_sessions].
    rewrite lookup_insert_eq. reflexivity. }
  split; [| split].
  - unfold _update_cache_metrics. cbv zeta.
    destruct (get_default (payload message) "user_id" VNone) as [| b | z | f | uid | t | l | d];
      try reflexivity.
    + destruct b; reflexivity.
    + simpl. destruct (Z.eqb z 0); reflexivity.
    + simpl. destruct (PrimFloat.eqb f 0%float); reflexivity.
    + intros [-> | Hnone]; [reflexivity |].
      destruct (negb (truthy (VStr uid))); [reflexivity |].
      unfold act_bind, act_get. rewrite Hnone. reflexivity.
    + destruct l; [reflexivity | contradiction].
    + destruct d; [reflexivity | contradiction].
  - intros uid s Huid Hne Hs. rewrite (Hknown uid s Huid Hne Hs).
    destruct (20 <? _); cbn [act_when]; [| reflexivity].
    unfold act_bind, act_lift.
    destruct (pydantic_float_list _) as [coerced | e]; [| reflexivity].
    rewrite session_setattr_eq. cbn [_sessions with_sessions]. rewrite lookup_insert_eq.
    cbn [UserSession_setattr]. unfold outcome_bind, run_validator, validate_cache_metrics_size.
    destruct (Z.ltb_spec PYDANTIC_CACHE_METRICS_MAX_SIZE (Z.of_nat (length coerced)))
      as [Hbig | Hsmall]; cbn [_sessions with_sessions]; rewrite insert_insert_eq.
    + reflexivity.
    + rewrite lastn_all by lia. reflexivity.
  - intros Hlen uid s st' s' Huid Hne Hs Hbound. rewrite (Hknown uid s Huid Hne Hs).
    destruct (Z.ltb_spec 20 (Z.of_nat (length (cache_metrics s ++
                [get_default (payload message) "cache_hit_rate" (VFloat 0.0%float)]))))
      as [Hlong | Hshort]; cbn [act_when].
    + unfold act_bind, act_lift.
      destruct (pydantic_float_list _) as [coerced | e] eqn:Hco; [| discriminate].
      apply Hlen in Hco. rewrite lastn_length in Hco.
      rewrite session_setattr_eq. cbn [_sessions with_sessions]. rewrite lookup_insert_eq.
      cbn [UserSession_setattr]. unfold outcome_bind, run_validator, validate_cache_metrics_size.
      destruct (PYDANTIC_CACHE_METRICS_MAX_SIZE <? Z.of_nat (length coerced));
        intros [= <-]; cbn [_sessions with_sessions]; rewrite lookup_insert_eq;
        intros [= <-]; cbn [cache_metrics with_cache_metrics]; rewrite ?lastn_length; lia.
    + unfold act_ret. intros [= <-]. cbn [_sessions with_sessions]. rewrite lookup_insert_eq.
      intros [= <-]. cbn [cache_metrics cache_metrics_append with_cache_metrics].
      rewrite length_app in Hshort |- *. simpl in Hshort |- *. lia.
Qed.

(** X12. A session is created once.  For a user without session,
    [_get_or_create_session] stores a session that has the defaults of the
    model ([message_count] 0, mode ['talk'], confidence 0.0, empty history and
    metrics, both timestamps at the time of the call) before it hands the
    [SessionCreatedEvent] to the version manager: the session is there
    whether the event was accepted or the call raised at it.  Every later
    call for this user returns the stored session and changes nothing, so
    the event is never emitted again and a later [username] is ignored. *)
Theorem session_is_created_once
    (now : Z) (uid : string) (uname : option string) (st : UserSessionActor System) :
  _sessions st !! uid = None ->
  exists st1 r,
    _get_or_create_session now (VStr uid) (value_of_option uname) st = (st1, r)
    /\ _sessions st1 = <[uid := fresh_session now uid uname]> (_sessions st)
    /\ ((r = Return uid
         /\ appended st1
            = appended st ++ [session_created_event now uid (value_of_option uname)])
        \/ ((exists e, r = Raise e) /\ appended st1 = appended st))
    /\ forall now' username',
         _get_or_create_session now' (VStr uid) username' st1 = (st1, Return uid).
Proof.
  intros Hnone.
  assert (Hagain : forall st1 : UserSessionActor System,
            _sessions st1 = <[uid := fresh_session now uid uname]> (_sessions st) ->
            forall now' username',
              _get_or_create_session now' (VStr uid) username' st1 = (st1, Return uid)).
  { intros st1 Hs now' username'. unfold _get_or_create_session, act_bind, act_get.
    rewrite Hs, lookup_insert_eq. reflexivity. }
  unfold _get_or_create_session. unfold act_bind at 1, act_get. rewrite Hnone.
  unfold act_bind at 1, create_session.
  assert (Huname : forall k : option string -> Act (UserSessionActor System) unit,
            act_bind (match value_of_option uname with
                      | VNone => act_ret None
                      | VStr u => act_ret (Some u)
                      | _ => act_raise (ValidationError "username")
                      end) k st = k uname st)
    by (intros k; destruct uname; reflexivity).
  rewrite Huname, init_fresh. unfold act_bind at 1, act_lift.
  unfold act_bind at 1, put_session, act_modify.
  change (BaseEvent_create (String.append "user_" uid) "SessionCreatedEvent"
            [("user_id", VStr uid); ("username", value_of_option uname);
             ("created_at", VStr (isoformat (created_at (fresh_session now uid uname))))])
    with (session_created_event now uid (value_of_option uname)).
  unfold act_bind at 1.
  destruct (_append_event (session_created_event now uid (value_of_option uname))
              (with_sessions (<[uid := fresh_session now uid uname]> (_sessions st)) st))
    as [st2 [[] | e]] eqn:Happend.
  - pose proof (append_event_sessions _ _ _ _ Happend) as Hs2.
    apply append_event_Return in Happend.
    unfold log, act_modify, act_ret. eexists _, _. split; [reflexivity |].
    cbn [_sessions appended with_logged]. split; [exact Hs2 |].
    split; [left; split; [reflexivity | exact Happend] |].
    apply Hagain. exact Hs2.
  - pose proof (append_event_sessions _ _ _ _ Happend) as Hs2.
    apply append_event_Raise in Happend as [Happend _].
    eexists _, _. split; [reflexivity |]. split; [exact Hs2 |].
    split; [right; split; [eexists; reflexivity | exact Happend] |].
    apply Hagain. exact Hs2.
Qed.

End Bookkeeping.

(** X13. The two size validators never refuse a list: assigning a list of
    strings to [mode_history] or a list of floats to [cache_metrics], of any
    length, succeeds and stores the last [PYDANTIC_MODE_HISTORY_MAX_SIZE]
    (10) or [PYDANTIC_CACHE_METRICS_MAX_SIZE] (100) entries, and so does the
    constructor.  The bound holds after an assignment only: appending in
    place to a history that was assigned with ten or more entries leaves
    eleven. *)
Theorem size_validators_keep_the_newest_entries
    (s : UserSession) (h : list string) (fs : list float) :
  UserSession_setattr s (Set_mode_history h)
  = Return (with_mode_history (lastn (Z.to_nat PYDANTIC_MODE_HISTORY_MAX_SIZE) h) s)
  /\ UserSession_setattr s (Set_cache_metrics (map VFloat fs))
     = Return (with_cache_metrics
                 (map VFloat (lastn (Z.to_nat PYDANTIC_CACHE_METRICS_MAX_SIZE) fs)) s)
  /\ Z.of_nat (length (lastn (Z.to_nat PYDANTIC_MODE_HISTORY_MAX_SIZE) h))
     <= PYDANTIC_MODE_HISTORY_MAX_SIZE
  /\ Z.of_nat (length (lastn (Z.to_nat PYDANTIC_CACHE_METRICS_MAX_SIZE) fs))
     <= PYDANTIC_CACHE_METRICS_MAX_SIZE
  /\ (forall now args s',
        arg_mode_history args = Some h -> arg_cache_metrics args = Some (map VFloat fs) ->
        UserSession_init now args = Return s' ->
        mode_history s' = lastn (Z.to_nat PYDANTIC_MODE_HISTORY_MAX_SIZE) h
        /\ cache_metrics s'
           = map VFloat (lastn (Z.to_nat PYDANTIC_CACHE_METRICS_MAX_SIZE) fs))
  /\ (forall x s',
        PYDANTIC_MODE_HISTORY_MAX_SIZE <= Z.of_nat (length h) ->
        UserSession_setattr s (Set_mode_history h) = Return s' ->
        Z.of_nat (length (mode_history (mode_history_append x s')))
        = PYDANTIC_MODE_HISTORY_MAX_SIZE + 1).
Proof.
  assert (Hmap : map VFloat (lastn (Z.to_nat PYDANTIC_CACHE_METRICS_MAX_SIZE) fs)
                 = lastn (Z.to_nat PYDANTIC_CACHE_METRICS_MAX_SIZE) (map VFloat fs)).
  { unfold lastn. rewrite List.length_map. symmetry. apply skipn_map. }
  rewrite Hmap.
  replace (length (lastn (Z.to_nat PYDANTIC_CACHE_METRICS_MAX_SIZE) fs))
    with (length (lastn (Z.to_nat PYDANTIC_CACHE_METRICS_MAX_SIZE) (map VFloat fs)))
    by (rewrite <- Hmap; apply List.length_map).
  generalize (map VFloat fs). clear Hmap fs. intros m.
  assert (Hh : validate_mode_history_size h
               = Return (lastn (Z.to_nat PYDANTIC_MODE_HISTORY_MAX_SIZE) h)).
  { unfold validate_mode_history_size.
    destruct (Z.ltb_spec PYDANTIC_MODE_HISTORY_MAX_SIZE (Z.of_nat (length h))); [reflexivity |].
    rewrite lastn_all by lia. reflexivity. }
  assert (Hm : validate_cache_metrics_size m
               = Return (lastn (Z.to_nat PYDANTIC_CACHE_METRICS_MAX_SIZE) m)).
  { unfold validate_cache_metrics_size.
    destruct (Z.ltb_spec PYDANTIC_CACHE_METRICS_MAX_SIZE (Z.of_nat (length m))); [reflexivity |].
    rewrite lastn_all by lia. reflexivity. }
  assert (Hset : UserSession_setattr s (Set_mode_history h)
                 = Return (with_mode_history (lastn (Z.to_nat PYDANTIC_MODE_HISTORY_MAX_SIZE) h) s)).
  { cbn [UserSession_setattr]. unfold run_validator. rewrite Hh. reflexivity. }
  split; [exact Hset |]. split.
  { cbn [UserSession_setattr]. unfold run_validator. rewrite Hm. reflexivity. }
  split; [rewrite lastn_length; unfold PYDANTIC_MODE_HISTORY_MAX_SIZE; lia |].
  split; [rewrite lastn_length; unfold PYDANTIC_CACHE_METRICS_MAX_SIZE; lia |]. split.
  - intros now args s' Hah Ham. unfold UserSession_init, outcome_bind.
    rewrite Hah, Ham. unfold field_value at 1, run_validator. rewrite Hm.
    destruct (field_value "current_mode" _ _ _); [| discriminate].
    destruct (field_value "mode_confidence" _ _ _); [| discriminate].
    unfold field_value, run_validator. rewrite Hh. intros [= <-]. split; reflexivity.
  - intros x s' Hlong. rewrite Hset. intros [= <-].
    cbn [mode_history mode_history_append with_mode_history].
    rewrite length_app, lastn_length. simpl length. unfold PYDANTIC_MODE_HISTORY_MAX_SIZE in *. lia.
Qed.

(** A metric for a user without session, the twenty-first metric of a user,
    and a metric that is no number. *)
Lemma cache_metric_is_appended_then_trimmed_witness :
  @_update_cache_metrics ActorSystem plain_collaborators
    (ActorMessage_create "generation" (MESSAGE_TYPES CACHE_HIT_METRIC)
       [("user_id", VStr "nobody"); ("cache_hit_rate", VFloat 0.5%float)] None)
    registered_with_request
  = (registered_with_request, Return tt)
  /\ (exists st' s',
        @_update_cache_metrics ActorSystem plain_collaborators
          (ActorMessage_create "generation" (MESSAGE_TYPES CACHE_HIT_METRIC)
             [("user_id", VStr "u1"); ("cache_hit_rate", VStr "high")] None)
          registered_with_request = (st', Return tt)
        /\ _sessions st' !! "u1" = Some s'
        /\ cache_metrics s' = [VStr "high"]).
Proof.
  destruct (@cache_metric_is_appended_then_trimmed ActorSystem plain_collaborators
              (ActorMessage_create "generation" (MESSAGE_TYPES CACHE_HIT_METRIC)
                 [("user_id", VStr "nobody"); ("cache_hit_rate", VFloat 0.5%float)] None)
              registered_with_request) as (Hnobody & _ & _).
  destruct (@cache_metric_is_appended_then_trimmed ActorSystem plain_collaborators
              (ActorMessage_create "generation" (MESSAGE_TYPES CACHE_HIT_METRIC)
                 [("user_id", VStr "u1"); ("cache_hit_rate", VStr "high")] None)
              registered_with_request) as (_ & Hknown & _).
  split.
  - apply Hnobody. right. vm_compute. reflexivity.
  - assert (Hs : exists s, _sessions registered_with_request !! "u1" = Some s
                           /\ cache_metrics s = []).
    { assert (Hb : match _sessions registered_with_request !! "u1" with
                   | Some s => match cache_metrics s with [] => true | _ => false end
                   | None => false
                   end = true) by (vm_compute; reflexivity).
      destruct (_sessions registered_with_request !! "u1") as [s |]; [| discriminate].
      exists s. split; [reflexivity |]. destruct (cache_metrics s); [reflexivity | discriminate]. }
    destruct Hs as (s & Hs & Hempty).
    specialize (Hknown "u1" s eq_refl ltac:(discriminate) Hs).
    rewrite Hempty in Hknown. cbn in Hknown.
    eexists _, _. split; [exact Hknown |]. cbn [_sessions with_sessions].
    split; [apply lookup_insert_eq |].
    cbn. rewrite Hempty. reflexivity.
Defined.

(** A first lookup on a new actor creates the session; the second finds it. *)
Lemma session_is_created_once_witness :
  exists st1,
    @_get_or_create_session ActorSystem plain_collaborators 100 (VStr "u1") (VStr "TestUser")
      (UserSessionActor_new ActorSystem) = (st1, Return "u1")
    /\ _sessions st1 !! "u1" = Some (fresh_session 100 "u1" (Some "TestUser"))
    /\ map event_type (appended st1) = ["SessionCreatedEvent"]
    /\ @_get_or_create_session ActorSystem plain_collaborators 200 (VStr "u1") VNone st1
       = (st1, Return "u1").
Proof.
  destruct (@session_is_created_once ActorSystem plain_collaborators 100 "u1" (Some "TestUser")
              (UserSessionActor_new ActorSystem) (lookup_empty _))
    as (st1 & r & Hrun & Hs & Hr & Hagain).
  exists st1.
  assert (Hret : r = Return "u1").
  { assert (Hc : (@_get_or_create_session ActorSystem plain_collaborators 100 (VStr "u1")
                    (VStr "TestUser") (UserSessionActor_new ActorSystem)).2 = Return "u1")
      by (vm_compute; reflexivity).
    cbn [value_of_option] in Hrun. rewrite Hrun in Hc. exact Hc. }
  subst r. split; [exact Hrun |]. split; [rewrite Hs; apply lookup_insert_eq |]. split.
  - destruct Hr as [[_ Happ] | [[e He] _]]; [| discriminate].
    rewrite Happ. reflexivity.
  - apply Hagain.
Defined.

(** Twelve modes assigned at once, and one appended in place; three metrics
    assigned at once. *)
Lemma size_validators_keep_the_newest_entries_witness :
  let twelve := ["talk"; "talk"; "expert"; "expert"; "creative"; "talk"; "expert"; "talk";
                 "talk"; "creative"; "expert"; "base"] in
  UserSession_setattr (fresh_session 0 "u1" None) (Set_mode_history twelve)
  = Return (with_mode_history
              ["expert"; "expert"; "creative"; "talk"; "expert"; "talk"; "talk"; "creative";
               "expert"; "base"] (fresh_session 0 "u1" None))
  /\ UserSession_setattr (fresh_session 0 "u1" None)
       (Set_cache_metrics [VFloat 0.5; VFloat 0.25; VFloat 1])
     = Return (with_cache_metrics [VFloat 0.5; VFloat 0.25; VFloat 1]
                 (fresh_session 0 "u1" None))
  /\ Z.of_nat (length (mode_history
       (mode_history_append "talk"
          (with_mode_history (lastn 10 twelve) (fresh_session 0 "u1" None))))) = 11.
Proof.
  cbv zeta.
  destruct (size_validators_keep_the_newest_entries (fresh_session 0 "u1" None)
              ["talk"; "talk"; "expert"; "expert"; "creative"; "talk"; "expert"; "talk";
               "talk"; "creative"; "expert"; "base"] [0.5; 0.25; 1]%float)
    as (Hset & Hmetrics & _ & _ & _ & Happend).
  split; [exact Hset |]. split; [exact Hmetrics |].
  apply (Happend "talk"); [vm_compute; discriminate | exact Hset].
Defined.

(** ** The prompt policy *)

Section PromptPolicyProperties.
Variable config : PromptConfig.
Variable mean_of_five : list Value -> result float PolicyError.
Variable format_2f : float -> string.

Lemma should_include_periodic (session : UserSession) :
  cfg_enable_periodic_prompt config = true ->
  cfg_prompt_strategy config = "periodic" ->
  should_include_prompt config mean_of_five session = periodic_due config session.
Proof. intros Hen Hst. unfold should_include_prompt. rewrite Hen, Hst. reflexivity. Qed.

Lemma should_include_adaptive (session : UserSession) :
  cfg_enable_periodic_prompt config = true ->
  cfg_prompt_strategy config = "adaptive" ->
  should_include_prompt config mean_of_five session
  = match periodic_due config session with
    | Error e => Error e
    | Ok true => Ok true
    | Ok false =>
        match low_cache_hit config mean_of_five session with
        | Error e => Error e
        | Ok (Some _) => Ok true
        | Ok None => Ok false
        end
    end.
Proof. intros Hen Hst. unfold should_include_prompt. rewrite Hen, Hst. reflexivity. Qed.

Lemma periodic_due_count (session : UserSession) (count : Z) :
  periodic_due config (with_message_count count session)
  = if Z.eqb (cfg_system_prompt_interval config) 0 then Error ZeroDivisionError
    else Ok (Z.eqb (count mod cfg_system_prompt_interval config) 1).
Proof. reflexivity. Qed.

(** X14. The periodic strategy includes the prompt at the messages whose
    count leaves remainder 1 on division by the interval, so it works for
    intervals of two and more only: then the first message of a session gets
    the prompt, and after a message that got it, the next [interval - 1]
    messages do not and the one after them does.  With an interval of 1 (or
    a negative one) no message ever gets the prompt, the first one
    included, and with an interval of 0 the call raises
    [ZeroDivisionError]. *)
Theorem periodic_prompt_needs_an_interval_above_one (session : UserSession) :
  cfg_enable_periodic_prompt config = true ->
  cfg_prompt_strategy config = "periodic" ->
  (cfg_system_prompt_interval config = 0 ->
   should_include_prompt config mean_of_five session = Error ZeroDivisionError)
  /\ (cfg_system_prompt_interval config = 1 \/ cfg_system_prompt_interval config < 0 ->
      should_include_prompt config mean_of_five session = Ok false)
  /\ (2 <= cfg_system_prompt_interval config ->
      (message_count session = 1 ->
       should_include_prompt config mean_of_five session = Ok true)
      /\ (should_include_prompt config mean_of_five session = Ok true ->
          (forall k, 0 < k < cfg_system_prompt_interval config ->
             should_include_prompt config mean_of_five
               (with_message_count (message_count session + k) session) = Ok false)
          /\ should_include_prompt config mean_of_five
               (with_message_count (message_count session + cfg_system_prompt_interval config)
                  session) = Ok true)).
Proof.
  intros Hen Hst.
  assert (Hany : forall s, should_include_prompt config mean_of_five s = periodic_due config s)
    by (intros s; apply should_include_periodic; assumption).
  rewrite !Hany. unfold periodic_due. cbn [message_count with_message_count].
  split; [| split].
  - intros ->. reflexivity.
  - intros [H1 | Hneg].
    + rewrite H1. cbn [Z.eqb]. rewrite Z.mod_1_r. reflexivity.
    + destruct (Z.eqb_spec (cfg_system_prompt_interval config) 0) as [H0 | _]; [lia |].
      f_equal. apply Z.eqb_neq.
      pose proof (Z.mod_neg_bound (message_count session) (cfg_system_prompt_interval config) Hneg).
      lia.
  - intros Hbig.
    destruct (Z.eqb_spec (cfg_system_prompt_interval config) 0) as [H0 | _]; [lia |].
    split.
    + intros ->. rewrite Z.mod_small by lia. reflexivity.
    + intros Hdue. injection Hdue as Hdue. apply Z.eqb_eq in Hdue. split.
      * intros k Hk. rewrite Hany. unfold periodic_due. cbn [message_count with_message_count].
        destruct (Z.eqb_spec (cfg_system_prompt_interval config) 0) as [H0 | _]; [lia |].
        f_equal. apply Z.eqb_neq.
        rewrite Z.add_mod, Hdue by lia.
        rewrite (Z.mod_small k) by lia.
        destruct (Z.eq_dec (1 + k) (cfg_system_prompt_interval config)) as [Heq | Hne].
        -- rewrite Heq, Z.mod_same by lia. lia.
        -- rewrite Z.mod_small by lia. lia.
      * f_equal. apply Z.eqb_eq.
        rewrite Z.add_mod, Z.mod_same, Z.add_0_r, Z.mod_mod, Hdue by lia. reflexivity.
Qed.

End PromptPolicyProperties.

Section AdaptivePolicy.
Variable config : PromptConfig.
Variable mean_of_five : list Value -> result float PolicyError.
Variable format_2f : float -> string.

(** X15. The adaptive strategy extends the periodic one.  Whenever the
    periodic strategy, with the same interval, includes the prompt, so does
    the adaptive one, and when the periodic one raises on a zero interval so
    does the adaptive one.  For a session with fewer than five cache metrics
    the two agree.  On a message the periodic strategy skips, with five or
    more metrics, the adaptive strategy includes the prompt exactly when the
    mean of the last five metrics is below the threshold. *)
Theorem adaptive_prompt_extends_periodic (session : UserSession) :
  cfg_enable_periodic_prompt config = true ->
  cfg_prompt_strategy config = "adaptive" ->
  (should_include_prompt (with_strategy "periodic" config) mean_of_five session = Ok true ->
   should_include_prompt config mean_of_five session = Ok true)
  /\ (forall e,
        should_include_prompt (with_strategy "periodic" config) mean_of_five session = Error e ->
        should_include_prompt config mean_of_five session = Error e)
  /\ ((length (cache_metrics session) < 5)%nat ->
      should_include_prompt config mean_of_five session
      = should_include_prompt (with_strategy "periodic" config) mean_of_five session)
  /\ (forall avg,
        should_include_prompt (with_strategy "periodic" config) mean_of_five session = Ok false ->
        (5 <= length (cache_metrics session))%nat ->
        mean_of_five (lastn 5 (cache_metrics session)) = Ok avg ->
        should_include_prompt config mean_of_five session
        = Ok (PrimFloat.ltb avg (cfg_cache_hit_threshold config))).
Proof.
  intros Hen Hst.
  rewrite (should_include_adaptive config mean_of_five session Hen Hst).
  rewrite (should_include_periodic (with_strategy "periodic" config) mean_of_five session Hen
             eq_refl).
  change (periodic_due (with_strategy "periodic" config) session)
    with (periodic_due config session).
  split; [| split; [| split]].
  - intros ->. reflexivity.
  - intros e ->. reflexivity.
  - intros Hfew. unfold low_cache_hit.
    destruct (Z.leb_spec 5 (Z.of_nat (length (cache_metrics session)))) as [Hge | _]; [lia |].
    destruct (periodic_due config session) as [[] | e]; reflexivity.
  - intros avg -> Hmany Hmean. unfold low_cache_hit.
    destruct (Z.leb_spec 5 (Z.of_nat (length (cache_metrics session)))) as [_ | Hlt]; [| lia].
    rewrite Hmean. destruct (PrimFloat.ltb avg (cfg_cache_hit_threshold config)); reflexivity.
Qed.

(** X16. The reason logged with an included prompt follows the strategy,
    not the decision.  With periodicity enabled and the prompt included, the
    reason is never ['unknown']; under the adaptive strategy the reason
    ['adaptive_periodic'] is given only at a periodic hit or when the mean of
    the last five metrics is not below the threshold, and the reason can
    raise where the decision did not: at a periodic hit the decision returns
    without reading the metrics, while the reason always reads them when
    there are five.  With periodicity disabled the prompt is always
    included, for any strategy, interval and metrics, and the reason is still
    the strategy's, ['unknown'] for a strategy that is none of the three. *)
Theorem prompt_reason_follows_the_strategy (session : UserSession) :
  (cfg_enable_periodic_prompt config = true ->
   should_include_prompt config mean_of_five session = Ok true ->
   get_prompt_reason config mean_of_five format_2f session <> Ok "unknown"
   /\ (get_prompt_reason config mean_of_five format_2f session = Ok "adaptive_periodic" ->
       cfg_prompt_strategy config = "adaptive"
       /\ (periodic_due config session = Ok true
           \/ low_cache_hit config mean_of_five session = Ok None))
   /\ (forall e,
         get_prompt_reason config mean_of_five format_2f session = Error e ->
         cfg_prompt_strategy config = "adaptive"
         /\ periodic_due config session = Ok true
         /\ low_cache_hit config mean_of_five session = Error e))
  /\ (cfg_enable_periodic_prompt config = false ->
      should_include_prompt config mean_of_five session = Ok true
      /\ (cfg_prompt_strategy config <> "always" ->
          cfg_prompt_strategy config <> "periodic" ->
          cfg_prompt_strategy config <> "adaptive" ->
          get_prompt_reason config mean_of_five format_2f session = Ok "unknown")).
Proof.
  split.
  - intros Hen. unfold should_include_prompt, get_prompt_reason. rewrite Hen. cbv zeta.
    cbn [negb].
    destruct (String.eqb_spec (cfg_prompt_strategy config) "always") as [Ha | Ha].
    { intros _. split; [discriminate |]. split; [discriminate | intros e; discriminate]. }
    destruct (String.eqb_spec (cfg_prompt_strategy config) "periodic") as [Hp | Hp].
    { intros _. split; [intros [= H]; discriminate H |].
      split; [intros [= H]; discriminate H | intros e; discriminate]. }
    destruct (String.eqb_spec (cfg_prompt_strategy config) "adaptive") as [Had | Had];
      [| discriminate].
    intros Hdue.
    destruct (periodic_due config session) as [[] | e0]; [| | discriminate].
    + destruct (low_cache_hit config mean_of_five session) as [[avg |] | e1].
      * split; [intros [= H]; discriminate H |].
        split; [intros [= H]; discriminate H | intros e; discriminate].
      * split; [discriminate |]. split; [| intros e; discriminate].
        intros _. split; [exact Had | left; reflexivity].
      * split; [discriminate |]. split; [discriminate |].
        intros e [= <-]. repeat split. exact Had.
    + destruct (low_cache_hit config mean_of_five session) as [[avg |] | e1];
        [| discriminate | discriminate].
      split; [intros [= H]; discriminate H |].
      split; [intros [= H]; discriminate H | intros e; discriminate].
  - intros Hoff. unfold should_include_prompt, get_prompt_reason. rewrite Hoff.
    split; [reflexivity |]. intros Ha Hp Had. cbv zeta.
    destruct (String.eqb_spec (cfg_prompt_strategy config) "always"); [contradiction |].
    destruct (String.eqb_spec (cfg_prompt_strategy config) "periodic"); [contradiction |].
    destruct (String.eqb_spec (cfg_prompt_strategy config) "adaptive"); [contradiction |].
    reflexivity.
Qed.

End AdaptivePolicy.

(** With an interval of 10 the first and the eleventh message get the
    prompt and the second does not; with an interval of 1 the first message
    does not get it; an interval of 0 raises. *)
Lemma periodic_prompt_needs_an_interval_above_one_witness :
  should_include_prompt (prompt_config "periodic" 10) float_mean_of_five (session_with 1 [])
  = Ok true
  /\ should_include_prompt (prompt_config "periodic" 10) float_mean_of_five (session_with 2 [])
     = Ok false
  /\ should_include_prompt (prompt_config "periodic" 10) float_mean_of_five (session_with 11 [])
     = Ok true
  /\ should_include_prompt (prompt_config "periodic" 1) float_mean_of_five (session_with 1 [])
     = Ok false
  /\ should_include_prompt (prompt_config "periodic" 0) float_mean_of_five (session_with 1 [])
     = Error ZeroDivisionError.
Proof.
  destruct (periodic_prompt_needs_an_interval_above_one (prompt_config "periodic" 10)
              float_mean_of_five (session_with 1 []) eq_refl eq_refl) as (_ & _ & Hten).
  destruct (Hten ltac:(cbn; lia)) as [Hfirst Hnext].
  destruct (Hnext (Hfirst eq_refl)) as [Hskip Hagain].
  destruct (periodic_prompt_needs_an_interval_above_one (prompt_config "periodic" 1)
              float_mean_of_five (session_with 1 []) eq_refl eq_refl) as (_ & Hone & _).
  destruct (periodic_prompt_needs_an_interval_above_one (prompt_config "periodic" 0)
              float_mean_of_five (session_with 1 []) eq_refl eq_refl) as (Hzero & _ & _).
  split; [exact (Hfirst eq_refl) |].
  split; [exact (Hskip 1 ltac:(cbn; lia)) |].
  split; [exact Hagain |].
  split; [apply Hone; left; reflexivity | apply Hzero; reflexivity].
Defined.

(** Five low metrics make the adaptive strategy include the prompt at a
    message the periodic strategy skips. *)
Lemma adaptive_prompt_extends_periodic_witness :
  should_include_prompt (prompt_config "periodic" 10) float_mean_of_five
    (session_with 2 [VFloat 0.25; VFloat 0.25; VFloat 0.25; VFloat 0.25; VFloat 0.25]%float)
  = Ok false
  /\ should_include_prompt (prompt_config "adaptive" 10) float_mean_of_five
       (session_with 2 [VFloat 0.25; VFloat 0.25; VFloat 0.25; VFloat 0.25; VFloat 0.25]%float)
     = Ok true
  /\ should_include_prompt (prompt_config "adaptive" 10) float_mean_of_five
       (session_with 2 [VFloat 0.25]%float)
     = Ok false.
Proof.
  destruct (adaptive_prompt_extends_periodic (prompt_config "adaptive" 10) float_mean_of_five
              (session_with 2 [VFloat 0.25; VFloat 0.25; VFloat 0.25; VFloat 0.25;
                               VFloat 0.25]%float) eq_refl eq_refl)
    as (_ & _ & _ & Hlow).
  destruct (adaptive_prompt_extends_periodic (prompt_config "adaptive" 10) float_mean_of_five
              (session_with 2 [VFloat 0.25]%float) eq_refl eq_refl)
    as (_ & _ & Hfew & _).
  split; [reflexivity |]. split.
  - rewrite (Hlow 0.25%float); [reflexivity | reflexivity | cbn; lia | reflexivity].
  - rewrite Hfew by (cbn; lia). reflexivity.
Defined.

(** At a periodic hit of the adaptive strategy the decision ignores a metric
    that is no number, and the reason raises on it; with periodicity
    disabled an unknown strategy includes the prompt for the reason
    ['unknown']. *)
Lemma prompt_reason_follows_the_strategy_witness :
  should_include_prompt (prompt_config "adaptive" 10) float_mean_of_five
    (session_with 1 [VFloat 0.5; VStr "high"; VFloat 0.5; VFloat 0.5; VFloat 0.5]%float)
  = Ok true
  /\ get_prompt_reason (prompt_config "adaptive" 10) float_mean_of_five (fun _ => "0.50")
       (session_with 1 [VFloat 0.5; VStr "high"; VFloat 0.5; VFloat 0.5; VFloat 0.5]%float)
     = Error SumTypeError
  /\ should_include_prompt
       {| cfg_prompt_strategy := "sometimes"; cfg_enable_periodic_prompt := false;
          cfg_system_prompt_interval := 0; cfg_cache_hit_threshold := 0.5%float |}
       float_mean_of_five (session_with 1 []) = Ok true
  /\ get_prompt_reason
       {| cfg_prompt_strategy := "sometimes"; cfg_enable_periodic_prompt := false;
          cfg_system_prompt_interval := 0; cfg_cache_hit_threshold := 0.5%float |}
       float_mean_of_five (fun _ => "0.50") (session_with 1 []) = Ok "unknown".
Proof.
  destruct (prompt_reason_follows_the_strategy
              {| cfg_prompt_strategy := "sometimes"; cfg_enable_periodic_prompt := false;
                 cfg_system_prompt_interval := 0; cfg_cache_hit_threshold := 0.5%float |}
              float_mean_of_five (fun _ => "0.50") (session_with 1 []))
    as [_ Hoff].
  destruct (Hoff eq_refl) as [Hyes Hunknown].
  split; [reflexivity |]. split; [reflexivity |]. split; [exact Hyes |].
  apply Hunknown; discriminate.
Defined.

(** ** The mode detection *)

Lemma py_min_cap (x : float) : PrimFloat.ltb 1%float (py_min x 1%float) = false.
Proof.
  unfold py_min. destruct (PrimFloat.ltb 1%float x) eqn:Hx; [reflexivity | exact Hx].
Qed.

Lemma mode_name_scored (m : ScoredMode) : In (mode_name m) ["expert"; "creative"; "talk"].
Proof. destruct m; simpl; auto. Qed.

Lemma mode_name_valid (m : ScoredMode) : In (mode_name m) valid_modes.
Proof. destruct m; simpl; auto. Qed.

Lemma fold_left_unchanged {A B} (f : A -> B -> A) (l : list B) (acc : A) :
  (forall x, In x l -> f acc x = acc) -> fold_left f l acc = acc.
Proof.
  induction l as [| x l IH]; intros Hf; [reflexivity |].
  simpl. rewrite (Hf x (or_introl eq_refl)). apply IH.
  intros y Hy. apply Hf. right. exact Hy.
Qed.

Lemma filter_none {A} (f : A -> bool) (l : list A) :
  (forall x, In x l -> f x = false) -> List.filter f l = [].
Proof.
  induction l as [| x l IH]; intros Hf; [reflexivity |].
  simpl. rewrite (Hf x (or_introl eq_refl)). apply IH.
  intros y Hy. apply Hf. right. exact Hy.
Qed.

Lemma dict_get_In {V} (k : string) (v : V) (d : list (string * V)) :
  dict_get k d = Some v -> In (k, v) d.
Proof.
  induction d as [| [k' v'] d IH]; simpl; [discriminate |].
  destruct (String.eqb_spec k k') as [-> | Hne].
  - intros [= ->]. left. reflexivity.
  - intros H. right. apply IH, H.
Qed.

Section DetectionProperties.
Context {System : Type} {C : Collaborators System}.
Variable config : ModeDetectionConfig.
Variable str_lower : string -> string.
Variable math_log : nat -> float.
Variable debug_enabled : bool.
Variable now : Z.

Abbreviation determine := (determine_generation_mode config str_lower math_log debug_enabled now).

Lemma select_mode_cap (t : Tallies) : PrimFloat.ltb 1%float (select_mode t).2 = false.
Proof.
  unfold select_mode. destruct (score_is_zero (best_mode t).2); [reflexivity |].
  apply py_min_cap.
Qed.

Lemma history_boost_cap history selected (t : Tallies) :
  PrimFloat.ltb 1%float selected.2 = false ->
  PrimFloat.ltb 1%float (history_boost config history selected t).2 = false.
Proof.
  intros Hsel. unfold history_boost.
  destruct (stable_mode history) as [last_mode |]; [| exact Hsel].
  destruct (String.eqb (mode_name selected.1) last_mode); [apply py_min_cap | exact Hsel].
Qed.

(** X17. The detection never proposes a mode the session model would
    refuse, and never a confidence above 1.  A call that returns gives
    ['expert'], ['creative'] or ['talk'], or, at its early return on an
    empty or short text, the session's current mode (['talk'] if that is
    empty), and then stores no details; the confidence is never greater
    than 1.0.  So for a session whose current mode is valid the detected
    mode passes [validate_mode]: assigning it to [current_mode] cannot
    raise. *)
Theorem detected_mode_is_valid_and_confidence_capped
    (text : Value) (session : UserSession) (d : Detection) :
  determine text session = Return d ->
  (In (detected_mode d) ["expert"; "creative"; "talk"]
   \/ (detected_mode d = current_mode session /\ detection_details d = None))
  /\ PrimFloat.ltb 1%float (confidence d) = false
  /\ (In (current_mode session) valid_modes ->
      validate_mode (detected_mode d) = Return (detected_mode d)).
Proof.
  intros Hrun.
  assert (Hearly : forall d0, d0 = early_return session ->
            (In (detected_mode d0) ["expert"; "creative"; "talk"]
             \/ (detected_mode d0 = current_mode session /\ detection_details d0 = None))
            /\ PrimFloat.ltb 1%float (confidence d0) = false).
  { intros d0 ->. split; [| reflexivity]. cbn [detected_mode early_return detection_details].
    destruct (String.eqb (current_mode session) "").
    - left. simpl. auto.
    - right. split; reflexivity. }
  assert (Hdetect : forall t d0, d0 = detect config str_lower math_log debug_enabled now t session ->
            In (detected_mode d0) ["expert"; "creative"; "talk"]
            /\ PrimFloat.ltb 1%float (confidence d0) = false).
  { intros t d0 ->. split.
    - apply mode_name_scored.
    - cbn [confidence detect]. apply history_boost_cap, select_mode_cap. }
  assert (Hmain : (In (detected_mode d) ["expert"; "creative"; "talk"]
                   \/ (detected_mode d = current_mode session /\ detection_details d = None))
                  /\ PrimFloat.ltb 1%float (confidence d) = false).
  { unfold determine_generation_mode in Hrun.
    destruct (negb (truthy text)); [injection Hrun as <-; apply Hearly; reflexivity |].
    destruct (py_len text) as [n | e]; [| discriminate].
    destruct (n <? min_text_length config);
      [injection Hrun as <-; apply Hearly; reflexivity |].
    destruct text; try discriminate. injection Hrun as <-.
    destruct (Hdetect s _ eq_refl) as [Hm Hc]. split; [left; exact Hm | exact Hc]. }
  destruct Hmain as [Hmode Hconf]. split; [exact Hmode |]. split; [exact Hconf |].
  intros Hvalid. unfold validate_mode.
  assert (Hin : In (detected_mode d) valid_modes).
  { destruct Hmode as [Hthree | [-> _]]; [| exact Hvalid].
    simpl in Hthree. simpl. intuition. }
  apply (proj2 (existsb_eqb_In _ _)) in Hin. rewrite Hin. reflexivity.
Qed.

(** *** A text that matches nothing *)

Lemma matches_nothing_parts (text_lower : string) :
  matches_nothing config text_lower = true ->
  (forall name mp p,
     In (name, mp) (contextual_patterns config) -> In p (mode_patterns_tested mp) ->
     contains p text_lower = false)
  /\ (forall p, In p (expert_patterns config) -> contains p text_lower = false)
  /\ (forall p, In p (creative_patterns config) -> contains p text_lower = false)
  /\ (forall p, In p (talk_patterns config) -> contains p text_lower = false)
  /\ (forall p, In p (question_words config) -> contains p text_lower = false).
Proof.
  unfold matches_nothing, tested_patterns. rewrite forallb_forall. intros Hall.
  assert (Hp : forall p, In p (tested_patterns config) -> contains p text_lower = false).
  { intros p Hin. apply negb_true_iff. apply Hall. exact Hin. }
  unfold tested_patterns in Hp.
  split; [| split; [| split; [| split]]].
  - intros name mp p Hmp Hin. apply Hp. apply in_or_app. left.
    apply in_concat. exists (mode_patterns_tested mp). split; [| exact Hin].
    apply in_map_iff. exists (name, mp). split; [reflexivity | exact Hmp].
  - intros p Hin. apply Hp. apply in_or_app. right. apply in_or_app. left. exact Hin.
  - intros p Hin. apply Hp. do 2 (apply in_or_app; right). apply in_or_app. left. exact Hin.
  - intros p Hin. apply Hp. do 3 (apply in_or_app; right). apply in_or_app. left. exact Hin.
  - intros p Hin. apply Hp. do 4 (apply in_or_app; right). exact Hin.
Qed.

Lemma contextual_mode_unmatched (text_lower : string) (acc : Tallies) (mode : ScoredMode) :
  matches_nothing config text_lower = true ->
  contextual_mode_step config math_log text_lower acc mode = acc.
Proof.
  intros Hnone. destruct (matches_nothing_parts text_lower Hnone) as (Hctx & _).
  unfold contextual_mode_step.
  destruct (dict_get (mode_name mode) (contextual_patterns config)) as [mp |] eqn:Hget;
    [| reflexivity].
  apply dict_get_In in Hget.
  assert (Hmp : forall p, In p (mode_patterns_tested mp) -> contains p text_lower = false)
    by (intros p; eapply Hctx; exact Hget).
  unfold mode_patterns_tested in Hmp.
  rewrite (fold_left_unchanged (exact_phrase_step config text_lower mode)).
  2: { intros phrase Hin. unfold exact_phrase_step. rewrite Hmp; [reflexivity |].
       apply in_or_app. left. exact Hin. }
  rewrite (fold_left_unchanged (contextual_word_step config text_lower mode)).
  2: { intros entry Hin. unfold contextual_word_step. cbv zeta. rewrite Hmp; [reflexivity |].
       apply in_or_app. right. apply in_or_app. left. apply in_map. exact Hin. }
  unfold domain_markers_step. cbv zeta.
  rewrite (filter_none (fun marker => contains marker text_lower) (domain_markers mp));
    [reflexivity |].
  intros marker Hin. apply Hmp. do 2 (apply in_or_app; right). exact Hin.
Qed.

Lemma mode_scores_unmatched (text_lower : string) :
  matches_nothing config text_lower = true ->
  contextual_scores config math_log text_lower no_tallies = no_tallies
  /\ mode_scores config math_log text_lower = no_tallies.
Proof.
  intros Hnone.
  assert (Hctx : contextual_scores config math_log text_lower no_tallies = no_tallies).
  { unfold contextual_scores. destruct (contextual_patterns config); [reflexivity |].
    apply fold_left_unchanged. intros mode _. apply contextual_mode_unmatched, Hnone. }
  split; [exact Hctx |].
  destruct (matches_nothing_parts text_lower Hnone) as (_ & He & Hc & Ht & Hq).
  unfold mode_scores. rewrite Hctx. unfold fallback_scores.
  change (all_scores_zero no_tallies) with true. cbv iota.
  rewrite (fold_left_unchanged (simple_pattern_step config text_lower Expert))
    by (intros p Hin; unfold simple_pattern_step; rewrite He by exact Hin; reflexivity).
  rewrite (fold_left_unchanged (simple_pattern_step config text_lower Creative))
    by (intros p Hin; unfold simple_pattern_step; rewrite Hc by exact Hin; reflexivity).
  rewrite (fold_left_unchanged (simple_pattern_step config text_lower Talk))
    by (intros p Hin; unfold simple_pattern_step; rewrite Ht by exact Hin; reflexivity).
  unfold question_scores.
  replace (existsb (fun q => contains q text_lower) (question_words config)) with false;
    [reflexivity |].
  symmetry. apply not_true_iff_false. intros Hex. apply existsb_exists in Hex as (q & Hin & Hq').
  rewrite (Hq q Hin) in Hq'. discriminate.
Qed.

(** X18. A text in which none of the configured patterns occurs is taken as
    talk: for a non-empty text of at least the minimal length, counted in
    characters as [len] does, whose lowered
    form contains no exact phrase, contextual word, domain marker, simple
    pattern or question word, the detection returns ['talk'] with the
    confidence [MODE_CONFIDENCE_THRESHOLD], every score still the integer 0;
    when the last three modes of the session are all ['talk'] the confidence
    is the threshold times the stable-history multiplier, capped at 1.0, and
    ['history_boost'] is noted. *)
Theorem unmatched_text_is_talk_at_the_threshold (text : string) (session : UserSession) :
  text <> "" ->
  min_text_length config <= Z.of_nat (str_len text) ->
  matches_nothing config (str_lower text) = true ->
  exists d,
    determine (VStr text) session = Return d
    /\ detected_mode d = "talk"
    /\ confidence d
       = (if stable_talk (mode_history session)
          then py_min (PrimFloat.mul MODE_CONFIDENCE_THRESHOLD (stable_history_multiplier config))
                 1%float
          else MODE_CONFIDENCE_THRESHOLD)
    /\ detection_details d
       = Some (details_value
                 (if stable_talk (mode_history session)
                  then add_pattern Talk "history_boost" no_tallies
                  else no_tallies)).
Proof.
  intros Hne Hlen Hnone. unfold determine_generation_mode.
  rewrite (truthy_string text Hne). cbn [py_len].
  destruct (Z.ltb_spec (Z.of_nat (str_len text)) (min_text_length config)) as [Hlt | _];
    [lia |].
  eexists. split; [reflexivity |].
  destruct (mode_scores_unmatched (str_lower text) Hnone) as [Hctx Hscores].
  unfold detect. cbv zeta. cbn [detected_mode confidence detection_details].
  rewrite Hscores.
  change (select_mode no_tallies) with (Talk, MODE_CONFIDENCE_THRESHOLD).
  split; [reflexivity |].
  unfold history_boost, stable_talk. cbn [fst snd mode_name].
  destruct (stable_mode (mode_history session)) as [last_mode |]; [| split; reflexivity].
  destruct (String.eqb "talk" last_mode); split; reflexivity.
Qed.

(** *** Suppressed words *)

Lemma same_scores_refl (t : Tallies) : same_scores t t.
Proof. intros m. reflexivity. Qed.

Lemma same_scores_trans (t1 t2 t3 : Tallies) :
  same_scores t1 t2 -> same_scores t2 t3 -> same_scores t1 t3.
Proof. intros H12 H23 m. rewrite H12. apply H23. Qed.

Lemma add_pattern_scores (mode : ScoredMode) (p : string) (t : Tallies) :
  same_scores (add_pattern mode p t) t.
Proof. intros m. destruct mode, m; reflexivity. Qed.

Lemma add_score_scores (mode : ScoredMode) (x : float) (t t' : Tallies) :
  same_scores t t' -> same_scores (add_score mode x t) (add_score mode x t').
Proof.
  intros Hs m. pose proof (Hs Expert) as He. pose proof (Hs Creative) as Hc.
  pose proof (Hs Talk) as Ht. cbn in He, Hc, Ht.
  destruct mode, m; cbn; congruence.
Qed.

Lemma contextual_word_step_scores (text_lower : string) (mode : ScoredMode)
    (entry : string * WordModifiers) (t t' : Tallies) :
  same_scores t t' ->
  same_scores (contextual_word_step config text_lower mode t entry)
    (contextual_word_step config text_lower mode t' entry).
Proof.
  intros Hs. unfold contextual_word_step. cbv zeta.
  destruct (contains entry.1 text_lower); [| exact Hs].
  destruct (first_in text_lower (enhancers entry.2)) as [enhancer |];
    destruct (first_in text_lower (suppressors entry.2)) as [suppressor |];
    cbn [fst snd];
    repeat first
      [ exact Hs
      | match goal with
        | |- same_scores (if ?c then _ else _) (if ?c then _ else _) => destruct c
        | |- same_scores (add_pattern _ _ _) _ =>
            eapply same_scores_trans; [apply add_pattern_scores |]
        | |- same_scores _ (add_pattern _ _ _) =>
            eapply same_scores_trans; [| intros m; symmetry; apply add_pattern_scores]
        | |- same_scores (add_score _ _ _) (add_score _ _ _) => apply add_score_scores
        end ].
Qed.

Lemma contextual_words_scores (text_lower : string) (mode : ScoredMode)
    (words : list (string * WordModifiers)) : forall t t' : Tallies,
  same_scores t t' ->
  same_scores (fold_left (contextual_word_step config text_lower mode) words t)
    (fold_left (contextual_word_step config text_lower mode) words t').
Proof.
  induction words as [| entry words IH]; intros t t' Hs; [exact Hs |].
  simpl. apply IH, contextual_word_step_scores, Hs.
Qed.

Lemma suppressed_word_scores (text_lower : string) (mode : ScoredMode) (word : string)
    (modifiers : WordModifiers) (suppressor : string) (t : Tallies) :
  first_in text_lower (suppressors modifiers) = Some suppressor ->
  same_scores (contextual_word_step config text_lower mode t (word, modifiers)) t.
Proof.
  intros Hsup. unfold contextual_word_step. cbv zeta. cbn [fst snd].
  destruct (contains word text_lower); [| apply same_scores_refl].
  rewrite Hsup.
  change (PrimFloat.eqb CONTEXTUAL_PATTERN_SUPPRESSOR_MULTIPLIER 0%float) with true. cbv iota.
  eapply same_scores_trans; [apply add_pattern_scores |].
  destruct (first_in text_lower (enhancers modifiers)); cbn [snd];
    [apply add_pattern_scores | apply same_scores_refl].
Qed.

(** X19. A suppressor switches its word off.  In the loop over the
    contextual words of a mode, a word one of whose suppressors occurs in
    the text adds nothing to any score, whether or not it occurs itself and
    whether or not one of its enhancers does: the scores after the loop are
    the scores of the loop without that word. *)
Theorem suppressed_word_adds_no_score
    (text_lower : string) (mode : ScoredMode) (word suppressor : string)
    (modifiers : WordModifiers) (before after : list (string * WordModifiers))
    (t : Tallies) :
  In suppressor (suppressors modifiers) ->
  contains suppressor text_lower = true ->
  same_scores
    (fold_left (contextual_word_step config text_lower mode)
       (before ++ (word, modifiers) :: after) t)
    (fold_left (contextual_word_step config text_lower mode) (before ++ after) t).
Proof.
  intros Hin Hocc.
  assert (Hfirst : exists s, first_in text_lower (suppressors modifiers) = Some s).
  { unfold first_in.
    destruct (List.find (fun c => contains c text_lower) (suppressors modifiers)) as [s |] eqn:Hf;
      [exists s; reflexivity |].
    pose proof (find_none _ _ Hf suppressor Hin) as Hno. cbv beta in Hno.
    rewrite Hocc in Hno. discriminate. }
  destruct Hfirst as [s Hs].
  rewrite !fold_left_app. cbn [fold_left].
  apply contextual_words_scores. eapply suppressed_word_scores, Hs.
Qed.

End DetectionProperties.

(** Two texts under the small configuration: a question that names a
    contextual word, and the early return on a one-letter text. *)
Lemma detected_mode_is_valid_and_confidence_capped_witness :
  (exists d, small_detect (VStr "Why exactly does it hold?") (session_with 3 []) = Return d
             /\ detected_mode d = "expert"
             /\ confidence d = 1%float)
  /\ (exists d, small_detect (VStr "k") (session_with 3 []) = Return d
                /\ detected_mode d = "talk"
                /\ detection_details d = None).
Proof.
  split.
  - assert (Hrun : exists d,
              small_detect (VStr "Why exactly does it hold?") (session_with 3 []) = Return d
              /\ detected_mode d = "expert" /\ confidence d = 1%float)
      by (vm_compute; eexists; repeat split).
    destruct Hrun as (d & Hrun & Hmode & Hconf).
    destruct (@detected_mode_is_valid_and_confidence_capped ActorSystem plain_collaborators
                small_config lower (fun _ => 0%float) false 0
                (VStr "Why exactly does it hold?") (session_with 3 []) d Hrun)
      as (_ & _ & Hvalid).
    exists d. repeat split; assumption.
  - assert (Hrun : exists d,
              small_detect (VStr "k") (session_with 3 []) = Return d
              /\ detected_mode d = "talk" /\ detection_details d = None)
      by (vm_compute; eexists; repeat split).
    destruct Hrun as (d & Hrun & Hmode & Hdet).
    destruct (@detected_mode_is_valid_and_confidence_capped ActorSystem plain_collaborators
                small_config lower (fun _ => 0%float) false 0
                (VStr "k") (session_with 3 []) d Hrun)
      as (_ & _ & Hvalid).
    exists d. repeat split; assumption.
Defined.

(** A text the small configuration has no pattern for: two Cyrillic letters,
    four bytes, which [len] counts as the two characters the configuration
    asks for. *)
Lemma unmatched_text_is_talk_at_the_threshold_witness :
  exists d,
    small_detect (VStr "да") (session_with 3 []) = Return d
    /\ detected_mode d = "talk"
    /\ confidence d = MODE_CONFIDENCE_THRESHOLD.
Proof.
  destruct (@unmatched_text_is_talk_at_the_threshold ActorSystem plain_collaborators
              small_config lower (fun _ => 0%float) false 0 "да" (session_with 3 []))
    as (d & Hrun & Hmode & Hconf & _).
  - discriminate.
  - vm_compute. discriminate.
  - vm_compute. reflexivity.
  - exists d. split; [exact Hrun |]. split; [exact Hmode |]. rewrite Hconf. reflexivity.
Defined.

(** The word [why] with its suppressor [not] in the text. *)
Lemma suppressed_word_adds_no_score_witness :
  same_scores
    (fold_left (contextual_word_step small_config "why not" Expert)
       ([] ++ ("why", {| enhancers := ["exactly"]; suppressors := ["not"] |}) :: []) no_tallies)
    (fold_left (contextual_word_step small_config "why not" Expert) ([] ++ []) no_tallies)
  /\ tally_score (expert_tally
       (fold_left (contextual_word_step small_config "why not" Expert)
          [("why", {| enhancers := ["exactly"]; suppressors := ["not"] |})] no_tallies))
     = IntZero
  /\ tally_score (expert_tally
       (fold_left (contextual_word_step small_config "why exactly" Expert)
          [("why", {| enhancers := ["exactly"]; suppressors := ["not"] |})] no_tallies))
     = FloatScore 1.5%float.
Proof.
  split; [| split; vm_compute; reflexivity].
  apply (suppressed_word_adds_no_score small_config "why not" Expert "why" "not"
           {| enhancers := ["exactly"]; suppressors := ["not"] |} [] [] no_tallies).
  - left. reflexivity.
  - vm_compute. reflexivity.
Defined.

(** ** What the actor sends, and calls that fail before they change anything *)

Lemma expected_send_spec (entry : string * ActorMessage) :
  expected_send entry = true ->
  (entry.1 = "memory"
   /\ (message_type entry.2 = MESSAGE_TYPES STORE_MEMORY
       \/ message_type entry.2 = MESSAGE_TYPES GET_CONTEXT))
  \/ (entry.1 = "generation" /\ message_type entry.2 = MESSAGE_TYPES GENERATE_RESPONSE).
Proof.
  unfold expected_send. intros H.
  apply orb_true_iff in H as [H | H]; apply andb_true_iff in H as [Htarget Htype];
    apply String.eqb_eq in Htarget.
  - left. split; [exact Htarget |].
    apply orb_true_iff in Htype as [Htype | Htype]; apply String.eqb_eq in Htype;
      [left | right]; exact Htype.
  - right. split; [exact Htarget |]. apply String.eqb_eq, Htype.
Qed.

Section Sends.
Context {System : Type} {C : Collaborators System}.

Abbreviation expected := (@sends_expected_kept System).

#[local] Instance sends_expected_kept_pre : PreOrder (@sends_expected_kept System).
Proof.
  split.
  - intros st H. exact H.
  - intros a b c Hab Hbc H. apply Hbc, Hab, H.
Qed.

#[local] Existing Instance same_interface_pre.

Lemma interface_expected {A} (m : Act (UserSessionActor System) A) :
  keeps (@same_interface System) m -> keeps expected m.
Proof.
  intros Hm st st' r Hrun Hs. apply Hm in Hrun as (_ & _ & Hsent & _).
  unfold sends_expected. rewrite Hsent. exact Hs.
Qed.

Lemma system_send_expected target msg :
  expected_send (target, msg) = true -> keeps expected (system_send_message target msg).
Proof.
  intros Hok st st' r. unfold system_send_message.
  destruct (actor_system st) as [sys |]; [| intros [= <- _] H; exact H].
  destruct (send_message sys target msg) as [sys' [[] | e]]; intros [= <- _] H;
    unfold sends_expected in *; cbn [sent with_sent with_system]; [| exact H].
  rewrite forallb_app, H. cbn [forallb]. rewrite Hok. reflexivity.
Qed.

Lemma send_if_system_expected target msg :
  expected_send (target, msg) = true -> keeps expected (send_if_system target msg).
Proof.
  intros Hok st st' r. unfold send_if_system. destruct (has_actor_system st).
  - apply system_send_expected, Hok.
  - intros [= <- _] H. exact H.
Qed.

Lemma pop_pending_expected rid : keeps expected (pop_pending rid).
Proof.
  intros st st' r. unfold pop_pending.
  destruct (dict_get rid (_pending_requests st)); intros [= <- _] H; exact H.
Qed.

Lemma register_expected rid (entry : PendingRequest) :
  keeps expected
    (act_modify (fun st : UserSessionActor System =>
       with_pending (dict_set rid entry (_pending_requests st)) st)).
Proof. apply keeps_modify. intros st H. exact H. Qed.

#[local] Hint Resolve log_interface put_session_interface details_interface
  append_event_interface session_setattr_interface session_mutate_interface
  get_or_create_interface update_mode_interface touch_session_interface
  update_cache_metrics_interface : keeps.
#[local] Hint Resolve pop_pending_expected register_expected : keeps.
#[local] Hint Extern 1 (keeps _ (the_session _)) => keeps_apply keeps_the_session : keeps.
#[local] Hint Extern 1 (keeps (@sends_expected_kept _) (system_send_message _ _)) =>
  apply system_send_expected; reflexivity : keeps.
#[local] Hint Extern 1 (keeps (@sends_expected_kept _) (send_if_system _ _)) =>
  apply send_if_system_expected; reflexivity : keeps.
#[local] Hint Extern 3 (keeps (@sends_expected_kept _) _) => apply interface_expected : keeps.

Lemma handle_user_message_expected now uuid message :
  keeps expected (_handle_user_message now uuid message).
Proof. unfold _handle_user_message. cbv zeta. keeps_all. Qed.

Lemma handle_context_response_expected message :
  keeps expected (handle_context_response message).
Proof. unfold handle_context_response. cbv zeta. keeps_all. Qed.

Lemma handle_bot_response_expected now message :
  keeps expected (handle_bot_response now message).
Proof. unfold handle_bot_response. keeps_all. Qed.

#[local] Hint Resolve handle_context_response_expected handle_bot_response_expected : keeps.

Lemma handle_message_expected now uuid message : keeps expected (handle_message now uuid message).
Proof.
  unfold handle_message.
  destruct (String.eqb (message_type message) (MESSAGE_TYPES USER_MESSAGE)).
  - intros st st' r H.
    apply act_bind_run in H as [(reply & s1 & Hhandle & H) | (e & Hhandle & _)].
    + pose proof (handle_user_message_Return _ _ _ _ _ _ Hhandle)
        as (_ & _ & _ & _ & _ & _ & _ & -> & _).
      injection H as <- _. exact (handle_user_message_expected _ _ _ _ _ _ Hhandle).
    + exact (handle_user_message_expected _ _ _ _ _ _ Hhandle).
  - repeat match goal with |- keeps _ (if ?c then _ else _) => destruct c end; keeps_all.
Qed.

Lemma expire_request_expected rid : keeps expected (expire_request rid).
Proof. unfold expire_request. keeps_all. Qed.

Lemma cleanup_expected now : keeps expected (_cleanup_expired_requests now).
Proof.
  intros st st' r. unfold _cleanup_expired_requests.
  apply (keeps_for sends_expected_kept). intros rid. apply expire_request_expected.
Qed.

Lemma step_input_expected i (st : UserSessionActor System) :
  sends_expected st -> sends_expected (step_input i st).
Proof.
  intros Hs. destruct i as [now uuid message | now]; unfold step_input, state_after.
  - destruct (handle_message now uuid message st) as [st' r] eqn:Hrun.
    eapply handle_message_expected; eassumption.
  - destruct (_cleanup_expired_requests now st) as [st' r] eqn:Hrun.
    eapply cleanup_expected; eassumption.
Qed.

(** X21. The actor sends nothing but its three kinds of message: whatever
    sequence of messages and sweeps a new actor goes through, and whether the
    calls return or raise, every message it has passed to the actor system is
    a [STORE_MEMORY] or a [GET_CONTEXT] addressed to ["memory"], or a
    [GENERATE_RESPONSE] addressed to ["generation"]. *)
Theorem only_the_three_kinds_of_message_are_sent :
  (forall i (st : UserSessionActor System),
      sends_expected st -> sends_expected (step_input i st))
  /\ (forall (osys : option System) inputs target msg,
        In (target, msg)
           (sent (run_inputs inputs (with_system osys (UserSessionActor_new System)))) ->
        (target = "memory"
         /\ (message_type msg = MESSAGE_TYPES STORE_MEMORY
             \/ message_type msg = MESSAGE_TYPES GET_CONTEXT))
        \/ (target = "generation" /\ message_type msg = MESSAGE_TYPES GENERATE_RESPONSE)).
Proof.
  split; [exact step_input_expected |].
  intros osys inputs target msg.
  assert (Hrun : forall st : UserSessionActor System,
            sends_expected st -> sends_expected (run_inputs inputs st)).
  { induction inputs as [| i inputs IH]; intros st Hs; [exact Hs |].
    simpl. apply IH, step_input_expected, Hs. }
  intros Hin.
  specialize (Hrun (with_system osys (UserSessionActor_new System)) eq_refl).
  unfold sends_expected in Hrun. rewrite forallb_forall in Hrun.
  exact (expected_send_spec (target, msg) (Hrun _ Hin)).
Qed.

(** X22. A reply that cannot be measured loses its request.  A
    [CONTEXT_RESPONSE] for a pending request whose [messages] entry is there
    but has no length ([None], a number) makes [handle_message] raise the
    [TypeError] of [len]; by then the entry has been removed from the pending
    table, and nothing has been sent or logged: with distinct ids the request
    is no longer pending, so neither a later reply nor the sweep answers it. *)
Theorem reply_without_length_loses_the_request
    (now : Z) (uuid : string) (message : ActorMessage) (st : UserSessionActor System)
    (rid : string) (pending : PendingRequest) (v : Value) (e : PyExc) :
  message_type message = MESSAGE_TYPES CONTEXT_RESPONSE ->
  dict_get "request_id" (payload message) = Some (VStr rid) ->
  rid <> "" ->
  dict_get rid (_pending_requests st) = Some pending ->
  unique_ids st ->
  dict_get "messages" (payload message) = Some v ->
  py_len v = Raise e ->
  handle_message now uuid message st
  = (with_pending (dict_pop rid (_pending_requests st)) st, Raise e)
  /\ dict_get rid (dict_pop rid (_pending_requests st)) = None
  /\ forall now', ~ In rid (expired_ids now' (dict_pop rid (_pending_requests st))).
Proof.
  intros Htype Hrid Hne Hpending Hunique Hmessages Hlen.
  assert (Hgone : dict_get rid (dict_pop rid (_pending_requests st)) = None)
    by (apply dict_get_pop_eq, Hunique).
  split; [| split; [exact Hgone |]].
  - rewrite (handle_message_context_response now uuid message st Htype).
    unfold handle_context_response, get_default. cbv zeta. rewrite Hrid, Hmessages.
    unfold act_bind at 1, act_get.
    rewrite (known_request_string rid (_pending_requests st) pending Hne Hpending).
    unfold act_bind at 1, act_lift. unfold act_bind at 1, pop_pending. rewrite Hpending.
    unfold act_bind at 1, act_lift. rewrite Hlen. reflexivity.
  - intros now' Hin. apply dict_get_None_keys in Hgone. apply Hgone.
    unfold expired_ids in Hin. apply list_elem_of_In in Hin.
    eapply dict_keys_filter. exact Hin.
Qed.

(** X23. A user message that lacks a field changes nothing.  When the payload
    of a [USER_MESSAGE] lacks [user_id], [text] or [chat_id], [handle_message]
    raises the [KeyError] of the first of them that is missing, in that
    order, and leaves the actor as it was: no session is created, nothing is
    sent, appended or logged. *)
Theorem user_message_without_a_field_changes_nothing
    (now : Z) (uuid : string) (message : ActorMessage) (st : UserSessionActor System)
    (k : string) :
  message_type message = MESSAGE_TYPES USER_MESSAGE ->
  first_missing_key (payload message) = Some k ->
  handle_message now uuid message st = (st, Raise (KeyError k)).
Proof.
  intros Htype Hmissing. unfold handle_message. rewrite Htype, String.eqb_refl.
  unfold _handle_user_message. cbv zeta.
  unfold first_missing_key, dict_mem in Hmissing. cbn [List.find] in Hmissing.
  unfold act_bind at 1. unfold act_bind at 1, act_lift, subscript.
  destruct (dict_get "user_id" (payload message)) as [user_id |];
    [| injection Hmissing as <-; reflexivity].
  unfold act_bind at 1.
  destruct (dict_get "text" (payload message)) as [text |];
    [| injection Hmissing as <-; reflexivity].
  unfold act_bind at 1.
  destruct (dict_get "chat_id" (payload message)) as [chat_id |];
    [discriminate | injection Hmissing as <-; reflexivity].
Qed.

End Sends.

(** The first message on the registered actor sends a [STORE_MEMORY] and a
    [GET_CONTEXT], both expected. *)
Lemma only_the_three_kinds_of_message_are_sent_witness :
  sends_expected
    (step_input (C := plain_collaborators) (Deliver 100 "id-1" (user_message "u1" "expert"))
       (attached three_actors)).
Proof.
  apply (proj1 (@only_the_three_kinds_of_message_are_sent ActorSystem plain_collaborators)).
  reflexivity.
Defined.

(** The reply to the request of the registered actor, with [None] for the
    messages. *)
Lemma reply_without_length_loses_the_request_witness :
  handle_message (C := plain_collaborators) 200 "id-2"
    (ActorMessage_create "memory" (MESSAGE_TYPES CONTEXT_RESPONSE)
       [("request_id", VStr "id-1"); ("messages", VNone)] None)
    registered_with_request
  = (with_pending (dict_pop "id-1" (_pending_requests registered_with_request))
       registered_with_request,
     Raise (TypeError "object has no len()"))
  /\ dict_get "id-1" (dict_pop "id-1" (_pending_requests registered_with_request)) = None
  /\ forall now',
       ~ In "id-1" (expired_ids now' (dict_pop "id-1" (_pending_requests registered_with_request))).
Proof.
  destruct (dict_get "id-1" (_pending_requests registered_with_request)) as [pending |] eqn:Hp;
    [| vm_compute in Hp; discriminate].
  apply (@reply_without_length_loses_the_request ActorSystem plain_collaborators 200 "id-2" _
           registered_with_request "id-1" pending VNone (TypeError "object has no len()"));
    [reflexivity | reflexivity | discriminate | exact Hp | | reflexivity | reflexivity].
  unfold unique_ids. vm_compute. apply NoDup_singleton.
Defined.

(** A user message without [chat_id]: the first missing key is [chat_id], and
    the new actor is left without a session. *)
Lemma user_message_without_a_field_changes_nothing_witness :
  handle_message (C := plain_collaborators) 100 "id-1"
    (ActorMessage_create "test" (MESSAGE_TYPES USER_MESSAGE)
       [("user_id", VStr "u1"); ("text", VStr "expert")] None)
    (attached three_actors)
  = (attached three_actors, Raise (KeyError "chat_id")).
Proof.
  apply (@user_message_without_a_field_changes_nothing ActorSystem plain_collaborators);
    reflexivity.
Defined.
